(** * Cloud Quiz Battle: the session engine of the polling server

    A shallow embedding of the Redis-backed Express server
    ([src/unnamed/part_001]): rooms, the lazily resolved answering/revealing
    phases, scoring, answer tracking, quiz loading and results.

    Conventions of the embedding.
    - The Redis store is a finite map from keys to parsed values
      ([gmap string Room], [gmap string Quiz]); expiry and Redis failures
      are not modelled.
    - A JavaScript object used as a dictionary ([scores], [playerAnswers],
      [currentQuestionAnswers]) is an insertion-ordered association list,
      because [Object.entries] enumerates it in that order.  Keys that are
      canonical array indices (which JavaScript enumerates first) and names
      of [Object.prototype] members are outside the model.
    - Numbers are integers in [Z]; timestamps are milliseconds as returned by
      [Date.now()].  Each handler takes one instant [now] for all of its
      clock reads.
    - An uncaught [TypeError] in a handler is the response [Crashed]. *)

From stdpp Require Import gmap strings list fin_maps.
From Stdlib Require Import ZArith Ascii String Lia Sorted.

Local Open Scope Z_scope.

(** ** JavaScript objects as insertion-ordered dictionaries *)

Module JsObject.

Definition t (V : Type) : Type := list (string * V).

Definition empty {V} : t V := [].

(** [o[k]]: [None] is [undefined]. *)
Fixpoint get {V} (k : string) (o : t V) : option V :=
  match o with
  | [] => None
  | (k', v) :: rest => if String.eqb k k' then Some v else get k rest
  end.

(** [o[k] = v]: an existing property keeps its place, a new one goes last. *)
Fixpoint set {V} (k : string) (v : V) (o : t V) : t V :=
  match o with
  | [] => [(k, v)]
  | (k', v') :: rest =>
      if String.eqb k k' then (k, v) :: rest else (k', v') :: set k v rest
  end.

(** [Object.entries(o)] *)
Definition entries {V} (o : t V) : list (string * V) := o.

End JsObject.

(** ** Data model *)

Inductive Status := StWaiting | StPlaying | StFinished.
Inductive Phase := PhWaiting | PhAnswering | PhRevealing.

Record Question := mkQuestion {
  q_question : string;
  q_options : list string;
  q_correct : Z;
  q_explanation : string
}.

Record Player := mkPlayer {
  p_name : string;
  p_joinedAt : Z
}.

Record AnswerRecord := mkAnswerRecord {
  a_questionIndex : nat;
  a_question : string;
  a_playerAnswer : Z;
  a_correctAnswer : Z;
  a_options : list string;
  a_explanation : string;
  a_isCorrect : bool
}.

(** The room object.  [questionStartTime], [revealStartTime],
    [currentQuestionAnswers] and [fileNames] are absent from a freshly
    created room.  The two timestamps are only read after the handler that
    writes them ([start-game], the move to revealing), so they are kept as
    plain numbers; the two others are [None] while absent. *)
Record Room := mkRoom {
  name : string;
  isPublic : bool;
  players : list Player;
  questions : list Question;
  currentQuestion : nat;
  scores : JsObject.t Z;
  playerAnswers : JsObject.t (list AnswerRecord);
  status : Status;
  phase : Phase;
  courseContent : string;
  createdAt : Z;
  lastUpdate : Z;
  questionStartTime : Z;
  revealStartTime : Z;
  currentQuestionAnswers : option (JsObject.t Z);
  fileNames : option (list string)
}.

Record Quiz := mkQuiz {
  quiz_name : string;
  quiz_questions : list Question;
  quiz_fileNames : list string;
  quiz_createdAt : Z
}.

Record Store := mkStore {
  rooms : gmap string Room;
  quizzes : gmap string Quiz
}.

Global Instance Status_eq_dec : EqDecision Status.
Proof. solve_decision. Defined.
Global Instance Phase_eq_dec : EqDecision Phase.
Proof. solve_decision. Defined.

(** ** Field assignments [room.f = v] *)

Definition set_players (v : list Player) (room : Room) : Room :=
  mkRoom (name room) (isPublic room) v (questions room) (currentQuestion room)
    (scores room) (playerAnswers room) (status room) (phase room) (courseContent room)
    (createdAt room) (lastUpdate room) (questionStartTime room) (revealStartTime room)
    (currentQuestionAnswers room) (fileNames room).

Definition set_questions (v : list Question) (room : Room) : Room :=
  mkRoom (name room) (isPublic room) (players room) v (currentQuestion room)
    (scores room) (playerAnswers room) (status room) (phase room) (courseContent room)
    (createdAt room) (lastUpdate room) (questionStartTime room) (revealStartTime room)
    (currentQuestionAnswers room) (fileNames room).

Definition set_currentQuestion (v : nat) (room : Room) : Room :=
  mkRoom (name room) (isPublic room) (players room) (questions room) v (scores room)
    (playerAnswers room) (status room) (phase room) (courseContent room)
    (createdAt room) (lastUpdate room) (questionStartTime room) (revealStartTime room)
    (currentQuestionAnswers room) (fileNames room).

Definition set_scores (v : JsObject.t Z) (room : Room) : Room :=
  mkRoom (name room) (isPublic room) (players room) (questions room)
    (currentQuestion room) v (playerAnswers room) (status room) (phase room)
    (courseContent room) (createdAt room) (lastUpdate room) (questionStartTime room)
    (revealStartTime room) (currentQuestionAnswers room) (fileNames room).

Definition set_playerAnswers (v : JsObject.t (list AnswerRecord)) (room : Room) : Room :=
  mkRoom (name room) (isPublic room) (players room) (questions room)
    (currentQuestion room) (scores room) v (status room) (phase room)
    (courseContent room) (createdAt room) (lastUpdate room) (questionStartTime room)
    (revealStartTime room) (currentQuestionAnswers room) (fileNames room).

Definition set_status (v : Status) (room : Room) : Room :=
  mkRoom (name room) (isPublic room) (players room) (questions room)
    (currentQuestion room) (scores room) (playerAnswers room) v (phase room)
    (courseContent room) (createdAt room) (lastUpdate room) (questionStartTime room)
    (revealStartTime room) (currentQuestionAnswers room) (fileNames room).

Definition set_phase (v : Phase) (room : Room) : Room :=
  mkRoom (name room) (isPublic room) (players room) (questions room)
    (currentQuestion room) (scores room) (playerAnswers room) (status room) v
    (courseContent room) (createdAt room) (lastUpdate room) (questionStartTime room)
    (revealStartTime room) (currentQuestionAnswers room) (fileNames room).

Definition set_courseContent (v : string) (room : Room) : Room :=
  mkRoom (name room) (isPublic room) (players room) (questions room)
    (currentQuestion room) (scores room) (playerAnswers room) (status room)
    (phase room) v (createdAt room) (lastUpdate room) (questionStartTime room)
    (revealStartTime room) (currentQuestionAnswers room) (fileNames room).

Definition set_lastUpdate (v : Z) (room : Room) : Room :=
  mkRoom (name room) (isPublic room) (players room) (questions room)
    (currentQuestion room) (scores room) (playerAnswers room) (status room)
    (phase room) (courseContent room) (createdAt room) v (questionStartTime room)
    (revealStartTime room) (currentQuestionAnswers room) (fileNames room).

Definition set_questionStartTime (v : Z) (room : Room) : Room :=
  mkRoom (name room) (isPublic room) (players room) (questions room)
    (currentQuestion room) (scores room) (playerAnswers room) (status room)
    (phase room) (courseContent room) (createdAt room) (lastUpdate room) v
    (revealStartTime room) (currentQuestionAnswers room) (fileNames room).

Definition set_revealStartTime (v : Z) (room : Room) : Room :=
  mkRoom (name room) (isPublic room) (players room) (questions room)
    (currentQuestion room) (scores room) (playerAnswers room) (status room)
    (phase room) (courseContent room) (createdAt room) (lastUpdate room)
    (questionStartTime room) v (currentQuestionAnswers room) (fileNames room).

Definition set_currentQuestionAnswers (v : option (JsObject.t Z)) (room : Room) : Room :=
  mkRoom (name room) (isPublic room) (players room) (questions room)
    (currentQuestion room) (scores room) (playerAnswers room) (status room)
    (phase room) (courseContent room) (createdAt room) (lastUpdate room)
    (questionStartTime room) (revealStartTime room) v (fileNames room).

Definition set_fileNames (v : option (list string)) (room : Room) : Room :=
  mkRoom (name room) (isPublic room) (players room) (questions room)
    (currentQuestion room) (scores room) (playerAnswers room) (status room)
    (phase room) (courseContent room) (createdAt room) (lastUpdate room)
    (questionStartTime room) (revealStartTime room) (currentQuestionAnswers room) v.

(** TIMER SETTINGS *)
Definition QUESTION_TIME : Z := 30.
Definition REVEAL_TIME : Z := 5.

(** [getRoom] / [setRoom]: the keys [room:<code>] and [quiz:<id>] of the one
    Redis keyspace are kept in two maps. *)
Definition getRoom (roomCode : string) (st : Store) : option Room :=
  rooms st !! roomCode.

Definition setRoom (roomCode : string) (room : Room) (st : Store) : Store :=
  mkStore (<[roomCode := room]> (rooms st)) (quizzes st).

Definition getSavedQuiz (quizId : string) (st : Store) : option Quiz :=
  quizzes st !! quizId.

Definition saveQuiz (quizId : string) (quiz : Quiz) (st : Store) : Store :=
  mkStore (rooms st) (<[quizId := quiz]> (quizzes st)).

(** ** Room codes: [Math.random().toString(36).substring(2, 8).toUpperCase()] *)

Module RoomCode.

(** [Math.random()] returns a double in [0, 1); V8 draws 52 random bits, so
    the value is [m / 2^52] for a numerator [m < 2^52]. *)
Definition denominator : N := (2 ^ 52)%N.

Definition digitChars : list ascii :=
  list_ascii_of_string "0123456789abcdefghijklmnopqrstuvwxyz".

Definition digitChar (d : N) : ascii := nth (N.to_nat d) digitChars "?"%char.

(** Base-36 digits of the fraction [num / den], until the remainder is 0. *)
Fixpoint fractionDigits (fuel : nat) (num den : N) : list N :=
  match fuel with
  | O => []
  | S fuel' =>
      if (num =? 0)%N then []
      else (36 * num / den)%N :: fractionDigits fuel' ((36 * num) mod den)%N den
  end.

(** [x.toString(36)] for [x = m / 2^52]: the exact expansion, which ends
    within 26 digits because [2^52] divides [36^26].  Engines stop printing
    as soon as the digits read back as the same double (rounding the last
    one); on draws whose expansion has at most six digits they print exactly
    this expansion. *)
Definition toString36 (m : N) : string :=
  if (m =? 0)%N then "0"%string
  else ("0." ++ string_of_list_ascii (map digitChar (fractionDigits 26 m denominator)))%string.

Definition upperChar (c : ascii) : ascii :=
  let n := nat_of_ascii c in
  if ((97 <=? n) && (n <=? 122))%nat then ascii_of_nat (n - 32) else c.

Fixpoint toUpperCase (s : string) : string :=
  match s with
  | EmptyString => EmptyString
  | String c s' => String (upperChar c) (toUpperCase s')
  end.

(** [s.substring(2, 8)] *)
Definition substring_2_8 (s : string) : string := substring 2 6 s.

Definition roomCodeOf (m : N) : string :=
  toUpperCase (substring_2_8 (toString36 m)).


End RoomCode.

(** [POST /api/create-room] *)
Definition newRoom (roomName : option string) (isPublicArg : option bool)
    (now : Z) : Room :=
  {| name := match roomName with
             | Some s => if String.eqb s "" then "Quiz Room"%string else s
             | None => "Quiz Room"%string
             end;
     isPublic := match isPublicArg with Some false => false | _ => true end;
     players := [];
     questions := [];
     currentQuestion := 0%nat;
     scores := JsObject.empty;
     playerAnswers := JsObject.empty;
     status := StWaiting;
     phase := PhWaiting;
     courseContent := ""%string;
     createdAt := now;
     lastUpdate := now;
     questionStartTime := 0;
     revealStartTime := 0;
     currentQuestionAnswers := None;
     fileNames := None |}.

Definition create_room (random : N) (roomName : option string)
    (isPublicArg : option bool) (now : Z) (st : Store) : Store * string :=
  let roomCode := RoomCode.roomCodeOf random in
  (setRoom roomCode (newRoom roomName isPublicArg now) st, roomCode).

(** ** Responses *)

Record QuestionView := mkView {
  v_questionNum : nat;
  v_totalQuestions : nat;
  v_question : string;
  v_options : list string;
  v_correctAnswer : option Z;
  v_explanation : option string;
  v_timeLeft : Z;
  v_timeLimit : option Z;
  v_phase : Phase;
  v_status : Status;
  v_scores : JsObject.t Z
}.

Record ResultsView := mkResults {
  r_scores : JsObject.t Z;
  r_winner : string * Z;
  r_myAnswers : list AnswerRecord;
  r_status : Status
}.

Inductive Response :=
| NotFound                      (* 404 *)
| BadRequest                    (* 400 *)
| GenerationFailed              (* 500 'Failed to generate quiz: ...' *)
| Crashed                       (* uncaught TypeError, no response *)
| Joined (ps : list Player) (sc : JsObject.t Z) (s : Status)
| QuizGenerated (numQuestions : nat) (quizId quizName : string)
| QuizLoaded (numQuestions : nat) (quizName : string)
| Started
| StatusOnly (s : Status)       (* { status } *)
| Finished (sc : JsObject.t Z)  (* { status: 'finished', scores } *)
| View (v : QuestionView)
| AlreadyAnswered               (* { alreadyAnswered: true } *)
| Submitted (myAnswer : Z) (sc : JsObject.t Z)
| Results (r : ResultsView).

(** A handler that reads one room, mutates its copy and hands it to
    [setRoom]: the body maps what [getRoom] returned to the room written
    back (the last one handed to [setRoom], if the path reaches it) and the
    response. *)
Definition Handler : Type := option Room -> option Room * Response.

Definition serve (h : Handler) (roomCode : string) (st : Store) : Store * Response :=
  let '(written, resp) := h (getRoom roomCode st) in
  (match written with
   | Some room => setRoom roomCode room st
   | None => st
   end, resp).

(** ** Small JavaScript idioms *)

(** [room.players.find(p => p.name === playerName)] is truthy *)
Definition hasPlayer (playerName : string) (ps : list Player) : bool :=
  existsb (fun p => String.eqb (p_name p) playerName) ps.

(** Truthiness of a stored number: [undefined] and [0] are falsy. *)
Definition truthy (v : option Z) : bool :=
  match v with
  | Some n => negb (n =? 0)
  | None => false
  end.

(** [x || d] on a possibly missing number *)
Definition orElse (v : option Z) (d : Z) : Z :=
  match v with
  | Some n => if n =? 0 then d else n
  | None => d
  end.

(** [Math.floor((now - start) / 1000)] *)
Definition elapsedSeconds (now start : Z) : Z := (now - start) / 1000.

(** ** Lazy registration of a player

    join-room and submit-answer both begin with the same three statements:
    push the player unless [players.find] sees the name, set the score to 0
    if it is [undefined], create the history if there is none. *)
Definition ensurePlayer (now : Z) (playerName : string) (room : Room) : Room :=
  let room :=
    if hasPlayer playerName (players room) then room
    else set_players (players room ++ [mkPlayer playerName now]) room in
  let room :=
    match JsObject.get playerName (scores room) with
    | None => set_scores (JsObject.set playerName 0 (scores room)) room
    | Some _ => room
    end in
  match JsObject.get playerName (playerAnswers room) with
  | None => set_playerAnswers (JsObject.set playerName [] (playerAnswers room)) room
  | Some _ => room
  end.

(** ** [POST /api/join-room/:roomCode] *)

Definition join_room_body (now : Z) (playerName : string) : Handler := fun found =>
  match found with
  | None => (None, NotFound)
  | Some room =>
      let room := ensurePlayer now playerName room in
      let room := set_lastUpdate now room in
      (Some room, Joined (players room) (scores room) (status room))
  end.

Definition join_room (now : Z) (roomCode playerName : string) : Store -> Store * Response :=
  serve (join_room_body now playerName) roomCode.

(** ** [POST /api/start-game/:roomCode] *)

Definition resetPlayer (room : Room) (player : Player) : Room :=
  let room := set_scores (JsObject.set (p_name player) 0 (scores room)) room in
  set_playerAnswers (JsObject.set (p_name player) [] (playerAnswers room)) room.

Definition start_game_body (now : Z) : Handler := fun found =>
  match found with
  | None => (None, BadRequest)
  | Some room =>
      if (List.length (questions room) =? 0)%nat then (None, BadRequest)
      else
        let room := set_status StPlaying room in
        let room := set_phase PhAnswering room in
        let room := set_currentQuestion 0%nat room in
        let room := set_questionStartTime now room in
        let room := set_currentQuestionAnswers (Some JsObject.empty) room in
        let room := fold_left resetPlayer (players room) room in
        let room := set_lastUpdate now room in
        (Some room, Started)
  end.

Definition start_game (now : Z) (roomCode : string) : Store -> Store * Response :=
  serve (start_game_body now) roomCode.

(** ** [GET /api/question/:roomCode]: handles automatic phase transitions *)

(** The view sent at the end of the handler, built from the room as it
    stands once the transitions are done; reading a field of a missing
    question throws. *)
Definition currentView (now : Z) (room : Room) : Response :=
  match questions room !! currentQuestion room with
  | None => Crashed
  | Some question =>
      if bool_decide (phase room = PhAnswering) then
        let timeLeft :=
          Z.max 0 (QUESTION_TIME - elapsedSeconds now (questionStartTime room)) in
        View {| v_questionNum := (currentQuestion room + 1)%nat;
                v_totalQuestions := List.length (questions room);
                v_question := q_question question;
                v_options := q_options question;
                v_correctAnswer := None;
                v_explanation := None;
                v_timeLeft := timeLeft;
                v_timeLimit := Some QUESTION_TIME;
                v_phase := PhAnswering;
                v_status := status room;
                v_scores := scores room |}
      else
        let revealTimeLeft :=
          Z.max 0 (REVEAL_TIME - elapsedSeconds now (revealStartTime room)) in
        View {| v_questionNum := (currentQuestion room + 1)%nat;
                v_totalQuestions := List.length (questions room);
                v_question := q_question question;
                v_options := q_options question;
                v_correctAnswer := Some (q_correct question);
                v_explanation := Some (q_explanation question);
                v_timeLeft := revealTimeLeft;
                v_timeLimit := None;
                v_phase := PhRevealing;
                v_status := status room;
                v_scores := scores room |}
  end.

Definition get_question_body (now : Z) : Handler := fun found =>
  match found with
  | None => (None, NotFound)
  | Some room =>
      match status room with
      | StFinished => (None, Finished (scores room))
      | StWaiting => (None, StatusOnly (status room))
      | StPlaying =>
          let timeElapsed := elapsedSeconds now (questionStartTime room) in
          (* answering -> revealing *)
          let '(room, written) :=
            if bool_decide (phase room = PhAnswering) && (QUESTION_TIME <=? timeElapsed)
            then
              let room := set_phase PhRevealing room in
              let room := set_revealStartTime now room in
              (room, Some room)
            else (room, None) in
          (* revealing -> next question, or finished *)
          let advance :=
            bool_decide (phase room = PhRevealing)
            && (REVEAL_TIME <=? elapsedSeconds now (revealStartTime room)) in
          let room :=
            if advance then
              let room := set_currentQuestion (S (currentQuestion room)) room in
              set_currentQuestionAnswers (Some JsObject.empty) room
            else room in
          if advance && (List.length (questions room) <=? currentQuestion room)%nat then
            let room := set_status StFinished room in
            (Some room, Finished (scores room))
          else
            let '(room, written) :=
              if advance then
                let room := set_phase PhAnswering room in
                let room := set_questionStartTime now room in
                (room, Some room)
              else (room, written) in
            (written, currentView now room)
      end
  end.

Definition get_question (now : Z) (roomCode : string) : Store -> Store * Response :=
  serve (get_question_body now) roomCode.

(** ** [POST /api/submit-answer/:roomCode] *)

Definition submit_answer_body (now : Z) (playerName : string) (answerIndex : Z)
    : Handler := fun found =>
  match found with
  | None => (None, BadRequest)
  | Some room =>
      if negb (bool_decide (status room = StPlaying))
         || negb (bool_decide (phase room = PhAnswering))
      then (None, BadRequest)
      else
        let room := ensurePlayer now playerName room in
        let room :=
          match currentQuestionAnswers room with
          | None => set_currentQuestionAnswers (Some JsObject.empty) room
          | Some _ => room
          end in
        let answered := default JsObject.empty (currentQuestionAnswers room) in
        (* if (room.currentQuestionAnswers[playerName]) *)
        if truthy (JsObject.get playerName answered) then (None, AlreadyAnswered)
        else
          match questions room !! currentQuestion room with
          | None => (None, Crashed)
          | Some question =>
              let timeElapsed := elapsedSeconds now (questionStartTime room) in
              let timeLeft := Z.max 0 (QUESTION_TIME - timeElapsed) in
              let isCorrect := answerIndex =? q_correct question in
              let room :=
                set_currentQuestionAnswers
                  (Some (JsObject.set playerName answerIndex answered)) room in
              let history := default [] (JsObject.get playerName (playerAnswers room)) in
              let record :=
                {| a_questionIndex := currentQuestion room;
                   a_question := q_question question;
                   a_playerAnswer := answerIndex;
                   a_correctAnswer := q_correct question;
                   a_options := q_options question;
                   a_explanation := q_explanation question;
                   a_isCorrect := isCorrect |} in
              let room :=
                set_playerAnswers
                  (JsObject.set playerName (history ++ [record]) (playerAnswers room))
                  room in
              let room :=
                if isCorrect then
                  (* Math.floor is the identity on the integer timeLeft * 50 *)
                  let points := Z.max 100 (timeLeft * 50) in
                  set_scores
                    (JsObject.set playerName
                       (orElse (JsObject.get playerName (scores room)) 0 + points)
                       (scores room))
                    room
                else room in
              let room := set_lastUpdate now room in
              (Some room, Submitted answerIndex (scores room))
          end
  end.

Definition submit_answer (now : Z) (roomCode playerName : string) (answerIndex : Z)
    : Store -> Store * Response :=
  serve (submit_answer_body now playerName answerIndex) roomCode.

(** ** [GET /api/results/:roomCode/:playerName] *)

(** [entries.sort((a, b) => b[1] - a[1])]: a stable sort, larger scores
    first; entries of equal score keep their enumeration order. *)
Fixpoint insertByScore (e : string * Z) (sorted : list (string * Z))
    : list (string * Z) :=
  match sorted with
  | [] => [e]
  | e' :: rest =>
      if snd e' <=? snd e then e :: e' :: rest else e' :: insertByScore e rest
  end.

Definition sortByScoreDesc (l : list (string * Z)) : list (string * Z) :=
  fold_right insertByScore [] l.

Definition results_body (playerName : string) : Handler := fun found =>
  match found with
  | None => (None, NotFound)
  | Some room =>
      let sortedScores := sortByScoreDesc (JsObject.entries (scores room)) in
      (None,
       Results {| r_scores := scores room;
                  r_winner := default ("No winner"%string, 0) (head sortedScores);
                  r_myAnswers := default [] (JsObject.get playerName (playerAnswers room));
                  r_status := status room |})
  end.

Definition get_results (roomCode playerName : string) : Store -> Store * Response :=
  serve (results_body playerName) roomCode.

(** ** Quiz loading: [POST /api/load-quiz] and [POST /api/upload-content] *)

(** What the generation step hands to the handler: the call may reject, the
    text may not be JSON ([JSON.parse] throws), the parsed value may have no
    iterable [questions] (the spread throws), or it is a sequence of
    question records.  Nothing constrains the records. *)
Inductive GenOutput :=
| GenRejected
| GenNotJson
| GenNoQuestionList
| GenParsed (qs : list Question).

Record UploadRequest := mkUploadRequest {
  up_allContent : string;          (* file texts and pasted content *)
  up_fileNames : list string;
  up_quizName : option string;     (* req.body.quizName *)
  up_numQuestions : option Z;      (* parseInt(req.body.numQuestions); None is NaN *)
  up_useExisting : option string;  (* req.body.useExisting *)
  up_mixMode : bool;               (* req.body.mixMode === 'true' *)
  up_mixCount : option Z           (* parseInt(req.body.mixCount); None is NaN *)
}.

Definition isWhitespace (c : ascii) : bool :=
  let n := nat_of_ascii c in
  ((n =? 32) || ((9 <=? n) && (n <=? 13)))%nat.

(** [!s.trim()] on ASCII text *)
Fixpoint isBlank (s : string) : bool :=
  match s with
  | EmptyString => true
  | String c s' => isWhitespace c && isBlank s'
  end.

(** A string is truthy when it is present and not empty. *)
Definition nonEmpty (s : option string) : option string :=
  match s with
  | Some x => if String.eqb x "" then None else Some x
  | None => None
  end.

(** [l.slice(0, e)]: a negative [e] counts from the end. *)
Definition slice0 {A} (l : list A) (e : Z) : list A :=
  if e <? 0 then take (Z.to_nat (Z.of_nat (List.length l) + e)) l
  else take (Z.to_nat e) l.

Section QuizLoading.

(** [list.sort(() => Math.random() - 0.5)]: the outcome of each shuffle is
    chosen by the environment. *)
Variable shuffleArchive : list Question -> list Question.
Variable shuffle : list Question -> list Question.

Definition load_quiz (now : Z) (roomCode quizId : string) (st : Store)
    : Store * Response :=
  match getRoom roomCode st with
  | None => (st, NotFound)
  | Some room =>
      match getSavedQuiz quizId st with
      | None => (st, NotFound)
      | Some quiz =>
          let room := set_questions (shuffle (quiz_questions quiz)) room in
          let room := set_lastUpdate now room in
          (setRoom roomCode room st,
           QuizLoaded (List.length (questions room)) (quiz_name quiz))
      end
  end.

(** [gen] is the outcome of the generation step if the handler runs it,
    [newQuizId] the random id drawn for the archive entry. *)
Definition upload_content (gen : GenOutput) (newQuizId : string) (now : Z)
    (roomCode : string) (req : UploadRequest) (st : Store) : Store * Response :=
  match getRoom roomCode st with
  | None => (st, NotFound)
  | Some room =>
      let allContent := up_allContent req in
      let room := set_courseContent allContent room in
      let room := set_fileNames (Some (up_fileNames req)) room in
      let quizName :=
        match nonEmpty (up_quizName req) with
        | Some n => n
        | None =>
            match nonEmpty (Some (String.concat ", " (up_fileNames req))) with
            | Some n => n
            | None => "Untitled Quiz"%string
            end
        end in
      let numQuestions := orElse (up_numQuestions req) 10 in
      let useExisting := nonEmpty (up_useExisting req) in
      let mixMode := up_mixMode req in
      let mixCount := orElse (up_mixCount req) 5 in
      (* try { *)
      let questions :=
        match useExisting with
        | Some id =>
            match getSavedQuiz id st with
            | Some existingQuiz =>
                if mixMode then
                  slice0 (shuffleArchive (quiz_questions existingQuiz))
                         (numQuestions - mixCount)
                else quiz_questions existingQuiz
            | None => []
            end
        | None => []
        end in
      let needNewQuestions :=
        match useExisting with None => true | Some _ => mixMode end in
      let assembled :=
        if needNewQuestions && negb (isBlank allContent) then
          match gen with
          | GenParsed generated => Some (questions ++ generated)
          | _ => None                      (* thrown, caught below *)
          end
        else Some questions in
      match assembled with
      | Some questions =>
          let questions := shuffle questions in
          let room := set_questions questions room in
          let room := set_lastUpdate now room in
          let st := setRoom roomCode room st in
          let st :=
            saveQuiz newQuizId
              {| quiz_name := quizName;
                 quiz_questions := questions;
                 quiz_fileNames := up_fileNames req;
                 quiz_createdAt := now |} st in
          (st, QuizGenerated (List.length questions) newQuizId quizName)
      | None =>
          (* } catch (error) { res.status(500) } *)
          (st, GenerationFailed)
      end
  end.

(** The handler reaches the generation step. *)
Definition generationRuns (req : UploadRequest) : bool :=
  match nonEmpty (up_useExisting req) with
  | None => true
  | Some _ => up_mixMode req
  end
  && negb (isBlank (up_allContent req)).

End QuizLoading.

(** ** Overlapping requests

    A handler suspends at [await getRoom] and at [await setRoom]; between
    the two it runs without interruption.  Two requests [A] and [B] on the
    same room therefore interleave as reads and write-backs. *)

Module Interleaving.

Inductive Client := A | B.

Inductive Event :=
| ReadRoom (c : Client)
| WriteBack (c : Client).

Inductive Progress :=
| Idle
| Holding (snapshot : option Room)
| Done (resp : Response).

Record World := mkWorld {
  store : Store;
  progressA : Progress;
  progressB : Progress
}.

Definition progressOf (c : Client) (w : World) : Progress :=
  match c with A => progressA w | B => progressB w end.

Definition setProgress (c : Client) (p : Progress) (w : World) : World :=
  match c with
  | A => mkWorld (store w) p (progressB w)
  | B => mkWorld (store w) (progressA w) p
  end.

Section TwoRequests.

Variable roomCode : string.
Variables handlerA handlerB : Handler.

Definition handlerOf (c : Client) : Handler :=
  match c with A => handlerA | B => handlerB end.

Definition step (w : World) (e : Event) : World :=
  match e with
  | ReadRoom c =>
      match progressOf c w with
      | Idle => setProgress c (Holding (getRoom roomCode (store w))) w
      | _ => w
      end
  | WriteBack c =>
      match progressOf c w with
      | Holding snapshot =>
          let '(written, resp) := handlerOf c snapshot in
          let st :=
            match written with
            | Some room => setRoom roomCode room (store w)
            | None => store w
            end in
          setProgress c (Done resp) (mkWorld st (progressA w) (progressB w))
      | _ => w
      end
  end.

Definition run (schedule : list Event) (st : Store) : World :=
  fold_left step schedule (mkWorld st Idle Idle).

(** Outcomes of running the two requests one after the other. *)
Definition serialAB (st : Store) : Store :=
  fst (serve handlerB roomCode (fst (serve handlerA roomCode st))).

Definition serialBA (st : Store) : Store :=
  fst (serve handlerA roomCode (fst (serve handlerB roomCode st))).

End TwoRequests.

Definition separate : list Event :=
  [ReadRoom A; WriteBack A; ReadRoom B; WriteBack B].

Definition overlapping : list Event :=
  [ReadRoom A; ReadRoom B; WriteBack A; WriteBack B].

End Interleaving.

(** ** The server as a whole

    A request together with what the environment contributes to it (the
    clock, random draws, shuffles, the generation result). *)

Inductive Request :=
| CreateRoom (random : N) (roomName : option string) (isPublicArg : option bool) (now : Z)
| JoinRoom (now : Z) (roomCode playerName : string)
| UploadContent (shuffleArchive shuffle : list Question -> list Question)
    (gen : GenOutput) (newQuizId : string) (now : Z) (roomCode : string)
    (req : UploadRequest)
| LoadQuiz (shuffle : list Question -> list Question) (now : Z) (roomCode quizId : string)
| StartGame (now : Z) (roomCode : string)
| GetQuestion (now : Z) (roomCode : string)
| SubmitAnswer (now : Z) (roomCode playerName : string) (answerIndex : Z)
| GetResults (roomCode playerName : string).

Definition handle (request : Request) (st : Store) : Store :=
  match request with
  | CreateRoom random roomName isPublicArg now =>
      fst (create_room random roomName isPublicArg now st)
  | JoinRoom now roomCode playerName => fst (join_room now roomCode playerName st)
  | UploadContent shuffleArchive shuffle gen newQuizId now roomCode req =>
      fst (upload_content shuffleArchive shuffle gen newQuizId now roomCode req st)
  | LoadQuiz shuffle now roomCode quizId => fst (load_quiz shuffle now roomCode quizId st)
  | StartGame now roomCode => fst (start_game now roomCode st)
  | GetQuestion now roomCode => fst (get_question now roomCode st)
  | SubmitAnswer now roomCode playerName answerIndex =>
      fst (submit_answer now roomCode playerName answerIndex st)
  | GetResults roomCode playerName => fst (get_results roomCode playerName st)
  end.

(** The store after a sequence of requests on an empty one. *)
Definition storeAfter (requests : list Request) : Store :=
  fold_left (fun st request => handle request st) requests (mkStore ∅ ∅).

(** ** Notions used to state the properties *)

(** The scoring rule in the words of the specification, with the constants
    of this server. *)
Definition MinimumPoints : Z := 100.
Definition PointsPerSecond : Z := 50.

Definition scoreSpec (isCorrect : bool) (timeLeftSeconds : Z) : Z :=
  if isCorrect then Z.max MinimumPoints (timeLeftSeconds * PointsPerSecond) else 0.

(** A player's score; a player without an entry has scored nothing. *)
Definition scoreOf (playerName : string) (room : Room) : Z :=
  default 0 (JsObject.get playerName (scores room)).

(** The history kept for a player ([[]] when there is none). *)
Definition historyOf (playerName : string) (room : Room) : list AnswerRecord :=
  default [] (JsObject.get playerName (playerAnswers room)).

(** The player has an entry in [currentQuestionAnswers]. *)
Definition presentInCurrentAnswers (playerName : string) (room : Room) : bool :=
  match currentQuestionAnswers room with
  | Some answered => bool_decide (is_Some (JsObject.get playerName answered))
  | None => false
  end.

(** The guard of [submit-answer] fires: the stored entry is truthy. *)
Definition flaggedAsAnswered (playerName : string) (room : Room) : bool :=
  truthy (JsObject.get playerName (default JsObject.empty (currentQuestionAnswers room))).

(** The record appended by an accepted submission. *)
Definition recordOf (room : Room) (question : Question) (answerIndex : Z)
    : AnswerRecord :=
  {| a_questionIndex := currentQuestion room;
     a_question := q_question question;
     a_playerAnswer := answerIndex;
     a_correctAnswer := q_correct question;
     a_options := q_options question;
     a_explanation := q_explanation question;
     a_isCorrect := answerIndex =? q_correct question |}.

(** The three boundaries a call can resolve. *)
Definition toRevealing (now : Z) (room : Room) : Room :=
  set_revealStartTime now (set_phase PhRevealing room).

Definition toNextIndex (room : Room) : Room :=
  set_currentQuestionAnswers (Some JsObject.empty)
    (set_currentQuestion (S (currentQuestion room)) room).

Definition toNextQuestion (now : Z) (room : Room) : Room :=
  set_questionStartTime now (set_phase PhAnswering (toNextIndex room)).

Definition toFinished (room : Room) : Room :=
  set_status StFinished (toNextIndex room).

(** Phase boundaries behind a room since start-game: two per completed
    question, one more while the current question is being revealed. *)
Definition boundariesPassed (room : Room) : nat :=
  (2 * currentQuestion room
   + if bool_decide (status room = StPlaying) && bool_decide (phase room = PhRevealing)
     then 1 else 0)%nat.

(** The validation the specification asks of a generation result: a
    sequence of questions with exactly 4 options and a correct index in
    [0, 3]. *)
Definition wellFormedQuestion (q : Question) : bool :=
  (List.length (q_options q) =? 4)%nat && (0 <=? q_correct q) && (q_correct q <=? 3).

Definition wellFormedOutput (gen : GenOutput) : bool :=
  match gen with
  | GenParsed qs => forallb wellFormedQuestion qs
  | _ => false
  end.

(** Records of a history that belong to one question. *)
Definition recordsFor (questionIndex : nat) (history : list AnswerRecord)
    : list AnswerRecord :=
  filter (fun a => a_questionIndex a = questionIndex) history.

(** Every listed player has a score and a history. *)
Definition registered (room : Room) : bool :=
  forallb (fun p =>
             bool_decide (is_Some (JsObject.get (p_name p) (scores room)))
             && bool_decide (is_Some (JsObject.get (p_name p) (playerAnswers room))))
          (players room).

(** [registered] as a proposition. *)
Definition Registered (room : Room) : Prop :=
  ∀ p, In p (players room) →
       is_Some (JsObject.get (p_name p) (scores room))
       ∧ is_Some (JsObject.get (p_name p) (playerAnswers room)).

(** A handler writes back registered rooms when it reads registered ones. *)
Definition keepsRegistry (h : Handler) : Prop :=
  ∀ found room' resp,
    (∀ room, found = Some room → Registered room) →
    h found = (Some room', resp) →
    Registered room'.


(** ** A small session used in the worked examples *)

Module Scenario.

Definition q1 : Question :=
  mkQuestion "Which service stores objects?"
             ["A) S3"; "B) EC2"; "C) VPC"; "D) IAM"]%string 0
             "S3 is the object store.".

Definition q2 : Question :=
  mkQuestion "Which service runs virtual machines?"
             ["A) S3"; "B) SQS"; "C) EC2"; "D) IAM"]%string 2
             "EC2 provides virtual machines.".

Definition keepOrder (l : list Question) : list Question := l.

Definition emptyStore : Store := mkStore ∅ ∅.

Definition created : Store * string :=
  create_room 1234567890123456%N (Some "Cloud revision"%string) None 1000 emptyStore.

Definition code : string := snd created.

Definition joined : Store := fst (join_room 2000 code "ana" (fst created)).

Definition request : UploadRequest :=
  mkUploadRequest "Object storage and compute notes" [] None (Some 2) None false None.

Definition loaded : Store :=
  fst (upload_content keepOrder keepOrder (GenParsed [q1; q2]) "k3x9qz1a" 3000
         code request joined).

Definition started : Store := fst (start_game 10000 code loaded).

(** ana picks option 0 five seconds into the first question. *)
Definition answeredOnce : Store * Response := submit_answer 15000 code "ana" 0 started.

(** ... and sends option 0 again a second later. *)
Definition answeredTwice : Store * Response :=
  submit_answer 16000 code "ana" 0 (fst answeredOnce).

(** A generated question with three options and correct index 7. *)
Definition malformed : Question :=
  mkQuestion "Broken?" ["A) yes"; "B) no"; "C) maybe"]%string 7 "".

(** Two players answer the first question at the same moment. *)
Definition anaAnswers : Handler := submit_answer_body 15000 "ana" 0.
Definition benAnswers : Handler := submit_answer_body 15000 "ben" 2.

End Scenario.

(** ** The remaining endpoints of the polling server *)

(** [list.sort((a, b) => b.createdAt - a.createdAt)]: a stable sort, newest
    first. *)
Fixpoint insertNewestFirst {A} (createdAt : A -> Z) (e : A) (sorted : list A)
    : list A :=
  match sorted with
  | [] => [e]
  | e' :: rest =>
      if createdAt e' <=? createdAt e then e :: e' :: rest
      else e' :: insertNewestFirst createdAt e rest
  end.

Definition sortNewestFirst {A} (createdAt : A -> Z) (l : list A) : list A :=
  fold_right (insertNewestFirst createdAt) [] l.

Record PublicRoom := mkPublicRoom {
  pr_code : string;
  pr_name : string;
  pr_playerCount : nat;
  pr_hasQuiz : bool;
  pr_createdAt : Z
}.

(** One turn of the loop of [getPublicRooms]: the key is read again, and a
    key that is gone by then, or a room that is private or no longer
    waiting, contributes nothing. *)
Definition publicRoomEntry (st : Store) (key : string) : option PublicRoom :=
  match getRoom key st with
  | Some room =>
      if isPublic room && bool_decide (status room = StWaiting) then
        Some {| pr_code := key;
                pr_name := name room;
                pr_playerCount := List.length (players room);
                pr_hasQuiz := negb (List.length (questions room) =? 0)%nat;
                pr_createdAt := createdAt room |}
      else None
  | None => None
  end.

(** [getPublicRooms]; [keys] is what [redis.keys('room:*')] returned, in the
    order Redis chose, with the prefix removed. *)
Definition getPublicRooms (keys : list string) (st : Store) : list PublicRoom :=
  sortNewestFirst pr_createdAt (omap (publicRoomEntry st) keys).

Record SavedQuizEntry := mkSavedQuizEntry {
  sq_id : string;
  sq_name : string;
  sq_questionCount : nat;
  sq_createdAt : Z
}.

Definition savedQuizEntry (st : Store) (key : string) : option SavedQuizEntry :=
  match getSavedQuiz key st with
  | Some quiz =>
      Some {| sq_id := key;
              sq_name := quiz_name quiz;
              sq_questionCount := List.length (quiz_questions quiz);
              sq_createdAt := quiz_createdAt quiz |}
  | None => None
  end.

(** [listSavedQuizzes]; [keys] is what [redis.keys('quiz:*')] returned. *)
Definition listSavedQuizzes (keys : list string) (st : Store) : list SavedQuizEntry :=
  sortNewestFirst sq_createdAt (omap (savedQuizEntry st) keys).

(** [DELETE /api/quiz/:quizId] *)
Definition delete_quiz (quizId : string) (st : Store) : Store :=
  mkStore (rooms st) (delete quizId (quizzes st)).

(** [GET /api/room/:roomCode]; [None] is the 404 answer. *)
Record RoomState := mkRoomState {
  rs_name : string;
  rs_isPublic : bool;
  rs_players : list Player;
  rs_scores : JsObject.t Z;
  rs_status : Status;
  rs_phase : Phase;
  rs_hasQuiz : bool;
  rs_questionCount : nat;
  rs_currentQuestion : nat;
  rs_totalQuestions : nat;
  rs_lastUpdate : Z
}.

Definition get_room_state (roomCode : string) (st : Store) : option RoomState :=
  match getRoom roomCode st with
  | None => None
  | Some room =>
      Some {| rs_name := name room;
              rs_isPublic := isPublic room;
              rs_players := players room;
              rs_scores := scores room;
              rs_status := status room;
              rs_phase := phase room;
              rs_hasQuiz := negb (List.length (questions room) =? 0)%nat;
              rs_questionCount := List.length (questions room);
              rs_currentQuestion := currentQuestion room;
              rs_totalQuestions := List.length (questions room);
              rs_lastUpdate := lastUpdate room |}
  end.

(** ** Notions for the properties of the whole server *)

(** The room a request is addressed to ([None] for create-room, which
    draws its own code). *)
Definition requestRoom (request : Request) : option string :=
  match request with
  | CreateRoom _ _ _ _ => None
  | JoinRoom _ roomCode _ => Some roomCode
  | UploadContent _ _ _ _ _ roomCode _ => Some roomCode
  | LoadQuiz _ _ roomCode _ => Some roomCode
  | StartGame _ roomCode => Some roomCode
  | GetQuestion _ roomCode => Some roomCode
  | SubmitAnswer _ roomCode _ _ => Some roomCode
  | GetResults roomCode _ => Some roomCode
  end.

(** A predicate holds of every stored room. *)
Definition StoreAll (P : Room -> Prop) (st : Store) : Prop :=
  ∀ roomCode room, getRoom roomCode st = Some room → P room.

(** A handler writes back rooms satisfying [P] when it reads such rooms. *)
Definition keeps (P : Room -> Prop) (h : Handler) : Prop :=
  ∀ found room' resp,
    (∀ room, found = Some room → P room) →
    h found = (Some room', resp) →
    P room'.

(** Requests that only poll or answer: get-current-view, submit-answer and
    get-results. *)
Definition pollingRequest (request : Request) : bool :=
  match request with
  | GetQuestion _ _ | SubmitAnswer _ _ _ _ | GetResults _ _ => true
  | _ => false
  end.

(** The store after further requests. *)
Definition storeFrom (st : Store) (requests : list Request) : Store :=
  fold_left (fun st request => handle request st) requests st.

(** ** What every stored room satisfies *)

(** Every name with a score, a history or a recorded answer is a listed
    player. *)
Definition KnownNames (room : Room) : Prop :=
  ∀ k,
    is_Some (JsObject.get k (scores room))
    ∨ is_Some (JsObject.get k (playerAnswers room))
    ∨ is_Some (JsObject.get k (default JsObject.empty (currentQuestionAnswers room))) →
    hasPlayer k (players room) = true.

(** No two listed players share a name; no dictionary holds a key twice. *)
Definition UniqueNames (room : Room) : Prop :=
  NoDup (map p_name (players room))
  ∧ NoDup (map fst (default JsObject.empty (currentQuestionAnswers room))).

Definition ScoresNonneg (room : Room) : Prop :=
  ∀ k v, JsObject.get k (scores room) = Some v → 0 <= v.

(** Status and phase go together: a waiting room is in phase waiting, a
    playing room is answering or revealing and has its
    [currentQuestionAnswers], a finished room stopped while revealing. *)
Definition PhaseCoherent (room : Room) : Prop :=
  match status room with
  | StWaiting => phase room = PhWaiting
  | StPlaying => phase room ≠ PhWaiting ∧ is_Some (currentQuestionAnswers room)
  | StFinished => phase room = PhRevealing
  end.

(** Every record states correctness as the comparison of the two indices
    it holds, and belongs to a question not after the current one. *)
Definition RecordsCoherent (room : Room) : Prop :=
  ∀ k h a,
    JsObject.get k (playerAnswers room) = Some h → In a h →
    a_isCorrect a = (a_playerAnswer a =? a_correctAnswer a)
    ∧ (a_questionIndex a <= currentQuestion room)%nat.

(** A score holds at least the minimum award for every correct record of
    the history. *)
Definition ScoreCoversCorrect (room : Room) : Prop :=
  ∀ k h,
    JsObject.get k (playerAnswers room) = Some h →
    100 * Z.of_nat (List.length (List.filter a_isCorrect h)) <= scoreOf k room.

Record Sound (room : Room) : Prop := mkSound {
  sound_registered : Registered room;
  sound_known : KnownNames room;
  sound_unique : UniqueNames room;
  sound_nonneg : ScoresNonneg room;
  sound_phase : PhaseCoherent room;
  sound_records : RecordsCoherent room;
  sound_covers : ScoreCoversCorrect room
}.

(** A history holds at most one record for each question, and whoever has
    a record for the current question is flagged by the guard of
    submit-answer. *)
Definition OneRecordPerQuestion (room : Room) : Prop :=
  ∀ k h, JsObject.get k (playerAnswers room) = Some h → NoDup (map a_questionIndex h).

Definition AnsweredIsFlagged (room : Room) : Prop :=
  ∀ k h a,
    JsObject.get k (playerAnswers room) = Some h → In a h →
    a_questionIndex a = currentQuestion room →
    flaggedAsAnswered k room = true.

Record Tidy (room : Room) : Prop := mkTidy {
  tidy_sound : Sound room;
  tidy_one : OneRecordPerQuestion room;
  tidy_flagged : AnsweredIsFlagged room
}.

(** The request is not a submission of option 0. *)
Definition nonzeroChoice (request : Request) : bool :=
  match request with
  | SubmitAnswer _ _ _ answerIndex => negb (answerIndex =? 0)
  | _ => true
  end.

(** The room written by a successful upload that assembled [qs]. *)
Definition uploadedRoom (now : Z) (req : UploadRequest) (qs : list Question)
    (room : Room) : Room :=
  set_lastUpdate now
    (set_questions qs
       (set_fileNames (Some (up_fileNames req))
          (set_courseContent (up_allContent req) room))).

(** The number of archived questions kept in mix mode, out of [available],
    when [numQuestions] are requested of which [mixCount] are to be new. *)
Definition keptFromArchive (numQuestions mixCount : Z) (available : nat) : nat :=
  if numQuestions <? mixCount
  then available - Z.to_nat (mixCount - numQuestions)
  else Nat.min (Z.to_nat (numQuestions - mixCount)) available.

(** A list is ordered newest first. *)
Definition newestFirst {A} (createdAt : A -> Z) (l : list A) : Prop :=
  StronglySorted (fun a b => createdAt b <= createdAt a) l.

(** ** A second session, used in the later examples *)

Module Walkthrough.

(** The second question of the sample session is open (since 70000). *)
Definition secondQuestion : Store :=
  fst (get_question 70000 Scenario.code
         (fst (get_question 41000 Scenario.code Scenario.started))).

(** The host then generates a one-question quiz into the running room. *)
Definition shortened : Store :=
  fst (upload_content Scenario.keepOrder Scenario.keepOrder
         (GenParsed [Scenario.q1]) "p0s7w2mm" 71000 Scenario.code Scenario.request
         secondQuestion).

(** The sample session as a sequence of requests to an empty server. *)
Definition requests : list Request :=
  [CreateRoom 1234567890123456%N (Some "Cloud revision"%string) None 1000;
   JoinRoom 2000 "9V9ROS" "ana";
   UploadContent Scenario.keepOrder Scenario.keepOrder
     (GenParsed [Scenario.q1; Scenario.q2]) "k3x9qz1a" 3000 "9V9ROS" Scenario.request;
   StartGame 10000 "9V9ROS";
   SubmitAnswer 15000 "9V9ROS" "ana" 0;
   SubmitAnswer 16000 "9V9ROS" "ben" 1].

Definition finalRoom : Room :=
  default (newRoom None None 0) (getRoom "9V9ROS" (storeAfter requests)).

End Walkthrough.

(** ** The in-memory server ([src/unnamed/part_002])

    The variant that keeps its rooms in a [Map] of the process.  Its
    handlers are synchronous, so each runs to completion on the shared
    room; a thrown [TypeError] is answered 500 by the framework.  The
    upload handler and the read-only room summary are not part of this
    model. *)

Module InMemory.

(** [questionStartTime] is absent until start-game or next-question sets
    it, and read only while playing. *)
Record Room := mkRoom {
  players : list Player;
  questions : list Question;
  currentQuestion : nat;
  scores : JsObject.t Z;
  playerAnswers : JsObject.t (list AnswerRecord);
  status : Status;
  courseContent : string;
  lastUpdate : Z;
  questionStartTime : Z
}.

Abbreviation Rooms := (gmap string Room).

(** The answer window, written [20] in both handlers that use it. *)
Definition ANSWER_SECONDS : Z := 20.

Record QuestionView := mkView {
  v_questionNum : nat;
  v_totalQuestions : nat;
  v_question : string;
  v_options : list string;
  v_timeLeft : Z;
  v_status : Status;
  v_scores : JsObject.t Z
}.

Record AnswerResult := mkAnswerResult {
  ar_correct : bool;
  ar_correctAnswer : Z;
  ar_explanation : string;
  ar_points : Z;
  ar_scores : JsObject.t Z
}.

Inductive Response :=
| NotFound                         (* 404 *)
| BadRequest                       (* 400 *)
| ServerError                      (* 500: a handler threw *)
| Joined (ps : list Player) (sc : JsObject.t Z)
| Started
| StatusOnly (s : Status)
| View (v : QuestionView)
| Answered (r : AnswerResult)
| Advanced (s : Status)            (* { success: true, status } *)
| Results (sc : JsObject.t Z) (winner : string * Z) (myAnswers : list AnswerRecord)
    (s : Status).

(** [POST /api/create-room] *)
Definition create_room (random : N) (now : Z) (st : Rooms) : Rooms * string :=
  let roomCode := RoomCode.roomCodeOf random in
  (<[roomCode := {| players := [];
                    questions := [];
                    currentQuestion := 0%nat;
                    scores := JsObject.empty;
                    playerAnswers := JsObject.empty;
                    status := StWaiting;
                    courseContent := ""%string;
                    lastUpdate := now;
                    questionStartTime := 0 |}]> st,
   roomCode).

(** [POST /api/join-room/:roomCode] *)
Definition join_room (now : Z) (roomCode playerName : string) (st : Rooms)
    : Rooms * Response :=
  match st !! roomCode with
  | None => (st, NotFound)
  | Some room =>
      let '(ps, sc, pa) :=
        if hasPlayer playerName (players room)
        then (players room, scores room, playerAnswers room)
        else (players room ++ [mkPlayer playerName now],
              JsObject.set playerName 0 (scores room),
              JsObject.set playerName [] (playerAnswers room)) in
      let room :=
        mkRoom ps (questions room) (currentQuestion room) sc pa (status room)
          (courseContent room) now (questionStartTime room) in
      (<[roomCode := room]> st, Joined (players room) (scores room))
  end.

(** [POST /api/start-game/:roomCode] *)
Definition resetPlayer (acc : JsObject.t Z * JsObject.t (list AnswerRecord))
    (player : Player) : JsObject.t Z * JsObject.t (list AnswerRecord) :=
  (JsObject.set (p_name player) 0 (fst acc), JsObject.set (p_name player) [] (snd acc)).

Definition start_game (now : Z) (roomCode : string) (st : Rooms) : Rooms * Response :=
  match st !! roomCode with
  | None => (st, BadRequest)
  | Some room =>
      if (List.length (questions room) =? 0)%nat then (st, BadRequest)
      else
        let '(sc, pa) :=
          fold_left resetPlayer (players room) (scores room, playerAnswers room) in
        let room :=
          mkRoom (players room) (questions room) 0%nat sc pa StPlaying
            (courseContent room) now now in
        (<[roomCode := room]> st, Started)
  end.

(** [GET /api/question/:roomCode] *)
Definition get_question (now : Z) (roomCode : string) (st : Rooms) : Response :=
  match st !! roomCode with
  | None => NotFound
  | Some room =>
      match status room with
      | StFinished => StatusOnly StFinished
      | StWaiting => StatusOnly (status room)
      | StPlaying =>
          match questions room !! currentQuestion room with
          | None => ServerError
          | Some question =>
              let timeElapsed := elapsedSeconds now (questionStartTime room) in
              let timeLeft := Z.max 0 (ANSWER_SECONDS - timeElapsed) in
              View {| v_questionNum := (currentQuestion room + 1)%nat;
                      v_totalQuestions := List.length (questions room);
                      v_question := q_question question;
                      v_options := q_options question;
                      v_timeLeft := timeLeft;
                      v_status := status room;
                      v_scores := scores room |}
          end
      end
  end.

(** [playerAnswers[playerName].some(a => a.questionIndex === room.currentQuestion)] *)
Definition alreadyAnswered (room : Room) (history : list AnswerRecord) : bool :=
  existsb (fun a => (a_questionIndex a =? currentQuestion room)%nat) history.

(** [POST /api/submit-answer/:roomCode] *)
Definition submit_answer (now : Z) (roomCode playerName : string) (answerIndex : Z)
    (st : Rooms) : Rooms * Response :=
  match st !! roomCode with
  | None => (st, BadRequest)
  | Some room =>
      if negb (bool_decide (status room = StPlaying)) then (st, BadRequest)
      else
        match questions room !! currentQuestion room with
        | None => (st, ServerError)
        | Some question =>
            let timeElapsed := elapsedSeconds now (questionStartTime room) in
            let timeLeft := Z.max 0 (ANSWER_SECONDS - timeElapsed) in
            let isCorrect := answerIndex =? q_correct question in
            let points := Z.max 100 (timeLeft * 100) in
            let '(sc, pa) :=
              match JsObject.get playerName (playerAnswers room) with
              | Some history =>
                  if alreadyAnswered room history then (scores room, playerAnswers room)
                  else
                    let record :=
                      {| a_questionIndex := currentQuestion room;
                         a_question := q_question question;
                         a_playerAnswer := answerIndex;
                         a_correctAnswer := q_correct question;
                         a_options := q_options question;
                         a_explanation := q_explanation question;
                         a_isCorrect := isCorrect |} in
                    (if isCorrect then
                       JsObject.set playerName
                         (orElse (JsObject.get playerName (scores room)) 0 + points)
                         (scores room)
                     else scores room,
                     JsObject.set playerName (history ++ [record]) (playerAnswers room))
              | None => (scores room, playerAnswers room)
              end in
            let room :=
              mkRoom (players room) (questions room) (currentQuestion room) sc pa
                (status room) (courseContent room) now (questionStartTime room) in
            (<[roomCode := room]> st,
             Answered {| ar_correct := isCorrect;
                         ar_correctAnswer := q_correct question;
                         ar_explanation := q_explanation question;
                         ar_points := if isCorrect then points else 0;
                         ar_scores := scores room |})
        end
  end.

(** [POST /api/next-question/:roomCode] *)
Definition next_question (now : Z) (roomCode : string) (st : Rooms) : Rooms * Response :=
  match st !! roomCode with
  | None => (st, NotFound)
  | Some room =>
      let next := S (currentQuestion room) in
      let status' :=
        if (List.length (questions room) <=? next)%nat then StFinished else status room in
      let room :=
        mkRoom (players room) (questions room) next (scores room) (playerAnswers room)
          status' (courseContent room) now now in
      (<[roomCode := room]> st, Advanced (status room))
  end.

(** [GET /api/results/:roomCode/:playerName] *)
Definition get_results (roomCode playerName : string) (st : Rooms) : Response :=
  match st !! roomCode with
  | None => NotFound
  | Some room =>
      let sortedScores := sortByScoreDesc (JsObject.entries (scores room)) in
      Results (scores room)
        (default ("No winner"%string, 0) (head sortedScores))
        (default [] (JsObject.get playerName (playerAnswers room)))
        (status room)
  end.

(** Requests that change the rooms. *)
Inductive Request :=
| CreateRoom (random : N) (now : Z)
| JoinRoom (now : Z) (roomCode playerName : string)
| StartGame (now : Z) (roomCode : string)
| SubmitAnswer (now : Z) (roomCode playerName : string) (answerIndex : Z)
| NextQuestion (now : Z) (roomCode : string).

Definition handle (request : Request) (st : Rooms) : Rooms :=
  match request with
  | CreateRoom random now => fst (create_room random now st)
  | JoinRoom now roomCode playerName => fst (join_room now roomCode playerName st)
  | StartGame now roomCode => fst (start_game now roomCode st)
  | SubmitAnswer now roomCode playerName answerIndex =>
      fst (submit_answer now roomCode playerName answerIndex st)
  | NextQuestion now roomCode => fst (next_question now roomCode st)
  end.

(** The rooms after further requests. *)
Definition roomsFrom (st : Rooms) (requests : list Request) : Rooms :=
  fold_left (fun st request => handle request st) requests st.

(** Each history holds at most one record per question. *)
Definition OneRecord (room : Room) : Prop :=
  ∀ k h, JsObject.get k (playerAnswers room) = Some h → NoDup (map a_questionIndex h).

Definition AllOneRecord (st : Rooms) : Prop :=
  ∀ roomCode room, st !! roomCode = Some room → OneRecord room.

Definition scoreOf (playerName : string) (room : Room) : Z :=
  default 0 (JsObject.get playerName (scores room)).

Definition historyOf (playerName : string) (room : Room) : list AnswerRecord :=
  default [] (JsObject.get playerName (playerAnswers room)).


(** A room with the two sample questions, ana joined, game started at
    10000. *)
Definition playing : Rooms :=
  {[ "ROOM42"%string :=
       {| players := [mkPlayer "ana" 2000];
          questions :=
            [mkQuestion "Which service stores objects?"
               ["A) S3"; "B) EC2"; "C) VPC"; "D) IAM"]%string 0
               "S3 is the object store.";
             mkQuestion "Which service runs virtual machines?"
               ["A) S3"; "B) SQS"; "C) EC2"; "D) IAM"]%string 2
               "EC2 provides virtual machines."];
          currentQuestion := 0%nat;
          scores := [("ana"%string, 0)];
          playerAnswers := [("ana"%string, [])];
          status := StPlaying;
          courseContent := "notes"%string;
          lastUpdate := 10000;
          questionStartTime := 10000 |} ]}.

End InMemory.

(** ** Joining and leaving on the socket server ([src/server.js])

    The [join-room] and [disconnect] listeners.  Each connection carries
    its id and the two fields the listeners set on it; what a listener
    emits is returned as a list.  Which connections are subscribed to a
    broadcast is not modelled: a broadcast is recorded with its room
    code. *)

Module SocketServer.

Record Player := mkPlayer {
  id : string;
  name : string
}.

Record Room := mkRoom {
  players : list Player;
  questions : list Question;
  currentQuestion : nat;
  scores : JsObject.t Z;
  playerAnswers : JsObject.t (list AnswerRecord);
  status : Status;
  courseContent : string
}.

Abbreviation Rooms := (gmap string Room).

Record Socket := mkSocket {
  socketId : string;
  roomCode : option string;      (* socket.roomCode *)
  playerName : option string     (* socket.playerName *)
}.

Inductive Emit :=
| ErrorTo (socket : string)                 (* socket.emit('error', ...) *)
| PlayerJoined (room : string) (ps : list Player) (sc : JsObject.t Z)
| RoomState (socket : string) (s : Status) (ps : list Player) (sc : JsObject.t Z)
    (hasQuiz : bool)
| PlayerLeft (room : string) (ps : list Player) (who : option string).

(** [room.players.find(p => p.name === playerName)] is truthy *)
Definition hasName (playerName : string) (ps : list Player) : bool :=
  existsb (fun p => String.eqb (name p) playerName) ps.

(** [socket.on('join-room', ...)] *)
Definition join_room (socket : Socket) (code who : string) (st : Rooms)
    : Rooms * Socket * list Emit :=
  match st !! code with
  | None => (st, socket, [ErrorTo (socketId socket)])
  | Some room =>
      let socket := mkSocket (socketId socket) (Some code) (Some who) in
      let room :=
        if hasName who (players room) then room
        else
          mkRoom (players room ++ [mkPlayer (socketId socket) who]) (questions room)
            (currentQuestion room)
            (JsObject.set who 0 (scores room))
            (JsObject.set who [] (playerAnswers room))
            (status room) (courseContent room) in
      (<[code := room]> st, socket,
       [PlayerJoined code (players room) (scores room);
        RoomState (socketId socket) (status room) (players room) (scores room)
          (negb (List.length (questions room) =? 0)%nat)])
  end.

(** [socket.on('disconnect', ...)] *)
Definition disconnect (socket : Socket) (st : Rooms) : Rooms * list Emit :=
  match nonEmpty (roomCode socket) with
  | None => (st, [])
  | Some code =>
      match st !! code with
      | None => (st, [])
      | Some room =>
          let remaining :=
            List.filter (fun p => negb (String.eqb (id p) (socketId socket)))
              (players room) in
          let room :=
            mkRoom remaining (questions room) (currentQuestion room) (scores room)
              (playerAnswers room) (status room) (courseContent room) in
          (<[code := room]> st, [PlayerLeft code (players room) (playerName socket)])
      end
  end.

(** A game in progress: ana (connection [s1]) has 1500 points. *)
Definition inGame : Rooms :=
  {[ "ROOM42"%string :=
       {| players := [mkPlayer "s1" "ana"; mkPlayer "s2" "ben"];
          questions := [Scenario.q1; Scenario.q2];
          currentQuestion := 1%nat;
          scores := [("ana"%string, 1500); ("ben"%string, 0)];
          playerAnswers :=
            [("ana"%string, [recordOf (newRoom None None 0) Scenario.q1 0]);
             ("ben"%string, [])];
          status := StPlaying;
          courseContent := "notes"%string |} ]}.

End SocketServer.

(** * Properties *)

(** ** Dictionaries *)

Module JsObjectFacts.
Import JsObject.

Lemma get_set_eq {V} (k : string) (v : V) (o : t V) :
  get k (set k v o) = Some v.
Proof.
  induction o as [|[k' v'] rest IH]; simpl.
  - by rewrite String.eqb_refl.
  - destruct (String.eqb k k') eqn:E; simpl.
    + by rewrite String.eqb_refl.
    + by rewrite E.
Qed.

Lemma get_set_ne {V} (k k' : string) (v : V) (o : t V) :
  k' ≠ k → get k' (set k v o) = get k' o.
Proof.
  intros Hne. induction o as [|[k0 v0] rest IH]; simpl.
  - destruct (String.eqb k' k) eqn:E; [|done].
    apply String.eqb_eq in E. congruence.
  - destruct (String.eqb k k0) eqn:E; simpl.
    + apply String.eqb_eq in E. subst k0.
      destruct (String.eqb k' k) eqn:E'; [|done].
      apply String.eqb_eq in E'. congruence.
    + by rewrite IH.
Qed.

Lemma get_set_is_Some {V} (k k' : string) (v : V) (o : t V) :
  is_Some (get k' o) → is_Some (get k' (set k v o)).
Proof.
  intros H. destruct (decide (k' = k)) as [->|Hne].
  - rewrite get_set_eq. eauto.
  - by rewrite get_set_ne.
Qed.

Lemma get_In {V} (k : string) (v : V) (o : t V) :
  get k o = Some v → In (k, v) o.
Proof.
  induction o as [|[k' v'] rest IH]; simpl; [done|].
  destruct (String.eqb k k') eqn:E.
  - apply String.eqb_eq in E. intros [= ->]. subst. by left.
  - intros H. right. by apply IH.
Qed.

End JsObjectFacts.

(** ** Room codes *)

Module RoomCodeFacts.
Import RoomCode.











End RoomCodeFacts.

(** C6 (code behaviour at a draw with a short expansion).  When
    [Math.random()] returns 0.5, whose base-36 rendering is ["0.i"], the code
    returned by create-room is the single character ["I"]: the room code is
    not six characters long. *)
Theorem create_room_code_short (roomName : option string) (isPublicArg : option bool)
    (now : Z) (st : Store) :
  snd (create_room (2 ^ 51)%N roomName isPublicArg now st) = "I"%string
  ∧ String.length (snd (create_room (2 ^ 51)%N roomName isPublicArg now st)) = 1%nat
  ∧ getRoom "I" (fst (create_room (2 ^ 51)%N roomName isPublicArg now st))
    = Some (newRoom roomName isPublicArg now).
Proof.
  assert (Hcode : RoomCode.roomCodeOf (2 ^ 51)%N = "I"%string)
    by (vm_compute; reflexivity).
  unfold create_room. simpl fst. simpl snd. rewrite Hcode.
  repeat split.
  unfold getRoom, setRoom. simpl. by rewrite lookup_insert_eq.
Qed.

(** When the draw is 0, rendered ["0"], the code is empty. *)
Example create_room_code_empty : RoomCode.roomCodeOf 0%N = ""%string.
Proof. vm_compute. reflexivity. Qed.

Example roomCode_typical :
  RoomCode.roomCodeOf 1234567890123456%N = "9V9ROS"%string.
Proof. vm_compute. reflexivity. Qed.

(** ** Results *)




(** ** The player registry *)

Lemma registered_iff (room : Room) : registered room = true ↔ Registered room.
Proof.
  unfold registered, Registered. rewrite forallb_forall.
  split; intros H p Hp; specialize (H p Hp).
  - apply andb_true_iff in H as [H1 H2].
    split; eapply bool_decide_eq_true_1; eassumption.
  - apply andb_true_iff. split; apply bool_decide_eq_true_2; tauto.
Qed.

Lemma hasPlayer_In (playerName : string) (ps : list Player) :
  hasPlayer playerName ps = true ↔ ∃ p, In p ps ∧ p_name p = playerName.
Proof.
  unfold hasPlayer. rewrite existsb_exists.
  split; intros (p & Hp & Hn); exists p; split; auto; by apply String.eqb_eq.
Qed.

Lemma ensurePlayer_noop (now : Z) (playerName : string) (room : Room)
    (s : Z) (h : list AnswerRecord) :
  hasPlayer playerName (players room) = true →
  JsObject.get playerName (scores room) = Some s →
  JsObject.get playerName (playerAnswers room) = Some h →
  ensurePlayer now playerName room = room.
Proof. intros Hp Hs Hh. unfold ensurePlayer. by rewrite Hp, Hs, Hh. Qed.

Lemma ensurePlayer_present (now : Z) (playerName : string) (room : Room) :
  hasPlayer playerName (players room) = true →
  Registered room →
  ensurePlayer now playerName room = room.
Proof.
  intros Hhas Hreg. apply hasPlayer_In in Hhas as (p & Hp & <-).
  destruct (Hreg p Hp) as [[s Hs] [h Hh]].
  unfold ensurePlayer.
  assert (hasPlayer (p_name p) (players room) = true) as ->
    by (apply hasPlayer_In; eauto).
  by rewrite Hs, Hh.
Qed.

Lemma ensurePlayer_players (now : Z) (playerName : string) (room : Room) :
  players (ensurePlayer now playerName room)
  = if hasPlayer playerName (players room) then players room
    else players room ++ [mkPlayer playerName now].
Proof.
  unfold ensurePlayer.
  destruct (hasPlayer playerName (players room)); simpl;
    repeat (match goal with |- context [match ?x with _ => _ end] => destruct x end; simpl);
    reflexivity.
Qed.

Lemma ensurePlayer_scores (now : Z) (playerName : string) (room : Room) :
  scores (ensurePlayer now playerName room)
  = match JsObject.get playerName (scores room) with
    | None => JsObject.set playerName 0 (scores room)
    | Some _ => scores room
    end.
Proof.
  unfold ensurePlayer.
  destruct (hasPlayer playerName (players room)); simpl;
    destruct (JsObject.get playerName (scores room)); simpl;
    repeat (match goal with |- context [match ?x with _ => _ end] => destruct x end; simpl);
    reflexivity.
Qed.

Lemma ensurePlayer_playerAnswers (now : Z) (playerName : string) (room : Room) :
  playerAnswers (ensurePlayer now playerName room)
  = match JsObject.get playerName (playerAnswers room) with
    | None => JsObject.set playerName [] (playerAnswers room)
    | Some _ => playerAnswers room
    end.
Proof.
  unfold ensurePlayer.
  destruct (hasPlayer playerName (players room)); simpl;
    destruct (JsObject.get playerName (scores room)); simpl;
    destruct (JsObject.get playerName (playerAnswers room)); simpl;
    reflexivity.
Qed.

(** The registration block touches nothing but the three registry fields. *)
Lemma ensurePlayer_frame (now : Z) (playerName : string) (room : Room) :
  let room' := ensurePlayer now playerName room in
  status room' = status room ∧ phase room' = phase room
  ∧ questions room' = questions room
  ∧ currentQuestion room' = currentQuestion room
  ∧ questionStartTime room' = questionStartTime room
  ∧ revealStartTime room' = revealStartTime room
  ∧ currentQuestionAnswers room' = currentQuestionAnswers room.
Proof.
  unfold ensurePlayer.
  destruct (hasPlayer playerName (players room)); simpl;
    destruct (JsObject.get playerName (scores room)); simpl;
    destruct (JsObject.get playerName (playerAnswers room)); simpl;
    repeat split.
Qed.

Lemma ensurePlayer_scoreOf (now : Z) (playerName : string) (room : Room) :
  scoreOf playerName (ensurePlayer now playerName room) = scoreOf playerName room
  ∧ is_Some (JsObject.get playerName (scores (ensurePlayer now playerName room))).
Proof.
  unfold scoreOf. rewrite ensurePlayer_scores.
  destruct (JsObject.get playerName (scores room)) as [s|] eqn:E.
  - rewrite E. eauto.
  - rewrite JsObjectFacts.get_set_eq. eauto.
Qed.

Lemma ensurePlayer_historyOf (now : Z) (playerName : string) (room : Room) :
  JsObject.get playerName (playerAnswers (ensurePlayer now playerName room))
  = Some (historyOf playerName room).
Proof.
  unfold historyOf. rewrite ensurePlayer_playerAnswers.
  destruct (JsObject.get playerName (playerAnswers room)) as [h|] eqn:E.
  - by rewrite E.
  - by rewrite JsObjectFacts.get_set_eq.
Qed.

Lemma ensurePlayer_Registered (now : Z) (playerName : string) (room : Room) :
  Registered room → Registered (ensurePlayer now playerName room).
Proof.
  intros Hreg p Hp.
  rewrite ensurePlayer_players in Hp.
  assert (Hcase : In p (players room) ∨ p_name p = playerName).
  { destruct (hasPlayer playerName (players room)); [by left|].
    apply in_app_or in Hp as [Hp|[<-|[]]]; [by left|by right]. }
  destruct Hcase as [Hin| ->].
  - destruct (Hreg p Hin) as [Hs Hh].
    rewrite ensurePlayer_scores, ensurePlayer_playerAnswers.
    split.
    + destruct (JsObject.get playerName (scores room)); [done|].
      by apply JsObjectFacts.get_set_is_Some.
    + destruct (JsObject.get playerName (playerAnswers room)); [done|].
      by apply JsObjectFacts.get_set_is_Some.
  - split.
    + apply ensurePlayer_scoreOf.
    + rewrite ensurePlayer_historyOf. eauto.
Qed.

Lemma join_room_body_unfold (now : Z) (playerName : string) (room : Room) :
  join_room_body now playerName (Some room)
  = let room' := set_lastUpdate now (ensurePlayer now playerName room) in
    (Some room', Joined (players room') (scores room') (status room')).
Proof. reflexivity. Qed.

Lemma serve_written (h : Handler) (roomCode : string) (st : Store)
    (room' : Room) (resp : Response) :
  h (getRoom roomCode st) = (Some room', resp) →
  serve h roomCode st = (setRoom roomCode room' st, resp)
  ∧ getRoom roomCode (setRoom roomCode room' st) = Some room'.
Proof.
  intros H. unfold serve. rewrite H. split; [done|].
  unfold getRoom, setRoom. simpl. by rewrite lookup_insert_eq.
Qed.

Lemma serve_unwritten (h : Handler) (roomCode : string) (st : Store) (resp : Response) :
  h (getRoom roomCode st) = (None, resp) →
  serve h roomCode st = (st, resp).
Proof. intros H. unfold serve. by rewrite H. Qed.

(** C8.  When the player is already listed in the room (and, as in every
    room the handlers produce, listed players have a score and a history),
    join-room succeeds and leaves the player list, the scores and the answer
    histories as they were; the player's score is not reset, and the
    response carries the unchanged player list and scores. *)
Theorem join_room_existing_player (now : Z) (roomCode playerName : string)
    (st : Store) (room : Room) :
  getRoom roomCode st = Some room →
  hasPlayer playerName (players room) = true →
  registered room = true →
  ∃ room',
    getRoom roomCode (fst (join_room now roomCode playerName st)) = Some room'
    ∧ players room' = players room
    ∧ scores room' = scores room
    ∧ playerAnswers room' = playerAnswers room
    ∧ scoreOf playerName room' = scoreOf playerName room
    ∧ snd (join_room now roomCode playerName st)
      = Joined (players room) (scores room) (status room).
Proof.
  intros Hroom Hhas Hreg. apply registered_iff in Hreg.
  unfold join_room.
  destruct (serve_written (join_room_body now playerName) roomCode st
              (set_lastUpdate now room)
              (Joined (players room) (scores room) (status room))) as [-> Hget].
  { rewrite Hroom, join_room_body_unfold.
    by rewrite (ensurePlayer_present now playerName room Hhas Hreg). }
  exists (set_lastUpdate now room). simpl. by rewrite Hget.
Qed.

Lemma join_room_existing_player_witness :
  ∃ room room',
    getRoom Scenario.code (fst Scenario.answeredOnce) = Some room
    ∧ scoreOf "ana" room = 1250
    ∧ getRoom Scenario.code
        (fst (join_room 17000 Scenario.code "ana" (fst Scenario.answeredOnce)))
      = Some room'
    ∧ scoreOf "ana" room' = 1250.
Proof.
  eexists.
  edestruct (join_room_existing_player 17000 Scenario.code "ana"
               (fst Scenario.answeredOnce))
    as (room' & Hget & _ & _ & _ & Hscore & _).
  { vm_compute. reflexivity. }
  { vm_compute. reflexivity. }
  { vm_compute. reflexivity. }
  exists room'. split; [vm_compute; reflexivity|].
  split; [vm_compute; reflexivity|].
  split; [exact Hget|]. rewrite Hscore. vm_compute. reflexivity.
Defined.

(** A second join-room call for the same name changes neither the player
    list nor the scores nor the histories left by the first one. *)
Lemma join_room_twice (t1 t2 : Z) (roomCode playerName : string)
    (st : Store) (room : Room) :
  getRoom roomCode st = Some room →
  ∃ room1 room2,
    getRoom roomCode (fst (join_room t1 roomCode playerName st)) = Some room1
    ∧ getRoom roomCode
        (fst (join_room t2 roomCode playerName
                (fst (join_room t1 roomCode playerName st)))) = Some room2
    ∧ players room2 = players room1
    ∧ scores room2 = scores room1
    ∧ playerAnswers room2 = playerAnswers room1.
Proof.
  intros Hroom. unfold join_room.
  set (room1 := set_lastUpdate t1 (ensurePlayer t1 playerName room)).
  destruct (serve_written (join_room_body t1 playerName) roomCode st room1
              (Joined (players room1) (scores room1) (status room1))) as [-> Hget1].
  { by rewrite Hroom, join_room_body_unfold. }
  simpl fst.
  assert (Hidem : ensurePlayer t2 playerName room1 = room1).
  { destruct (ensurePlayer_scoreOf t1 playerName room) as [_ [s Hs]].
    apply (ensurePlayer_noop t2 playerName room1 s (historyOf playerName room)).
    - subst room1. simpl. rewrite ensurePlayer_players.
      destruct (hasPlayer playerName (players room)) eqn:E; [done|].
      apply hasPlayer_In. exists (mkPlayer playerName t1). split; [|done].
      apply in_or_app. right. by left.
    - exact Hs.
    - apply ensurePlayer_historyOf. }
  set (room2 := set_lastUpdate t2 room1).
  destruct (serve_written (join_room_body t2 playerName) roomCode
              (setRoom roomCode room1 st) room2
              (Joined (players room2) (scores room2) (status room2))) as [-> Hget2].
  { rewrite Hget1, join_room_body_unfold. by rewrite Hidem. }
  exists room1, room2. simpl fst. by rewrite Hget1, Hget2.
Qed.

(** ** Submitting an answer *)

Lemma ensurePlayer_other (now : Z) (playerName other : string) (room : Room) :
  other ≠ playerName →
  JsObject.get other (scores (ensurePlayer now playerName room))
  = JsObject.get other (scores room)
  ∧ JsObject.get other (playerAnswers (ensurePlayer now playerName room))
    = JsObject.get other (playerAnswers room).
Proof.
  intros Hne. rewrite ensurePlayer_scores, ensurePlayer_playerAnswers.
  split.
  - destruct (JsObject.get playerName (scores room)); [done|].
    by apply JsObjectFacts.get_set_ne.
  - destruct (JsObject.get playerName (playerAnswers room)); [done|].
    by apply JsObjectFacts.get_set_ne.
Qed.

Lemma orElse_0 (v : option Z) : orElse v 0 = default 0 v.
Proof. destruct v as [n|]; simpl; [|done]. destruct (n =? 0) eqn:E; lia. Qed.

(** What an accepted submission does to the room. *)
Lemma submit_answer_body_accepted (now : Z) (playerName : string) (answerIndex : Z)
    (room : Room) (question : Question) :
  status room = StPlaying →
  phase room = PhAnswering →
  flaggedAsAnswered playerName room = false →
  questions room !! currentQuestion room = Some question →
  ∃ room',
    submit_answer_body now playerName answerIndex (Some room)
    = (Some room', Submitted answerIndex (scores room'))
    ∧ JsObject.get playerName (playerAnswers room')
      = Some (historyOf playerName room ++ [recordOf room question answerIndex])
    ∧ scoreOf playerName room'
      = scoreOf playerName room
        + scoreSpec (answerIndex =? q_correct question)
            (Z.max 0 (QUESTION_TIME - elapsedSeconds now (questionStartTime room)))
    ∧ currentQuestionAnswers room'
      = Some (JsObject.set playerName answerIndex
                (default JsObject.empty (currentQuestionAnswers room)))
    ∧ status room' = StPlaying ∧ phase room' = PhAnswering
    ∧ currentQuestion room' = currentQuestion room
    ∧ questions room' = questions room
    ∧ questionStartTime room' = questionStartTime room.
Proof.
  intros Hst Hph Hflag Hq.
  unfold submit_answer_body. rewrite Hst, Hph. simpl negb. simpl orb. cbv iota.
  destruct (ensurePlayer_frame now playerName room)
    as (Est & Eph & Eqs & Ecur & Eqst & _ & Ecqa).
  destruct (ensurePlayer_scoreOf now playerName room) as [Escore [s Hs]].
  pose proof (ensurePlayer_historyOf now playerName room) as Ehist.
  unfold scoreOf in Escore. rewrite Hs in Escore. simpl in Escore.
  unfold flaggedAsAnswered in Hflag.
  set (r1 := ensurePlayer now playerName room) in *. clearbody r1.
  cbv zeta.
  assert (Hdef : default JsObject.empty
                   (currentQuestionAnswers
                      match currentQuestionAnswers r1 with
                      | Some _ => r1
                      | None => set_currentQuestionAnswers (Some JsObject.empty) r1
                      end)
                 = default JsObject.empty (currentQuestionAnswers room)).
  { rewrite <- Ecqa. destruct (currentQuestionAnswers r1) eqn:E; simpl; by rewrite ?E. }
  rewrite Hdef, Hflag.
  assert (Hq' : questions
                  match currentQuestionAnswers r1 with
                  | Some _ => r1
                  | None => set_currentQuestionAnswers (Some JsObject.empty) r1
                  end
                !! currentQuestion
                     match currentQuestionAnswers r1 with
                     | Some _ => r1
                     | None => set_currentQuestionAnswers (Some JsObject.empty) r1
                     end = Some question).
  { destruct (currentQuestionAnswers r1); simpl; by rewrite Eqs, Ecur. }
  rewrite Hq'.
  eexists. split; [reflexivity|].
  unfold scoreOf, scoreSpec, recordOf, MinimumPoints, PointsPerSecond.
  destruct (currentQuestionAnswers r1) as [o|] eqn:Eo;
    destruct (answerIndex =? q_correct question) eqn:Ecorrect; simpl;
    rewrite ?Eo, ?JsObjectFacts.get_set_eq, ?Ehist, ?Hs, ?orElse_0, <- ?Ecqa,
      ?Eqst, ?Ecur, ?Eqs, ?Est, ?Eph, ?Hst, ?Hph; simpl;
    repeat split; try congruence; try lia.
Qed.

Lemma elapsedSeconds_after_window (now start window : Z) :
  window * 1000 <= now - start ↔ window <= elapsedSeconds now start.
Proof.
  unfold elapsedSeconds. split; intros H.
  - apply Z.div_le_lower_bound; lia.
  - pose proof (Z.mul_div_le (now - start) 1000 ltac:(lia)). nia.
Qed.

(** C2.  For a submission that is scored (room playing, phase answering,
    the duplicate guard does not fire, the current question exists): a wrong
    answer adds 0 to the player's score, a correct answer adds
    max(MinimumPoints, timeLeft * PointsPerSecond), and the award of any
    correct answer is strictly greater than the award of any wrong one. *)
Theorem submit_answer_awards (now : Z) (roomCode playerName : string)
    (answerIndex : Z) (st : Store) (room : Room) (question : Question) :
  getRoom roomCode st = Some room →
  status room = StPlaying →
  phase room = PhAnswering →
  flaggedAsAnswered playerName room = false →
  questions room !! currentQuestion room = Some question →
  let timeLeftSeconds :=
    Z.max 0 (QUESTION_TIME - elapsedSeconds now (questionStartTime room)) in
  ∃ room',
    getRoom roomCode (fst (submit_answer now roomCode playerName answerIndex st))
    = Some room'
    ∧ snd (submit_answer now roomCode playerName answerIndex st)
      = Submitted answerIndex (scores room')
    ∧ (answerIndex ≠ q_correct question →
       scoreOf playerName room' = scoreOf playerName room + 0)
    ∧ (answerIndex = q_correct question →
       scoreOf playerName room'
       = scoreOf playerName room
         + Z.max MinimumPoints (timeLeftSeconds * PointsPerSecond))
    ∧ scoreOf playerName room'
      = scoreOf playerName room
        + scoreSpec (answerIndex =? q_correct question) timeLeftSeconds
    ∧ ∀ t t', scoreSpec false t' < scoreSpec true t.
Proof.
  intros Hroom Hst Hph Hflag Hq timeLeftSeconds.
  destruct (submit_answer_body_accepted now playerName answerIndex room question
              Hst Hph Hflag Hq) as (room' & Hbody & _ & Hscore & _).
  unfold submit_answer.
  destruct (serve_written (submit_answer_body now playerName answerIndex)
              roomCode st room' (Submitted answerIndex (scores room'))) as [-> Hget].
  { by rewrite Hroom. }
  exists room'. simpl fst. simpl snd.
  split; [exact Hget|]. split; [done|].
  fold timeLeftSeconds in Hscore.
  split; [|split; [|split]].
  - intros Hne. apply Z.eqb_neq in Hne. by rewrite Hne in Hscore.
  - intros Heq. apply Z.eqb_eq in Heq. by rewrite Heq in Hscore.
  - exact Hscore.
  - intros t t'. unfold scoreSpec, MinimumPoints. lia.
Qed.

Lemma submit_answer_awards_witness :
  ∃ room',
    getRoom Scenario.code (fst (submit_answer 15000 Scenario.code "ana" 0 Scenario.started))
    = Some room'
    ∧ scoreOf "ana" room' = 0 + Z.max MinimumPoints (25 * PointsPerSecond).
Proof.
  edestruct (submit_answer_awards 15000 Scenario.code "ana" 0 Scenario.started)
    as (room' & Hget & _ & _ & Hcorrect & _).
  { vm_compute. reflexivity. }
  { vm_compute. reflexivity. }
  { vm_compute. reflexivity. }
  { vm_compute. reflexivity. }
  { vm_compute. reflexivity. }
  exists room'. split; [exact Hget|].
  rewrite Hcorrect; [|vm_compute; reflexivity].
  vm_compute. reflexivity.
Defined.

(** C10.  A submission that arrives once the answer window has elapsed while
    the stored phase is still answering is accepted: the response is the
    submitted acknowledgement, the record is appended to the player's
    history, the time left is clamped to 0, and a correct answer earns
    exactly the minimum (a wrong one nothing). *)
Theorem late_submission_accepted (now : Z) (roomCode playerName : string)
    (answerIndex : Z) (st : Store) (room : Room) (question : Question) :
  getRoom roomCode st = Some room →
  status room = StPlaying →
  phase room = PhAnswering →
  QUESTION_TIME * 1000 <= now - questionStartTime room →
  flaggedAsAnswered playerName room = false →
  questions room !! currentQuestion room = Some question →
  ∃ room',
    getRoom roomCode (fst (submit_answer now roomCode playerName answerIndex st))
    = Some room'
    ∧ snd (submit_answer now roomCode playerName answerIndex st)
      = Submitted answerIndex (scores room')
    ∧ Z.max 0 (QUESTION_TIME - elapsedSeconds now (questionStartTime room)) = 0
    ∧ JsObject.get playerName (playerAnswers room')
      = Some (historyOf playerName room ++ [recordOf room question answerIndex])
    ∧ JsObject.get playerName (default JsObject.empty (currentQuestionAnswers room'))
      = Some answerIndex
    ∧ (answerIndex = q_correct question →
       scoreOf playerName room' = scoreOf playerName room + MinimumPoints)
    ∧ (answerIndex ≠ q_correct question →
       scoreOf playerName room' = scoreOf playerName room)
    ∧ phase room' = PhAnswering.
Proof.
  intros Hroom Hst Hph Hlate Hflag Hq.
  destruct (submit_answer_body_accepted now playerName answerIndex room question
              Hst Hph Hflag Hq)
    as (room' & Hbody & Hhist & Hscore & Hcqa & _ & Hph' & _).
  apply elapsedSeconds_after_window in Hlate.
  assert (Hleft : Z.max 0 (QUESTION_TIME - elapsedSeconds now (questionStartTime room)) = 0)
    by lia.
  rewrite Hleft in Hscore.
  unfold submit_answer.
  destruct (serve_written (submit_answer_body now playerName answerIndex)
              roomCode st room' (Submitted answerIndex (scores room'))) as [-> Hget].
  { by rewrite Hroom. }
  exists room'. simpl fst. simpl snd.
  split; [exact Hget|]. split; [done|]. split; [exact Hleft|].
  split; [exact Hhist|].
  split; [rewrite Hcqa; simpl; apply JsObjectFacts.get_set_eq|].
  split; [|split; [|exact Hph']].
  - intros Heq. apply Z.eqb_eq in Heq. rewrite Heq in Hscore.
    rewrite Hscore. unfold scoreSpec, MinimumPoints, PointsPerSecond. lia.
  - intros Hne. apply Z.eqb_neq in Hne. rewrite Hne in Hscore.
    rewrite Hscore. unfold scoreSpec. lia.
Qed.

Lemma late_submission_accepted_witness :
  ∃ room',
    getRoom Scenario.code (fst (submit_answer 47000 Scenario.code "ana" 0 Scenario.started))
    = Some room'
    ∧ scoreOf "ana" room' = 100.
Proof.
  edestruct (late_submission_accepted 47000 Scenario.code "ana" 0 Scenario.started)
    as (room' & Hget & _ & _ & _ & _ & Hcorrect & _).
  { vm_compute. reflexivity. }
  { vm_compute. reflexivity. }
  { vm_compute. reflexivity. }
  { vm_compute. intros H. discriminate H. }
  { vm_compute. reflexivity. }
  { vm_compute. reflexivity. }
  exists room'. split; [exact Hget|].
  rewrite Hcorrect; [|vm_compute; reflexivity].
  vm_compute. reflexivity.
Defined.

(** When the guard fires, the call answers [alreadyAnswered] and nothing is
    written. *)
Lemma submit_answer_body_flagged (now : Z) (playerName : string)
    (answerIndex : Z) (room : Room) :
  status room = StPlaying →
  phase room = PhAnswering →
  flaggedAsAnswered playerName room = true →
  submit_answer_body now playerName answerIndex (Some room) = (None, AlreadyAnswered).
Proof.
  intros Hst Hph Hflag.
  unfold submit_answer_body. rewrite Hst, Hph. simpl negb. simpl orb. cbv iota.
  destruct (ensurePlayer_frame now playerName room) as (_ & _ & _ & _ & _ & _ & Ecqa).
  unfold flaggedAsAnswered in Hflag.
  set (r1 := ensurePlayer now playerName room) in *. clearbody r1. cbv zeta.
  assert (Hdef : default JsObject.empty
                   (currentQuestionAnswers
                      match currentQuestionAnswers r1 with
                      | Some _ => r1
                      | None => set_currentQuestionAnswers (Some JsObject.empty) r1
                      end)
                 = default JsObject.empty (currentQuestionAnswers room)).
  { rewrite <- Ecqa. destruct (currentQuestionAnswers r1) eqn:E; simpl; by rewrite ?E. }
  by rewrite Hdef, Hflag.
Qed.

Lemma submit_answer_flagged_is_duplicate (now : Z) (roomCode playerName : string)
    (answerIndex : Z) (st : Store) (room : Room) :
  getRoom roomCode st = Some room →
  status room = StPlaying →
  phase room = PhAnswering →
  flaggedAsAnswered playerName room = true →
  submit_answer now roomCode playerName answerIndex st = (st, AlreadyAnswered).
Proof.
  intros Hroom Hst Hph Hflag.
  unfold submit_answer. apply serve_unwritten. rewrite Hroom.
  by apply submit_answer_body_flagged.
Qed.

(** The guard tests the stored choice for truthiness: after an accepted
    submission it fires for the next call exactly when the stored option
    index is not 0. *)
Lemma flaggedAsAnswered_after_submission (now : Z) (playerName : string)
    (answerIndex : Z) (room room' : Room) (resp : Response) :
  status room = StPlaying →
  phase room = PhAnswering →
  submit_answer_body now playerName answerIndex (Some room) = (Some room', resp) →
  presentInCurrentAnswers playerName room' = true
  ∧ flaggedAsAnswered playerName room' = negb (answerIndex =? 0).
Proof.
  intros Hst Hph Hbody.
  destruct (flaggedAsAnswered playerName room) eqn:Hflag.
  { unfold submit_answer_body in Hbody. rewrite Hst, Hph in Hbody.
    simpl negb in Hbody. simpl orb in Hbody. cbv iota zeta in Hbody.
    destruct (ensurePlayer_frame now playerName room) as (_ & _ & _ & _ & _ & _ & Ecqa).
    unfold flaggedAsAnswered in Hflag.
    set (r1 := ensurePlayer now playerName room) in *. clearbody r1.
    assert (Hdef : default JsObject.empty
                     (currentQuestionAnswers
                        match currentQuestionAnswers r1 with
                        | Some _ => r1
                        | None => set_currentQuestionAnswers (Some JsObject.empty) r1
                        end)
                   = default JsObject.empty (currentQuestionAnswers room)).
    { rewrite <- Ecqa. destruct (currentQuestionAnswers r1) eqn:E; simpl; by rewrite ?E. }
    rewrite Hdef, Hflag in Hbody. discriminate Hbody. }
  destruct (questions room !! currentQuestion room) as [question|] eqn:Hq.
  - destruct (submit_answer_body_accepted now playerName answerIndex room question
                Hst Hph Hflag Hq) as (r & Hr & _ & _ & Hcqa & _).
    rewrite Hr in Hbody. injection Hbody as <- _.
    unfold presentInCurrentAnswers, flaggedAsAnswered. rewrite Hcqa. simpl.
    rewrite JsObjectFacts.get_set_eq. simpl. by split.
  - unfold submit_answer_body in Hbody. rewrite Hst, Hph in Hbody.
    simpl negb in Hbody. simpl orb in Hbody. cbv iota zeta in Hbody.
    destruct (ensurePlayer_frame now playerName room)
      as (_ & _ & Eqs & Ecur & _ & _ & Ecqa).
    set (r1 := ensurePlayer now playerName room) in *. clearbody r1.
    destruct (currentQuestionAnswers r1) eqn:E; simpl in Hbody;
      rewrite ?E, ?Eqs, ?Ecur, ?Hq in Hbody; simpl in Hbody;
      repeat (match type of Hbody with
              | context [if ?b then _ else _] => destruct b
              end);
      discriminate Hbody.
Qed.

(** ** Resolving the phase on read *)

Ltac decide_eq :=
  repeat match goal with
    | |- context [bool_decide (?a = ?b)] =>
        first [ rewrite (bool_decide_eq_true_2 (a = b)) by (simpl; congruence)
              | rewrite (bool_decide_eq_false_2 (a = b)) by (simpl; congruence) ]
    end.

Lemma elapsedSeconds_same (now : Z) : elapsedSeconds now now = 0.
Proof. unfold elapsedSeconds. by rewrite Z.sub_diag. Qed.

(** The handler on a playing room, path by path. *)
Lemma get_question_body_playing (now : Z) (room : Room) :
  status room = StPlaying →
  get_question_body now (Some room)
  = match phase room with
    | PhAnswering =>
        if QUESTION_TIME <=? elapsedSeconds now (questionStartTime room)
        then (Some (toRevealing now room), currentView now (toRevealing now room))
        else (None, currentView now room)
    | PhRevealing =>
        if REVEAL_TIME <=? elapsedSeconds now (revealStartTime room)
        then
          if (List.length (questions room) <=? S (currentQuestion room))%nat
          then (Some (toFinished room), Finished (scores room))
          else (Some (toNextQuestion now room), currentView now (toNextQuestion now room))
        else (None, currentView now room)
    | PhWaiting => (None, currentView now room)
    end.
Proof.
  intros Hst. unfold get_question_body. rewrite Hst.
  destruct (phase room) eqn:Hph.
  - decide_eq. simpl. decide_eq. simpl. reflexivity.
  - decide_eq. simpl.
    destruct (QUESTION_TIME <=? elapsedSeconds now (questionStartTime room)); simpl.
    + decide_eq. simpl. rewrite elapsedSeconds_same. simpl. reflexivity.
    + decide_eq. simpl. reflexivity.
  - decide_eq. simpl. decide_eq. simpl.
    destruct (REVEAL_TIME <=? elapsedSeconds now (revealStartTime room)); simpl.
    + by destruct (List.length (questions room) <=? S (currentQuestion room))%nat.
    + reflexivity.
Qed.

Lemma getRoom_setRoom (roomCode : string) (room : Room) (st : Store) :
  getRoom roomCode (setRoom roomCode room st) = Some room.
Proof. unfold getRoom, setRoom. simpl. by rewrite lookup_insert_eq. Qed.

Ltac boundary_cases :=
  repeat split; intros; try done; auto; simpl; try lia;
  try (exfalso;
       match goal with
       | H : _ * 1000 <= _ |- _ => apply elapsedSeconds_after_window in H; lia
       end).

(** C3.  One evaluation of get-current-view on a playing room resolves at
    most one phase boundary.  From answering with the answer window elapsed
    it moves to revealing with revealStartTime = now and keeps the question
    index; from revealing with the reveal window elapsed it increments the
    index by exactly 1 and clears currentQuestionAnswers (then finishes or
    opens the next question); a call that starts in answering never changes
    the index, however long the gap; and in every case the number of
    boundaries behind the room grows by at most one. *)
Theorem get_question_one_boundary (now : Z) (roomCode : string) (st : Store)
    (room : Room) :
  getRoom roomCode st = Some room →
  status room = StPlaying →
  ∃ room',
    getRoom roomCode (fst (get_question now roomCode st)) = Some room'
    ∧ (phase room = PhAnswering →
       QUESTION_TIME * 1000 <= now - questionStartTime room →
       room' = toRevealing now room
       ∧ status room' = StPlaying
       ∧ phase room' = PhRevealing
       ∧ revealStartTime room' = now
       ∧ currentQuestion room' = currentQuestion room
       ∧ currentQuestionAnswers room' = currentQuestionAnswers room)
    ∧ (phase room = PhRevealing →
       REVEAL_TIME * 1000 <= now - revealStartTime room →
       currentQuestion room' = S (currentQuestion room)
       ∧ currentQuestionAnswers room' = Some JsObject.empty
       ∧ (room' = toFinished room ∨ room' = toNextQuestion now room))
    ∧ (phase room = PhAnswering →
       currentQuestion room' = currentQuestion room ∧ status room' = StPlaying)
    ∧ (room' = room
       ∨ (phase room = PhAnswering ∧ room' = toRevealing now room)
       ∨ (phase room = PhRevealing
          ∧ (room' = toFinished room ∨ room' = toNextQuestion now room)))
    ∧ (boundariesPassed room <= boundariesPassed room' <= boundariesPassed room + 1)%nat.
Proof.
  intros Hroom Hst.
  unfold get_question, serve. rewrite Hroom, (get_question_body_playing now room Hst).
  unfold boundariesPassed.
  destruct (phase room) eqn:Hph.
  - exists room. simpl. rewrite Hroom, Hst, Hph.
    boundary_cases.
  - destruct (QUESTION_TIME <=? elapsedSeconds now (questionStartTime room)) eqn:E.
    + exists (toRevealing now room). simpl fst. rewrite getRoom_setRoom.
      simpl. rewrite Hst.
      boundary_cases.
    + exists room. simpl fst. rewrite Hroom, Hst, Hph.
      apply Z.leb_gt in E.
      boundary_cases.
  - destruct (REVEAL_TIME <=? elapsedSeconds now (revealStartTime room)) eqn:E.
    + destruct (List.length (questions room) <=? S (currentQuestion room))%nat.
      * exists (toFinished room). simpl fst. rewrite getRoom_setRoom.
        simpl. rewrite Hst.
        boundary_cases.
      * exists (toNextQuestion now room). simpl fst. rewrite getRoom_setRoom.
        simpl. rewrite Hst.
        boundary_cases.
    + exists room. simpl fst. rewrite Hroom, Hst, Hph.
      apply Z.leb_gt in E.
      boundary_cases.
Qed.

Lemma get_question_one_boundary_witness :
  ∃ room',
    getRoom Scenario.code (fst (get_question 41000 Scenario.code Scenario.started))
    = Some room'
    ∧ phase room' = PhRevealing
    ∧ revealStartTime room' = 41000
    ∧ currentQuestion room' = 0%nat.
Proof.
  edestruct (get_question_one_boundary 41000 Scenario.code Scenario.started)
    as (room' & Hget & Hanswering & _).
  { vm_compute. reflexivity. }
  { vm_compute. reflexivity. }
  exists room'. split; [exact Hget|].
  destruct Hanswering as (_ & _ & Hph & Hrst & Hcur & _).
  { vm_compute. reflexivity. }
  { vm_compute. intros H. discriminate H. }
  rewrite Hph, Hrst, Hcur. repeat split. 
Defined.

(** After a gap of 190 seconds the first poll only reaches the reveal of the
    first question; a poll at the same instant changes nothing; the second
    question opens with a poll five seconds later. *)
Example catch_up_one_boundary_per_call :
  let st1 := fst (get_question 200000 Scenario.code Scenario.started) in
  let st2 := fst (get_question 200000 Scenario.code st1) in
  let st3 := fst (get_question 205000 Scenario.code st2) in
  (phase <$> getRoom Scenario.code st1, currentQuestion <$> getRoom Scenario.code st1)
  = (Some PhRevealing, Some 0%nat)
  ∧ st2 = st1
  ∧ (phase <$> getRoom Scenario.code st3, currentQuestion <$> getRoom Scenario.code st3)
    = (Some PhAnswering, Some 1%nat).
Proof. vm_compute. repeat split. Qed.




(** ** Resubmitting *)

(** A second submission for the same question, after an accepted first one:
    it is answered [alreadyAnswered] when the first choice was not option 0,
    and it is accepted and recorded again when the first choice was option
    0. *)
Lemma resubmission (now1 now2 : Z) (playerName : string) (first second : Z)
    (room : Room) (question : Question) :
  status room = StPlaying →
  phase room = PhAnswering →
  flaggedAsAnswered playerName room = false →
  questions room !! currentQuestion room = Some question →
  ∃ room1,
    fst (submit_answer_body now1 playerName first (Some room)) = Some room1
    ∧ (first ≠ 0 →
       submit_answer_body now2 playerName second (Some room1) = (None, AlreadyAnswered))
    ∧ (first = 0 →
       ∃ room2,
         submit_answer_body now2 playerName second (Some room1)
         = (Some room2, Submitted second (scores room2))
         ∧ JsObject.get playerName (playerAnswers room2)
           = Some (historyOf playerName room
                     ++ [recordOf room question 0; recordOf room question second])).
Proof.
  intros Hst Hph Hflag Hq.
  destruct (submit_answer_body_accepted now1 playerName first room question
              Hst Hph Hflag Hq)
    as (room1 & Hbody & Hhist & _ & _ & Hst1 & Hph1 & Hcur1 & Hqs1 & _).
  destruct (flaggedAsAnswered_after_submission now1 playerName first room room1 _
              Hst Hph Hbody) as [_ Hflag1].
  exists room1. rewrite Hbody. split; [done|]. split.
  - intros Hne. apply Z.eqb_neq in Hne. rewrite Hne in Hflag1.
    by apply submit_answer_body_flagged.
  - intros ->. simpl in Hflag1.
    assert (Hq1 : questions room1 !! currentQuestion room1 = Some question)
      by (by rewrite Hqs1, Hcur1).
    destruct (submit_answer_body_accepted now2 playerName second room1 question
                Hst1 Hph1 Hflag1 Hq1) as (room2 & Hbody2 & Hhist2 & _).
    exists room2. split; [exact Hbody2|].
    rewrite Hhist2. unfold historyOf at 1. rewrite Hhist. simpl.
    rewrite <- app_assoc. simpl. unfold recordOf. by rewrite Hcur1.
Qed.

(** C1 (behaviour of the code when the first choice is option 0).  ana
    submits option 0 for the first question and is recorded in
    currentQuestionAnswers; her second submission for the same question is
    not answered with the duplicate signal: it is accepted, her history holds
    two records for question 0 and her score has grown twice. *)
Theorem submit_answer_option0_scored_twice :
  snd Scenario.answeredOnce = Submitted 0 [("ana"%string, 1250)]
  ∧ snd Scenario.answeredTwice = Submitted 0 [("ana"%string, 2450)]
  ∧ ∃ room1 room2,
      getRoom Scenario.code (fst Scenario.answeredOnce) = Some room1
      ∧ presentInCurrentAnswers "ana" room1 = true
      ∧ getRoom Scenario.code (fst Scenario.answeredTwice) = Some room2
      ∧ List.length (recordsFor 0 (historyOf "ana" room2)) = 2%nat
      ∧ scoreOf "ana" room1 = 1250
      ∧ scoreOf "ana" room2 = 2450.
Proof.
  split; [vm_compute; reflexivity|].
  split; [vm_compute; reflexivity|].
  eexists. eexists.
  split; [vm_compute; reflexivity|].
  split; [vm_compute; reflexivity|].
  split; [vm_compute; reflexivity|].
  split; [vm_compute; reflexivity|].
  split; vm_compute; reflexivity.
Qed.

(** With any other first choice the same resubmission is a duplicate. *)
Example submit_answer_option2_duplicate :
  let once := submit_answer 15000 Scenario.code "ana" 2 Scenario.started in
  snd once = Submitted 2 [("ana"%string, 0)]
  ∧ submit_answer 16000 Scenario.code "ana" 0 (fst once) = (fst once, AlreadyAnswered).
Proof. vm_compute. split; reflexivity. Qed.

(** ** Loading questions *)

(** C5 (counterexample).  The generation step returns parseable output
    holding one question with three options and correct index 7; the upload
    succeeds and that question becomes the room's question list. *)
Lemma upload_content_stores_malformed :
  let gen := GenParsed [Scenario.malformed] in
  let result :=
    upload_content Scenario.keepOrder Scenario.keepOrder gen "k3x9qz1a" 3000
      Scenario.code Scenario.request Scenario.joined in
  wellFormedOutput gen = false
  ∧ generationRuns Scenario.request = true
  ∧ result ≠ (Scenario.joined, GenerationFailed)
  ∧ snd result = QuizGenerated 1 "k3x9qz1a" "Untitled Quiz"
  ∧ questions <$> getRoom Scenario.code Scenario.joined = Some []
  ∧ questions <$> getRoom Scenario.code (fst result) = Some [Scenario.malformed].
Proof.
  split; [vm_compute; reflexivity|].
  split; [vm_compute; reflexivity|].
  split.
  { intros H. apply (f_equal snd) in H. vm_compute in H. discriminate H. }
  split; [vm_compute; reflexivity|].
  split; vm_compute; reflexivity.
Qed.

(** C5 (as the code has it).  When the handler reaches the generation step
    and the step does not yield a parsed question sequence (the call is
    rejected, the text is not JSON, or there is no question list), the
    operation fails and the store is exactly as it was read.  When the step
    yields a parsed sequence, the records are stored as they come, without
    any check of the option count or the correct index. *)
Theorem upload_content_generation_outcome
    (shuffleArchive shuffle : list Question → list Question)
    (gen : GenOutput) (newQuizId : string) (now : Z) (roomCode : string)
    (req : UploadRequest) (st : Store) (room : Room) :
  getRoom roomCode st = Some room →
  generationRuns req = true →
  ((∀ qs, gen ≠ GenParsed qs) →
   upload_content shuffleArchive shuffle gen newQuizId now roomCode req st
   = (st, GenerationFailed))
  ∧ (∀ qs, gen = GenParsed qs →
     ∃ kept room',
       getRoom roomCode
         (fst (upload_content shuffleArchive shuffle gen newQuizId now roomCode req st))
       = Some room'
       ∧ questions room' = shuffle (kept ++ qs)
       ∧ ∃ quizName,
           snd (upload_content shuffleArchive shuffle gen newQuizId now roomCode req st)
           = QuizGenerated (List.length (shuffle (kept ++ qs))) newQuizId quizName).
Proof.
  intros Hroom Hruns. unfold generationRuns in Hruns.
  unfold upload_content. rewrite Hroom. cbv zeta.
  apply andb_true_iff in Hruns as [Hneed Hcontent]. rewrite Hcontent.
  assert (Hneed' : match nonEmpty (up_useExisting req) with
                   | Some _ => up_mixMode req
                   | None => true
                   end = true)
    by (destruct (nonEmpty (up_useExisting req)); exact Hneed).
  rewrite Hneed'. simpl andb. cbv iota.
  split.
  - intros Hnot. destruct gen as [| | |qs]; try reflexivity.
    by destruct (Hnot qs).
  - intros qs ->. eexists. eexists.
    split; [|split; [|eexists; reflexivity]].
    + unfold getRoom, saveQuiz, setRoom. simpl. apply lookup_insert_eq.
    + reflexivity.
Qed.

Lemma upload_content_generation_outcome_witness :
  upload_content Scenario.keepOrder Scenario.keepOrder GenNotJson "k3x9qz1a" 3000
    Scenario.code Scenario.request Scenario.joined
  = (Scenario.joined, GenerationFailed).
Proof.
  edestruct (upload_content_generation_outcome Scenario.keepOrder Scenario.keepOrder
               GenNotJson "k3x9qz1a" 3000 Scenario.code Scenario.request
               Scenario.joined) as [Hfail _].
  { vm_compute. reflexivity. }
  { vm_compute. reflexivity. }
  apply Hfail. intros qs H. discriminate H.
Defined.

(** ** Overlapping requests *)

Lemma setRoom_setRoom (roomCode : string) (r1 r2 : Room) (st : Store) :
  setRoom roomCode r2 (setRoom roomCode r1 st) = setRoom roomCode r2 st.
Proof. unfold setRoom. simpl. by rewrite insert_insert_eq. Qed.

(** C7 (counterexample).  ana and ben submit their answers to the same
    question; both requests read the room before either writes it back.
    Both are acknowledged, yet the stored room keeps no trace of ana's
    answer: no record, no score, no entry in currentQuestionAnswers.  The
    outcome is neither of the two serial outcomes. *)
Lemma overlapping_submissions_lose_an_update :
  let w :=
    Interleaving.run Scenario.code Scenario.anaAnswers Scenario.benAnswers
      Interleaving.overlapping Scenario.started in
  Interleaving.progressA w = Interleaving.Done (Submitted 0 [("ana"%string, 1250)])
  ∧ Interleaving.progressB w
    = Interleaving.Done (Submitted 2 [("ana"%string, 0); ("ben"%string, 0)])
  ∧ (historyOf "ana" <$> getRoom Scenario.code (Interleaving.store w)) = Some []
  ∧ (scoreOf "ana" <$> getRoom Scenario.code (Interleaving.store w)) = Some 0
  ∧ (presentInCurrentAnswers "ana" <$> getRoom Scenario.code (Interleaving.store w))
    = Some false
  ∧ Interleaving.store w
    ≠ Interleaving.serialAB Scenario.code Scenario.anaAnswers Scenario.benAnswers
        Scenario.started
  ∧ Interleaving.store w
    ≠ Interleaving.serialBA Scenario.code Scenario.anaAnswers Scenario.benAnswers
        Scenario.started.
Proof.
  split; [vm_compute; reflexivity|].
  split; [vm_compute; reflexivity|].
  split; [vm_compute; reflexivity|].
  split; [vm_compute; reflexivity|].
  split; [vm_compute; reflexivity|].
  split.
  - intros H.
    apply (f_equal (fun st => scoreOf "ana" <$> getRoom Scenario.code st)) in H.
    vm_compute in H. discriminate H.
  - intros H.
    apply (f_equal (fun st => scoreOf "ana" <$> getRoom Scenario.code st)) in H.
    vm_compute in H. discriminate H.
Qed.

(** C7 (as the code has it).  Every operation is a plain read of the room
    followed by an unconditional write-back; nothing serializes requests
    and no write is ever refused.  When the two requests do not overlap the
    outcome is the serial one and both effects are kept.  When both read
    before either writes, each computes from the same snapshot, both are
    answered as if they had succeeded, and if the second writes, the stored
    room is the one it computed from the stale snapshot: the first write is
    overwritten. *)
Theorem read_then_write_without_serialization (roomCode : string)
    (handlerA handlerB : Handler) (st : Store) :
  let snapshot := getRoom roomCode st in
  let separate := Interleaving.run roomCode handlerA handlerB Interleaving.separate st in
  let overlap := Interleaving.run roomCode handlerA handlerB Interleaving.overlapping st in
  Interleaving.store separate = Interleaving.serialAB roomCode handlerA handlerB st
  ∧ Interleaving.progressA overlap = Interleaving.Done (snd (handlerA snapshot))
  ∧ Interleaving.progressB overlap = Interleaving.Done (snd (handlerB snapshot))
  ∧ (∀ roomB,
       fst (handlerB snapshot) = Some roomB →
       Interleaving.store overlap = setRoom roomCode roomB st
       ∧ getRoom roomCode (Interleaving.store overlap) = Some roomB).
Proof.
  unfold Interleaving.run, Interleaving.separate, Interleaving.overlapping,
    Interleaving.serialAB, serve.
  simpl.
  destruct (handlerA (getRoom roomCode st)) as [[roomA|] respA] eqn:EA;
    simpl.
  - split.
    { destruct (handlerB (getRoom roomCode (setRoom roomCode roomA st)))
        as [[roomB|] respB]; reflexivity. }
    destruct (handlerB (getRoom roomCode st)) as [[roomB|] respB] eqn:EB; simpl.
    + split; [done|]. split; [done|].
      intros ? [= <-]. rewrite setRoom_setRoom. split; [done|].
      apply getRoom_setRoom.
    + split; [done|]. split; [done|]. intros ? [=].
  - split.
    { destruct (handlerB (getRoom roomCode st)) as [[roomB|] respB]; reflexivity. }
    destruct (handlerB (getRoom roomCode st)) as [[roomB|] respB] eqn:EB; simpl.
    + split; [done|]. split; [done|].
      intros ? [= <-]. split; [done|]. apply getRoom_setRoom.
    + split; [done|]. split; [done|]. intros ? [=].
Qed.

Lemma read_then_write_without_serialization_witness :
  ∃ roomB,
    getRoom Scenario.code
      (Interleaving.store
         (Interleaving.run Scenario.code Scenario.anaAnswers Scenario.benAnswers
            Interleaving.overlapping Scenario.started))
    = Some roomB
    ∧ historyOf "ana" roomB = [].
Proof.
  eexists.
  edestruct (read_then_write_without_serialization Scenario.code
               Scenario.anaAnswers Scenario.benAnswers Scenario.started)
    as (_ & _ & _ & Hlast).
  edestruct Hlast as [_ Hget].
  { vm_compute. reflexivity. }
  split; [exact Hget|]. vm_compute. reflexivity.
Defined.

(** ** The registry is an invariant of the server *)

Lemma Registered_ext (room room' : Room) :
  players room' = players room →
  (∀ k, is_Some (JsObject.get k (scores room)) → is_Some (JsObject.get k (scores room'))) →
  (∀ k, is_Some (JsObject.get k (playerAnswers room)) →
        is_Some (JsObject.get k (playerAnswers room'))) →
  Registered room → Registered room'.
Proof.
  intros Hps Hs Hh Hreg p Hp. rewrite Hps in Hp.
  destruct (Hreg p Hp). split; auto.
Qed.




Lemma fold_resetPlayer_players (ps : list Player) (room : Room) :
  players (fold_left resetPlayer ps room) = players room.
Proof.
  revert room. induction ps as [|p ps IH]; intros room; simpl; [done|].
  by rewrite IH.
Qed.

Lemma fold_resetPlayer_keeps (ps : list Player) (room : Room) (k : string) :
  (is_Some (JsObject.get k (scores room)) →
   is_Some (JsObject.get k (scores (fold_left resetPlayer ps room))))
  ∧ (is_Some (JsObject.get k (playerAnswers room)) →
     is_Some (JsObject.get k (playerAnswers (fold_left resetPlayer ps room)))).
Proof.
  revert room. induction ps as [|p ps IH]; intros room; simpl; [done|].
  destruct (IH (resetPlayer room p)) as [IHs IHh].
  split; intros H; [apply IHs|apply IHh]; simpl;
    by apply JsObjectFacts.get_set_is_Some.
Qed.

Lemma fold_resetPlayer_covers (ps : list Player) (room : Room) (p : Player) :
  In p ps →
  is_Some (JsObject.get (p_name p) (scores (fold_left resetPlayer ps room)))
  ∧ is_Some (JsObject.get (p_name p) (playerAnswers (fold_left resetPlayer ps room))).
Proof.
  revert room. induction ps as [|p0 ps IH]; intros room; simpl; [done|].
  intros [->|Hin]; [|by apply IH].
  destruct (fold_resetPlayer_keeps ps (resetPlayer room p) (p_name p)) as [Hs Hh].
  split; [apply Hs|apply Hh]; simpl; rewrite JsObjectFacts.get_set_eq; eauto.
Qed.

(** start-game registers every listed player, whatever the room was. *)
Lemma start_game_body_keepsRegistry (now : Z) : keepsRegistry (start_game_body now).
Proof.
  intros [room|] room' resp _; simpl; [|done].
  destruct (List.length (questions room) =? 0)%nat; [done|].
  intros [= <- _] p Hp. simpl in *.
  rewrite fold_resetPlayer_players in Hp. simpl in Hp.
  by apply fold_resetPlayer_covers.
Qed.


Lemma submit_answer_body_keepsRegistry (now : Z) (playerName : string) (answerIndex : Z) :
  keepsRegistry (submit_answer_body now playerName answerIndex).
Proof.
  intros [room|] room' resp Hreg; [|done].
  specialize (Hreg room eq_refl).
  apply (ensurePlayer_Registered now playerName) in Hreg.
  unfold submit_answer_body.
  destruct (negb _ || negb _); [done|]. cbv zeta.
  set (r1 := ensurePlayer now playerName room) in *. clearbody r1.
  set (r2 := match currentQuestionAnswers r1 with
             | Some _ => r1
             | None => set_currentQuestionAnswers (Some JsObject.empty) r1
             end).
  assert (Hr2 : players r2 = players r1 ∧ scores r2 = scores r1
                ∧ playerAnswers r2 = playerAnswers r1)
    by (subst r2; by destruct (currentQuestionAnswers r1)).
  destruct Hr2 as (Hps & Hs & Hh). clearbody r2.
  destruct (truthy _); [done|].
  destruct (questions r2 !! currentQuestion r2) as [question|]; [|done].
  intros [= <- _].
  apply (Registered_ext r1); [| | |done].
  - destruct (answerIndex =? q_correct question); simpl; by rewrite Hps.
  - intros k Hk.
    destruct (answerIndex =? q_correct question); simpl; rewrite ?Hs; [|done].
    by apply JsObjectFacts.get_set_is_Some.
  - intros k Hk.
    destruct (answerIndex =? q_correct question); simpl; rewrite ?Hh;
      by apply JsObjectFacts.get_set_is_Some.
Qed.




(** * Further properties of the polling server *)

(** ** Starting a game *)

Lemma resetPlayer_fields (room : Room) (p : Player) :
  players (resetPlayer room p) = players room
  ∧ questions (resetPlayer room p) = questions room
  ∧ status (resetPlayer room p) = status room
  ∧ phase (resetPlayer room p) = phase room
  ∧ currentQuestion (resetPlayer room p) = currentQuestion room
  ∧ questionStartTime (resetPlayer room p) = questionStartTime room
  ∧ currentQuestionAnswers (resetPlayer room p) = currentQuestionAnswers room.
Proof. repeat split. Qed.

Lemma fold_resetPlayer_fields (ps : list Player) (room : Room) :
  players (fold_left resetPlayer ps room) = players room
  ∧ questions (fold_left resetPlayer ps room) = questions room
  ∧ status (fold_left resetPlayer ps room) = status room
  ∧ phase (fold_left resetPlayer ps room) = phase room
  ∧ currentQuestion (fold_left resetPlayer ps room) = currentQuestion room
  ∧ questionStartTime (fold_left resetPlayer ps room) = questionStartTime room
  ∧ currentQuestionAnswers (fold_left resetPlayer ps room) = currentQuestionAnswers room.
Proof.
  revert room. induction ps as [|p ps IH]; intros room; simpl; [repeat split|].
  destruct (IH (resetPlayer room p)) as (-> & -> & -> & -> & -> & -> & ->).
  repeat split.
Qed.

Lemma fold_resetPlayer_unlisted (ps : list Player) (room : Room) (k : string) :
  hasPlayer k ps = false →
  JsObject.get k (scores (fold_left resetPlayer ps room)) = JsObject.get k (scores room)
  ∧ JsObject.get k (playerAnswers (fold_left resetPlayer ps room))
    = JsObject.get k (playerAnswers room).
Proof.
  revert room. induction ps as [|p ps IH]; intros room; simpl; [done|].
  intros H. apply orb_false_iff in H as [Hp Hps]. apply String.eqb_neq in Hp.
  destruct (IH (resetPlayer room p) Hps) as [-> ->]. simpl.
  split; apply JsObjectFacts.get_set_ne; congruence.
Qed.

Lemma fold_resetPlayer_zero (ps : list Player) (room : Room) (k : string) :
  (hasPlayer k ps = true ∨ JsObject.get k (scores room) = Some 0) →
  JsObject.get k (scores (fold_left resetPlayer ps room)) = Some 0.
Proof.
  revert room. induction ps as [|p ps IH]; intros room; simpl.
  - by intros [|].
  - intros H. apply IH. simpl.
    destruct (String.eqb (p_name p) k) eqn:E.
    + apply String.eqb_eq in E. subst k. right. apply JsObjectFacts.get_set_eq.
    + apply String.eqb_neq in E. simpl in H. destruct H as [H|H]; [by left|].
      right. rewrite JsObjectFacts.get_set_ne by congruence. exact H.
Qed.

Lemma fold_resetPlayer_empty (ps : list Player) (room : Room) (k : string) :
  (hasPlayer k ps = true ∨ JsObject.get k (playerAnswers room) = Some []) →
  JsObject.get k (playerAnswers (fold_left resetPlayer ps room)) = Some [].
Proof.
  revert room. induction ps as [|p ps IH]; intros room; simpl.
  - by intros [|].
  - intros H. apply IH. simpl.
    destruct (String.eqb (p_name p) k) eqn:E.
    + apply String.eqb_eq in E. subst k. right. apply JsObjectFacts.get_set_eq.
    + apply String.eqb_neq in E. simpl in H. destruct H as [H|H]; [by left|].
      right. rewrite JsObjectFacts.get_set_ne by congruence. exact H.
Qed.

(** What start-game writes. *)
Lemma start_game_body_started (now : Z) (room : Room) :
  questions room ≠ [] →
  ∃ room',
    start_game_body now (Some room) = (Some room', Started)
    ∧ status room' = StPlaying ∧ phase room' = PhAnswering
    ∧ currentQuestion room' = 0%nat
    ∧ questionStartTime room' = now
    ∧ currentQuestionAnswers room' = Some JsObject.empty
    ∧ players room' = players room
    ∧ questions room' = questions room
    ∧ (∀ k, hasPlayer k (players room) = true →
            JsObject.get k (scores room') = Some 0
            ∧ JsObject.get k (playerAnswers room') = Some [])
    ∧ (∀ k, hasPlayer k (players room) = false →
            JsObject.get k (scores room') = JsObject.get k (scores room)
            ∧ JsObject.get k (playerAnswers room')
              = JsObject.get k (playerAnswers room)).
Proof.
  intros Hq. unfold start_game_body.
  destruct (questions room) as [|q qs] eqn:Eq; [done|]. simpl "=?"%nat. cbv iota.
  eexists. split; [reflexivity|]. cbv zeta.
  match goal with
  | |- context [fold_left resetPlayer ?ps ?r] =>
      destruct (fold_resetPlayer_fields ps r) as (E1 & E2 & E3 & E4 & E5 & E6 & E7);
      pose proof (fold_resetPlayer_unlisted ps r) as Hun;
      pose proof (fold_resetPlayer_zero ps r) as Hz;
      pose proof (fold_resetPlayer_empty ps r) as He
  end.
  simpl in *. rewrite E1, E2, E3, E4, E5, E6, E7.
  repeat split; try done.
  - apply Hz. by left.
  - apply He. by left.
  - by apply Hun.
  - by apply Hun.
Qed.

(** X1.  Starting a game on a room that has questions puts it in playing /
    answering at question 0 with the clock started and no answers recorded for
    the question; every listed player restarts with score 0 and an empty
    history, whatever they had before (also when the room had finished a
    previous game); the players and the questions are kept. *)
Theorem start_game_resets (now : Z) (roomCode : string) (st : Store) (room : Room) :
  getRoom roomCode st = Some room →
  questions room ≠ [] →
  ∃ room',
    start_game now roomCode st = (setRoom roomCode room' st, Started)
    ∧ status room' = StPlaying ∧ phase room' = PhAnswering
    ∧ currentQuestion room' = 0%nat
    ∧ questionStartTime room' = now
    ∧ currentQuestionAnswers room' = Some JsObject.empty
    ∧ players room' = players room
    ∧ questions room' = questions room
    ∧ (∀ k, hasPlayer k (players room) = true →
            scoreOf k room' = 0 ∧ historyOf k room' = []
            ∧ flaggedAsAnswered k room' = false)
    ∧ (∀ k, hasPlayer k (players room) = false →
            JsObject.get k (scores room') = JsObject.get k (scores room)
            ∧ JsObject.get k (playerAnswers room')
              = JsObject.get k (playerAnswers room)).
Proof.
  intros Hroom Hq.
  destruct (start_game_body_started now room Hq)
    as (room' & Hbody & Hst & Hph & Hcur & Hqst & Hcqa & Hps & Hqs & Hin & Hout).
  exists room'. unfold start_game.
  destruct (serve_written (start_game_body now) roomCode st room' Started) as [-> _].
  { by rewrite Hroom. }
  do 8 (split; [done|]).
  split; [|exact Hout].
  intros k Hk. destruct (Hin k Hk) as [Hs Hh].
  unfold scoreOf, historyOf, flaggedAsAnswered. by rewrite Hs, Hh, Hcqa.
Qed.

Lemma start_game_resets_witness :
  ∃ room room',
    getRoom Scenario.code (fst Scenario.answeredOnce) = Some room
    ∧ scoreOf "ana" room = 1250
    ∧ getRoom Scenario.code
        (fst (start_game 90000 Scenario.code (fst Scenario.answeredOnce))) = Some room'
    ∧ scoreOf "ana" room' = 0
    ∧ historyOf "ana" room' = [].
Proof.
  eexists.
  edestruct (start_game_resets 90000 Scenario.code (fst Scenario.answeredOnce))
    as (room' & Hrun & _ & _ & _ & _ & _ & _ & _ & Hin & _).
  { vm_compute. reflexivity. }
  { vm_compute. intros H. discriminate H. }
  exists room'. split; [vm_compute; reflexivity|].
  split; [vm_compute; reflexivity|].
  rewrite Hrun. simpl fst. split; [apply getRoom_setRoom|].
  destruct (Hin "ana"%string) as (Hs & Hh & _); [vm_compute; reflexivity|].
  by split.
Defined.

(** ** Rooms that do not exist, rooms that are not playing *)

(** X2.  No request addressed to a room code that is not in the store creates
    the room or changes anything else: join, upload, load-quiz, start,
    get-current-view, submit-answer and get-results all leave the store as it
    is. *)
Theorem request_for_missing_room_changes_nothing (request : Request)
    (roomCode : string) (st : Store) :
  requestRoom request = Some roomCode →
  getRoom roomCode st = None →
  handle request st = st.
Proof.
  intros Hreq Hnone.
  destruct request; simpl in Hreq; try discriminate Hreq;
    injection Hreq as ->; simpl;
    unfold join_room, start_game, get_question, submit_answer, get_results, serve,
      upload_content, load_quiz;
    by rewrite Hnone.
Qed.

Lemma request_for_missing_room_changes_nothing_witness :
  handle (SubmitAnswer 15000 "NOROOM" "ana" 0) Scenario.started = Scenario.started.
Proof.
  apply (request_for_missing_room_changes_nothing _ "NOROOM").
  - reflexivity.
  - vm_compute. reflexivity.
Defined.

Lemma getRoom_setRoom_ne (roomCode other : string) (room : Room) (st : Store) :
  other ≠ roomCode → getRoom other (setRoom roomCode room st) = getRoom other st.
Proof. intros Hne. unfold getRoom, setRoom. simpl. by rewrite lookup_insert_ne. Qed.

Lemma serve_other (h : Handler) (roomCode other : string) (st : Store) :
  other ≠ roomCode → getRoom other (fst (serve h roomCode st)) = getRoom other st.
Proof.
  intros Hne. unfold serve.
  destruct (h (getRoom roomCode st)) as [[room'|] resp]; simpl; [|done].
  by apply getRoom_setRoom_ne.
Qed.

Lemma polling_request_not_playing (request : Request) (roomCode : string)
    (st : Store) (room : Room) :
  pollingRequest request = true →
  getRoom roomCode st = Some room →
  status room ≠ StPlaying →
  getRoom roomCode (handle request st) = Some room.
Proof.
  intros Hpoll Hroom Hst.
  destruct request as [| | | | |now code|now code p idx|code p]; try discriminate Hpoll;
    simpl; destruct (decide (roomCode = code)) as [<-|Hne];
    try (unfold get_question, submit_answer, get_results;
         rewrite serve_other by done; exact Hroom).
  - unfold get_question, serve, get_question_body. rewrite Hroom.
    destruct (status room); simpl; done.
  - unfold submit_answer, serve, submit_answer_body. rewrite Hroom.
    rewrite (bool_decide_eq_false_2 (status room = StPlaying)) by done. by simpl.
  - unfold get_results, serve. rewrite Hroom. by simpl.
Qed.

(** X3.  A room that is waiting or finished is frozen under polling: whatever
    sequence of get-current-view, submit-answer and get-results requests
    arrives (for this room or for others, at any times), the stored room stays
    exactly as it is.  In particular a finished game keeps its final scores
    and histories. *)
Theorem room_not_playing_is_frozen (requests : list Request) (roomCode : string)
    (st : Store) (room : Room) :
  getRoom roomCode st = Some room →
  status room ≠ StPlaying →
  forallb pollingRequest requests = true →
  getRoom roomCode (storeFrom st requests) = Some room.
Proof.
  intros Hroom Hst. revert st Hroom.
  induction requests as [|request requests IH]; intros st Hroom Hpoll; simpl; [done|].
  simpl in Hpoll. apply andb_true_iff in Hpoll as [Hreq Hrest].
  apply IH; [|done]. by apply polling_request_not_playing.
Qed.

Lemma room_not_playing_is_frozen_witness :
  getRoom Scenario.code
    (storeFrom Scenario.loaded
       [SubmitAnswer 4000 Scenario.code "ana" 0; GetQuestion 99000 Scenario.code])
  = getRoom Scenario.code Scenario.loaded.
Proof.
  transitivity (Some (default (newRoom None None 0)
                        (getRoom Scenario.code Scenario.loaded))).
  - apply room_not_playing_is_frozen.
    + vm_compute. reflexivity.
    + vm_compute. intros H. discriminate H.
    + reflexivity.
  - vm_compute. reflexivity.
Defined.

(** ** Polling inside and at the end of the windows *)

(** X4.  Polling twice inside the answer window (the second poll not earlier
    than the first) writes nothing, shows the answering phase both times
    without the correct index or the explanation, and the time left does not
    grow and is still positive. *)
Theorem polling_within_answer_window (now1 now2 : Z) (roomCode : string)
    (st : Store) (room : Room) (question : Question) :
  getRoom roomCode st = Some room →
  status room = StPlaying →
  phase room = PhAnswering →
  questions room !! currentQuestion room = Some question →
  now1 <= now2 →
  now2 - questionStartTime room < QUESTION_TIME * 1000 →
  ∃ v1 v2,
    get_question now1 roomCode st = (st, View v1)
    ∧ get_question now2 roomCode st = (st, View v2)
    ∧ v_phase v1 = PhAnswering ∧ v_phase v2 = PhAnswering
    ∧ v_correctAnswer v1 = None ∧ v_correctAnswer v2 = None
    ∧ v_explanation v1 = None ∧ v_explanation v2 = None
    ∧ v_question v1 = q_question question ∧ v_question v2 = q_question question
    ∧ 0 < v_timeLeft v2 <= v_timeLeft v1.
Proof.
  intros Hroom Hst Hph Hq Hle Hwin.
  assert (Hin : ∀ now, now <= now2 →
            (QUESTION_TIME <=? elapsedSeconds now (questionStartTime room)) = false).
  { intros now Hnow. apply Z.leb_gt.
    destruct (Z.lt_ge_cases (elapsedSeconds now (questionStartTime room)) QUESTION_TIME)
      as [|Hge]; [done|].
    apply elapsedSeconds_after_window in Hge. lia. }
  unfold get_question, serve. rewrite Hroom.
  rewrite !(get_question_body_playing _ room Hst), Hph.
  rewrite (Hin now1 Hle), (Hin now2 ltac:(lia)).
  unfold currentView. rewrite Hq.
  rewrite (bool_decide_eq_true_2 _ Hph).
  eexists. eexists. split; [reflexivity|]. split; [reflexivity|]. simpl.
  do 8 (split; [done|]).
  pose proof (Hin now2 ltac:(lia)) as H2. apply Z.leb_gt in H2.
  assert (elapsedSeconds now1 (questionStartTime room)
          <= elapsedSeconds now2 (questionStartTime room)).
  { unfold elapsedSeconds. apply Z.div_le_mono; lia. }
  lia.
Qed.

Lemma polling_within_answer_window_witness :
  ∃ v1 v2,
    get_question 12000 Scenario.code Scenario.started = (Scenario.started, View v1)
    ∧ get_question 39999 Scenario.code Scenario.started = (Scenario.started, View v2)
    ∧ 0 < v_timeLeft v2 <= v_timeLeft v1.
Proof.
  edestruct (polling_within_answer_window 12000 39999 Scenario.code Scenario.started)
    as (v1 & v2 & H1 & H2 & _ & _ & _ & _ & _ & _ & _ & _ & Hleft).
  { vm_compute. reflexivity. }
  { vm_compute. reflexivity. }
  { vm_compute. reflexivity. }
  { vm_compute. reflexivity. }
  { vm_compute. intros H. discriminate H. }
  { vm_compute. reflexivity. }
  exists v1, v2. split; [exact H1|]. split; [exact H2|exact Hleft].
Defined.

(** X5.  When the reveal window of the last question has elapsed, the poll
    that notices it finishes the game: it answers with the finished payload
    and the scores, and stores the room as finished with scores, histories,
    players and questions unchanged.  Every later poll, at any time, gets the
    same finished payload and writes nothing. *)
Theorem last_reveal_finishes_game (now later : Z) (roomCode : string)
    (st : Store) (room : Room) :
  getRoom roomCode st = Some room →
  status room = StPlaying →
  phase room = PhRevealing →
  REVEAL_TIME * 1000 <= now - revealStartTime room →
  (List.length (questions room) <= S (currentQuestion room))%nat →
  ∃ room',
    get_question now roomCode st = (setRoom roomCode room' st, Finished (scores room))
    ∧ status room' = StFinished
    ∧ scores room' = scores room
    ∧ playerAnswers room' = playerAnswers room
    ∧ players room' = players room
    ∧ questions room' = questions room
    ∧ get_question later roomCode (setRoom roomCode room' st)
      = (setRoom roomCode room' st, Finished (scores room)).
Proof.
  intros Hroom Hst Hph Hlate Hlast.
  apply elapsedSeconds_after_window in Hlate. apply Z.leb_le in Hlate.
  apply Nat.leb_le in Hlast.
  exists (toFinished room).
  unfold get_question, serve at 1. rewrite Hroom.
  rewrite (get_question_body_playing _ room Hst), Hph, Hlate, Hlast.
  do 6 (split; [done|]).
  unfold serve. by rewrite getRoom_setRoom.
Qed.

Lemma last_reveal_finishes_game_witness :
  let revealing := fst (get_question 100000 Scenario.code
                          (fst (get_question 70000 Scenario.code
                                  (fst (get_question 41000 Scenario.code
                                          Scenario.started))))) in
  ∃ room',
    getRoom Scenario.code (fst (get_question 110000 Scenario.code revealing)) = Some room'
    ∧ status room' = StFinished.
Proof.
  intros revealing.
  edestruct (last_reveal_finishes_game 110000 0 Scenario.code revealing)
    as (room' & Hrun & Hst & _).
  { vm_compute. reflexivity. }
  { vm_compute. reflexivity. }
  { vm_compute. reflexivity. }
  { vm_compute. intros H. discriminate H. }
  { vm_compute. lia. }
  exists room'. rewrite Hrun. simpl fst. split; [apply getRoom_setRoom|exact Hst].
Defined.

(** ** What a submission writes *)

(** Field by field, the room written by an accepted submission. *)
Lemma submit_answer_body_fields (now : Z) (playerName : string) (answerIndex : Z)
    (room : Room) (question : Question) :
  status room = StPlaying →
  phase room = PhAnswering →
  flaggedAsAnswered playerName room = false →
  questions room !! currentQuestion room = Some question →
  ∃ room',
    submit_answer_body now playerName answerIndex (Some room)
    = (Some room', Submitted answerIndex (scores room'))
    ∧ players room' = players (ensurePlayer now playerName room)
    ∧ scores room'
      = (if answerIndex =? q_correct question then
           JsObject.set playerName
             (scoreOf playerName room
              + Z.max 100
                  (Z.max 0 (QUESTION_TIME
                            - elapsedSeconds now (questionStartTime room)) * 50))
             (scores (ensurePlayer now playerName room))
         else scores (ensurePlayer now playerName room))
    ∧ playerAnswers room'
      = JsObject.set playerName
          (historyOf playerName room ++ [recordOf room question answerIndex])
          (playerAnswers (ensurePlayer now playerName room))
    ∧ currentQuestionAnswers room'
      = Some (JsObject.set playerName answerIndex
                (default JsObject.empty (currentQuestionAnswers room)))
    ∧ status room' = StPlaying ∧ phase room' = PhAnswering
    ∧ currentQuestion room' = currentQuestion room
    ∧ questions room' = questions room
    ∧ questionStartTime room' = questionStartTime room
    ∧ revealStartTime room' = revealStartTime room.
Proof.
  intros Hst Hph Hflag Hq.
  unfold submit_answer_body. rewrite Hst, Hph. simpl negb. simpl orb. cbv iota.
  destruct (ensurePlayer_frame now playerName room)
    as (Est & Eph & Eqs & Ecur & Eqst & Erst & Ecqa).
  destruct (ensurePlayer_scoreOf now playerName room) as [Escore [s Hs]].
  pose proof (ensurePlayer_historyOf now playerName room) as Ehist.
  unfold scoreOf in Escore. rewrite Hs in Escore. simpl in Escore.
  unfold flaggedAsAnswered in Hflag. unfold scoreOf at 1.
  set (r1 := ensurePlayer now playerName room) in *. clearbody r1.
  cbv zeta.
  assert (Hdef : default JsObject.empty
                   (currentQuestionAnswers
                      match currentQuestionAnswers r1 with
                      | Some _ => r1
                      | None => set_currentQuestionAnswers (Some JsObject.empty) r1
                      end)
                 = default JsObject.empty (currentQuestionAnswers room)).
  { rewrite <- Ecqa. destruct (currentQuestionAnswers r1) eqn:E; simpl; by rewrite ?E. }
  rewrite Hdef, Hflag.
  assert (Hq' : questions
                  match currentQuestionAnswers r1 with
                  | Some _ => r1
                  | None => set_currentQuestionAnswers (Some JsObject.empty) r1
                  end
                !! currentQuestion
                     match currentQuestionAnswers r1 with
                     | Some _ => r1
                     | None => set_currentQuestionAnswers (Some JsObject.empty) r1
                     end = Some question).
  { destruct (currentQuestionAnswers r1); simpl; by rewrite Eqs, Ecur. }
  rewrite Hq'.
  eexists. split; [reflexivity|].
  unfold recordOf.
  destruct (currentQuestionAnswers r1) as [o|] eqn:Eo;
    destruct (answerIndex =? q_correct question) eqn:Ecorrect; simpl;
    rewrite ?Eo, ?Ehist, ?Hs, ?orElse_0, <- ?Ecqa, ?Escore,
      ?Eqst, ?Ecur, ?Eqs, ?Est, ?Eph, ?Hst, ?Hph, ?Erst; simpl;
    repeat split; try congruence.
Qed.

(** Every path of the handler that writes is an accepted submission. *)
Lemma submit_answer_body_written (now : Z) (playerName : string) (answerIndex : Z)
    (room room' : Room) (resp : Response) :
  submit_answer_body now playerName answerIndex (Some room) = (Some room', resp) →
  status room = StPlaying ∧ phase room = PhAnswering
  ∧ flaggedAsAnswered playerName room = false
  ∧ ∃ question, questions room !! currentQuestion room = Some question.
Proof.
  intros Hbody.
  assert (Hguard : status room = StPlaying ∧ phase room = PhAnswering).
  { unfold submit_answer_body in Hbody.
    destruct (status room); destruct (phase room); simpl in Hbody;
      try discriminate Hbody; done. }
  destruct Hguard as [Hst Hph]. split; [done|]. split; [done|].
  destruct (flaggedAsAnswered playerName room) eqn:Hflag.
  { rewrite (submit_answer_body_flagged now playerName answerIndex room Hst Hph Hflag)
      in Hbody. discriminate Hbody. }
  split; [done|].
  destruct (questions room !! currentQuestion room) as [question|] eqn:Hq; [eauto|].
  exfalso.
  unfold submit_answer_body in Hbody. rewrite Hst, Hph in Hbody.
  simpl negb in Hbody. simpl orb in Hbody. cbv iota zeta in Hbody.
  destruct (ensurePlayer_frame now playerName room)
    as (_ & _ & Eqs & Ecur & _ & _ & Ecqa).
  set (r1 := ensurePlayer now playerName room) in *. clearbody r1.
  destruct (currentQuestionAnswers r1) eqn:E; simpl in Hbody;
    rewrite ?E, ?Eqs, ?Ecur, ?Hq in Hbody; simpl in Hbody;
    repeat (match type of Hbody with
            | context [if ?b then _ else _] => destruct b
            end);
    discriminate Hbody.
Qed.

(** X6.  A submission, whatever its outcome, concerns one player only: the
    scores and histories of all other players, the questions, the status, the
    phase, the question index and the phase clocks are the same after the
    call, and the submitting player's own score never goes down. *)
Theorem submit_answer_touches_one_player (now : Z) (roomCode playerName : string)
    (answerIndex : Z) (st : Store) (room : Room) :
  getRoom roomCode st = Some room →
  ∃ room',
    getRoom roomCode (fst (submit_answer now roomCode playerName answerIndex st))
    = Some room'
    ∧ (∀ other, other ≠ playerName →
         JsObject.get other (scores room') = JsObject.get other (scores room)
         ∧ JsObject.get other (playerAnswers room')
           = JsObject.get other (playerAnswers room)
         ∧ JsObject.get other (default JsObject.empty (currentQuestionAnswers room'))
           = JsObject.get other (default JsObject.empty (currentQuestionAnswers room)))
    ∧ questions room' = questions room
    ∧ status room' = status room ∧ phase room' = phase room
    ∧ currentQuestion room' = currentQuestion room
    ∧ questionStartTime room' = questionStartTime room
    ∧ revealStartTime room' = revealStartTime room
    ∧ scoreOf playerName room <= scoreOf playerName room'.
Proof.
  intros Hroom. unfold submit_answer, serve. rewrite Hroom.
  destruct (submit_answer_body now playerName answerIndex (Some room))
    as [[written|] resp] eqn:Hbody; simpl fst.
  - rewrite getRoom_setRoom. exists written. split; [done|].
    destruct (submit_answer_body_written _ _ _ _ _ _ Hbody)
      as (Hst & Hph & Hflag & question & Hq).
    destruct (submit_answer_body_fields now playerName answerIndex room question
                Hst Hph Hflag Hq)
      as (r & Hr & _ & Hs & Hh & Hcqa & Hst' & Hph' & Hcur & Hqs & Hqst & Hrst).
    rewrite Hr in Hbody. injection Hbody as -> _.
    split.
    { intros other Hne.
      destruct (ensurePlayer_other now playerName other room Hne) as [Eos Eoh].
      rewrite Hs, Hh, Hcqa. simpl.
      rewrite !(JsObjectFacts.get_set_ne playerName other) by done.
      destruct (answerIndex =? q_correct question);
        rewrite ?(JsObjectFacts.get_set_ne playerName other) by done; done. }
    do 6 (split; [congruence|]).
    unfold scoreOf at 2. rewrite Hs.
    destruct (ensurePlayer_scoreOf now playerName room) as [Escore _].
    destruct (answerIndex =? q_correct question).
    + rewrite JsObjectFacts.get_set_eq. simpl. lia.
    + fold (scoreOf playerName (ensurePlayer now playerName room)). lia.
  - exists room. split; [done|]. split; [done|]. do 6 (split; [done|]). lia.
Qed.

Lemma submit_answer_touches_one_player_witness :
  ∃ room',
    getRoom Scenario.code (fst (submit_answer 20000 Scenario.code "ben" 0
                                  (fst Scenario.answeredOnce))) = Some room'
    ∧ JsObject.get "ana" (scores room') = Some 1250.
Proof.
  edestruct (submit_answer_touches_one_player 20000 Scenario.code "ben" 0
               (fst Scenario.answeredOnce)) as (room' & Hget & Hothers & _).
  { vm_compute. reflexivity. }
  exists room'. split; [exact Hget|].
  destruct (Hothers "ana"%string) as (Hs & _); [intros H; discriminate H|].
  rewrite Hs. vm_compute. reflexivity.
Defined.



(** ** Joining *)



(** ** A question index past the question list *)

(** X9.  The question index of a playing room can lie past the question list
    (load-quiz and upload replace the list without resetting the index).  In
    phase answering the handlers then read a field of a missing question and
    throw: submit-answer and a poll inside the answer window send no response
    and write nothing; a poll after the answer window still stores the move
    to revealing before it throws. *)
Theorem missing_question_sends_no_response (now : Z) (roomCode playerName : string)
    (answerIndex : Z) (st : Store) (room : Room) :
  getRoom roomCode st = Some room →
  status room = StPlaying →
  phase room = PhAnswering →
  questions room !! currentQuestion room = None →
  (flaggedAsAnswered playerName room = false →
   submit_answer now roomCode playerName answerIndex st = (st, Crashed))
  ∧ (now - questionStartTime room < QUESTION_TIME * 1000 →
     get_question now roomCode st = (st, Crashed))
  ∧ (QUESTION_TIME * 1000 <= now - questionStartTime room →
     get_question now roomCode st
     = (setRoom roomCode (toRevealing now room) st, Crashed)).
Proof.
  intros Hroom Hst Hph Hq. split; [|split].
  - intros Hflag. unfold submit_answer. apply serve_unwritten. rewrite Hroom.
    destruct (submit_answer_body now playerName answerIndex (Some room))
      as [[written|] resp] eqn:Hbody.
    { destruct (submit_answer_body_written _ _ _ _ _ _ Hbody)
        as (_ & _ & _ & question & Hsome). congruence. }
    f_equal.
    unfold submit_answer_body in Hbody. rewrite Hst, Hph in Hbody.
    simpl negb in Hbody. simpl orb in Hbody. cbv iota zeta in Hbody.
    destruct (ensurePlayer_frame now playerName room)
      as (_ & _ & Eqs & Ecur & _ & _ & Ecqa).
    unfold flaggedAsAnswered in Hflag.
    set (r1 := ensurePlayer now playerName room) in *. clearbody r1.
    destruct (currentQuestionAnswers r1) eqn:E; simpl in Hbody;
      rewrite ?E, ?Eqs, ?Ecur, ?Hq in Hbody; simpl in Hbody;
      rewrite <- ?Ecqa in Hflag; simpl in Hflag; rewrite ?Hflag in Hbody;
      by injection Hbody as <-.
  - intros Hwin. unfold get_question, serve. rewrite Hroom.
    rewrite (get_question_body_playing _ room Hst), Hph.
    assert ((QUESTION_TIME <=? elapsedSeconds now (questionStartTime room)) = false) as ->.
    { apply Z.leb_gt.
      destruct (Z.lt_ge_cases (elapsedSeconds now (questionStartTime room)) QUESTION_TIME)
        as [|Hge]; [done|].
      apply elapsedSeconds_after_window in Hge. lia. }
    unfold currentView. by rewrite Hq.
  - intros Hlate. apply elapsedSeconds_after_window in Hlate. apply Z.leb_le in Hlate.
    unfold get_question, serve. rewrite Hroom.
    rewrite (get_question_body_playing _ room Hst), Hph, Hlate.
    unfold currentView. simpl. by rewrite Hq.
Qed.

Lemma missing_question_sends_no_response_witness :
  get_question 72000 Scenario.code Walkthrough.shortened
  = (Walkthrough.shortened, Crashed).
Proof.
  edestruct (missing_question_sends_no_response 72000 Scenario.code "ana" 0
               Walkthrough.shortened) as (_ & Hpoll & _).
  { vm_compute. reflexivity. }
  { vm_compute. reflexivity. }
  { vm_compute. reflexivity. }
  { vm_compute. reflexivity. }
  apply Hpoll. vm_compute. reflexivity.
Defined.

(** ** Invariants of the stored rooms *)

Lemma setRoom_StoreAll (P : Room → Prop) (roomCode : string) (room : Room) (st : Store) :
  P room → StoreAll P st → StoreAll P (setRoom roomCode room st).
Proof.
  intros Hroom Hst code r.
  destruct (decide (code = roomCode)) as [->|Hne].
  - rewrite getRoom_setRoom. by intros [= <-].
  - rewrite getRoom_setRoom_ne by done. apply Hst.
Qed.

Lemma serve_StoreAll (P : Room → Prop) (h : Handler) (roomCode : string) (st : Store) :
  keeps P h → StoreAll P st → StoreAll P (fst (serve h roomCode st)).
Proof.
  intros Hh Hst. unfold serve.
  destruct (h (getRoom roomCode st)) as [[room'|] resp] eqn:E; simpl; [|done].
  apply setRoom_StoreAll; [|done].
  apply (Hh _ _ _ (λ room Hroom, Hst roomCode room Hroom) E).
Qed.

Lemma keys_is_Some {V} (k : string) (o : JsObject.t V) :
  is_Some (JsObject.get k o) ↔ In k (map fst o).
Proof.
  induction o as [|[k' v] o IH]; simpl.
  - split; [by intros [? ?]|done].
  - destruct (String.eqb k k') eqn:E.
    + apply String.eqb_eq in E. subst. split; eauto.
    + apply String.eqb_neq in E. rewrite IH. split; [by right|].
      intros [Heq|Hin]; [congruence|done].
Qed.

Lemma keys_set {V} (k : string) (v : V) (o : JsObject.t V) :
  map fst (JsObject.set k v o)
  = match JsObject.get k o with
    | Some _ => map fst o
    | None => map fst o ++ [k]
    end.
Proof.
  induction o as [|[k' v'] o IH]; simpl; [done|].
  destruct (String.eqb k k') eqn:E.
  - apply String.eqb_eq in E. by subst.
  - simpl. rewrite IH. by destruct (JsObject.get k o).
Qed.

Lemma NoDup_snoc {A} (l : list A) (x : A) : ¬ In x l → NoDup l → NoDup (l ++ [x]).
Proof.
  intros Hx Hl. apply NoDup_app. split; [done|]. split.
  - intros y Hy Hy'. apply list_elem_of_In in Hy.
    apply list_elem_of_singleton in Hy'. by subst.
  - apply NoDup_singleton.
Qed.

Lemma keys_set_NoDup {V} (k : string) (v : V) (o : JsObject.t V) :
  NoDup (map fst o) → NoDup (map fst (JsObject.set k v o)).
Proof.
  intros Hnd. rewrite keys_set.
  destruct (JsObject.get k o) eqn:E; [done|].
  apply NoDup_snoc; [|done].
  intros Hin. apply keys_is_Some in Hin as [? Hin]. congruence.
Qed.

Lemma hasPlayer_names (k : string) (ps : list Player) :
  hasPlayer k ps = true ↔ In k (map p_name ps).
Proof.
  rewrite hasPlayer_In, in_map_iff. split; intros (p & H1 & H2); eauto.
Qed.

Lemma hasPlayer_snoc (k : string) (ps : list Player) (p : Player) :
  hasPlayer k (ps ++ [p]) = hasPlayer k ps || String.eqb (p_name p) k.
Proof. unfold hasPlayer. rewrite existsb_app. simpl. by rewrite orb_false_r. Qed.

Lemma ensurePlayer_hasPlayer (now : Z) (playerName k : string) (room : Room) :
  hasPlayer k (players (ensurePlayer now playerName room)) = true
  ↔ hasPlayer k (players room) = true ∨ k = playerName.
Proof.
  rewrite ensurePlayer_players.
  destruct (hasPlayer playerName (players room)) eqn:E.
  - split; [by left|]. intros [H| ->]; done.
  - rewrite hasPlayer_snoc, orb_true_iff. simpl.
    split; (intros [H|H]; [by left|right]).
    + by apply String.eqb_eq in H.
    + by apply String.eqb_eq.
Qed.

(** The invariant reads only the players, the three dictionaries, the
    status, the phase and the question index. *)
Lemma Sound_ext (room room' : Room) :
  players room' = players room →
  scores room' = scores room →
  playerAnswers room' = playerAnswers room →
  currentQuestionAnswers room' = currentQuestionAnswers room →
  status room' = status room →
  phase room' = phase room →
  currentQuestion room' = currentQuestion room →
  Sound room → Sound room'.
Proof.
  intros Hps Hs Hh Hcqa Hst Hph Hcur [H1 H2 H3 H4 H5 H6 H7].
  constructor;
    unfold Registered, KnownNames, UniqueNames, ScoresNonneg, PhaseCoherent,
      RecordsCoherent, ScoreCoversCorrect, scoreOf in *;
    rewrite ?Hps, ?Hs, ?Hh, ?Hcqa, ?Hst, ?Hph, ?Hcur; assumption.
Qed.

Lemma newRoom_Sound (roomName : option string) (isPublicArg : option bool) (now : Z) :
  Sound (newRoom roomName isPublicArg now).
Proof.
  constructor.
  - by intros p [].
  - intros k [[? H]|[[? H]|[? H]]]; discriminate H.
  - split; constructor.
  - intros k v H. discriminate H.
  - reflexivity.
  - intros k h a H. discriminate H.
  - intros k h H. discriminate H.
Qed.

Lemma scoreOf_nonneg (k : string) (room : Room) :
  ScoresNonneg room → 0 <= scoreOf k room.
Proof.
  intros H. unfold scoreOf.
  destruct (JsObject.get k (scores room)) as [v|] eqn:E; simpl; [|lia].
  by apply (H k).
Qed.

Lemma ensurePlayer_Sound (now : Z) (playerName : string) (room : Room) :
  Sound room → Sound (ensurePlayer now playerName room).
Proof.
  intros [Hreg Hknown [Hnames Hkeys] Hnonneg Hphase Hrec Hcov].
  destruct (ensurePlayer_frame now playerName room)
    as (Est & Eph & _ & Ecur & _ & _ & Ecqa).
  constructor.
  - by apply ensurePlayer_Registered.
  - intros k Hk. apply ensurePlayer_hasPlayer.
    destruct (decide (k = playerName)) as [->|Hne]; [by right|left].
    destruct (ensurePlayer_other now playerName k room Hne) as [Es Eh].
    rewrite Es, Eh, Ecqa in Hk. by apply Hknown.
  - split; [|by rewrite Ecqa].
    rewrite ensurePlayer_players.
    destruct (hasPlayer playerName (players room)) eqn:E; [done|].
    rewrite map_app. simpl. apply NoDup_snoc; [|done].
    intros Hin. apply hasPlayer_names in Hin. congruence.
  - intros k v. rewrite ensurePlayer_scores.
    destruct (JsObject.get playerName (scores room)) eqn:E; [apply Hnonneg|].
    destruct (decide (k = playerName)) as [->|Hne].
    + rewrite JsObjectFacts.get_set_eq. intros [= <-]. lia.
    + rewrite JsObjectFacts.get_set_ne by done. apply Hnonneg.
  - unfold PhaseCoherent. rewrite Est, Eph, Ecqa. exact Hphase.
  - intros k h a. rewrite ensurePlayer_playerAnswers, Ecur.
    destruct (JsObject.get playerName (playerAnswers room)) eqn:E; [apply Hrec|].
    destruct (decide (k = playerName)) as [->|Hne].
    + rewrite JsObjectFacts.get_set_eq. by intros [= <-] [].
    + rewrite JsObjectFacts.get_set_ne by done. apply Hrec.
  - intros k h Hh.
    destruct (decide (k = playerName)) as [->|Hne].
    + destruct (ensurePlayer_scoreOf now playerName room) as [-> _].
      rewrite ensurePlayer_historyOf in Hh. injection Hh as <-.
      unfold historyOf.
      destruct (JsObject.get playerName (playerAnswers room)) as [h|] eqn:E; simpl.
      * by apply Hcov.
      * pose proof (scoreOf_nonneg playerName room Hnonneg). lia.
    + destruct (ensurePlayer_other now playerName k room Hne) as [Es Eh].
      unfold scoreOf. rewrite Es. rewrite Eh in Hh. by apply Hcov.
Qed.

Lemma join_room_body_keeps_Sound (now : Z) (playerName : string) :
  keeps Sound (join_room_body now playerName).
Proof.
  intros [room|] room' resp Hsound; simpl; [|done].
  intros [= <- _].
  apply (Sound_ext (ensurePlayer now playerName room)); try done.
  apply ensurePlayer_Sound. by apply Hsound.
Qed.

Lemma start_game_body_keeps_Sound (now : Z) : keeps Sound (start_game_body now).
Proof.
  intros [room|] room' resp Hsound Hbody; [|done].
  destruct (Hsound room eq_refl) as [Hreg Hknown [Hnames Hkeys] Hnonneg Hphase Hrec Hcov].
  destruct (questions room) as [|q qs] eqn:Eq.
  { unfold start_game_body in Hbody. rewrite Eq in Hbody. discriminate Hbody. }
  destruct (start_game_body_started now room) as
    (r & Hr & Hst & Hph & Hcur & _ & Hcqa & Hps & _ & Hin & Hout).
  { by rewrite Eq. }
  rewrite Hr in Hbody. injection Hbody as -> _.
  assert (Hlisted : ∀ k, is_Some (JsObject.get k (scores room'))
                         ∨ is_Some (JsObject.get k (playerAnswers room')) →
                         hasPlayer k (players room) = true).
  { intros k Hk. destruct (hasPlayer k (players room)) eqn:E; [done|].
    destruct (Hout k E) as [Es Eh]. rewrite Es, Eh in Hk.
    rewrite <- E. apply Hknown. tauto. }
  constructor.
  - apply (start_game_body_keepsRegistry now (Some room) room' Started); [|exact Hr].
    by intros ? [= <-].
  - intros k [Hk|[Hk|Hk]]; rewrite Hps.
    + apply Hlisted. by left.
    + apply Hlisted. by right.
    + rewrite Hcqa in Hk. by destruct Hk.
  - split; [by rewrite Hps|]. rewrite Hcqa. constructor.
  - intros k v Hv.
    destruct (Hin k) as [Hs _]; [apply Hlisted; left; eauto|].
    rewrite Hs in Hv. injection Hv as <-. lia.
  - unfold PhaseCoherent. rewrite Hst, Hph, Hcqa. split; [done|eauto].
  - intros k h a Hh Ha.
    destruct (Hin k) as [_ Hempty]; [apply Hlisted; right; eauto|].
    rewrite Hempty in Hh. injection Hh as <-. destruct Ha.
  - intros k h Hh.
    destruct (Hin k) as [Hs Hempty]; [apply Hlisted; right; eauto|].
    rewrite Hempty in Hh. injection Hh as <-.
    unfold scoreOf. rewrite Hs. simpl. lia.
Qed.

Lemma get_question_body_keeps_Sound (now : Z) : keeps Sound (get_question_body now).
Proof.
  intros [room|] room' resp Hsound; [|done].
  destruct (Hsound room eq_refl) as [Hreg Hknown [Hnames Hkeys] Hnonneg Hphase Hrec Hcov].
  assert (Hnext : KnownNames (toNextIndex room) ∧ UniqueNames (toNextIndex room)
                  ∧ RecordsCoherent (toNextIndex room)).
  { split; [|split].
    - intros k [Hk|[Hk|Hk]]; [apply Hknown; tauto| apply Hknown; tauto|].
      simpl in Hk. by destruct Hk.
    - split; [done|]. simpl. constructor.
    - intros k h a Hh Ha. destruct (Hrec k h a Hh Ha). simpl. split; [done|lia]. }
  destruct Hnext as (Hknown' & Hunique' & Hrec').
  destruct (status room) eqn:Hst.
  - unfold get_question_body. by rewrite Hst.
  - rewrite (get_question_body_playing now room Hst).
    unfold PhaseCoherent in Hphase. rewrite Hst in Hphase.
    destruct Hphase as [Hph Hcqa].
    destruct (phase room) eqn:Ephase; [done| |].
    + destruct (QUESTION_TIME <=? _); [|done].
      intros [= <- _].
      apply (mkSound (toRevealing now room) Hreg Hknown (conj Hnames Hkeys) Hnonneg);
        [|done|done].
      unfold PhaseCoherent. simpl. by rewrite Hst.
    + destruct (REVEAL_TIME <=? _); [|done].
      destruct (List.length (questions room) <=? S (currentQuestion room))%nat;
        intros [= <- _].
      * apply (mkSound (toFinished room) Hreg Hknown' Hunique' Hnonneg); [|done|done].
        unfold PhaseCoherent. simpl. done.
      * apply (mkSound (toNextQuestion now room) Hreg Hknown' Hunique' Hnonneg);
          [|done|done].
        unfold PhaseCoherent. simpl. rewrite Hst. split; [done|eauto].
  - unfold get_question_body. by rewrite Hst.
Qed.

Lemma filter_correct_snoc (h : list AnswerRecord) (a : AnswerRecord) :
  List.length (List.filter a_isCorrect (h ++ [a]))
  = (List.length (List.filter a_isCorrect h) + if a_isCorrect a then 1 else 0)%nat.
Proof.
  rewrite List.filter_app, length_app. simpl. by destruct (a_isCorrect a).
Qed.

Lemma submit_answer_body_keeps_Sound (now : Z) (playerName : string) (answerIndex : Z) :
  keeps Sound (submit_answer_body now playerName answerIndex).
Proof.
  intros [room|] room' resp Hsound Hbody; [|done].
  pose proof (Hsound room eq_refl) as Hroom.
  pose proof (sound_nonneg room Hroom) as Hnonneg0.
  pose proof (sound_known room Hroom) as Hknown0.
  pose proof (sound_unique room Hroom) as [_ Hkeys0].
  destruct (submit_answer_body_written _ _ _ _ _ _ Hbody)
    as (Hst & Hph & Hflag & question & Hq).
  destruct (submit_answer_body_fields now playerName answerIndex room question
              Hst Hph Hflag Hq)
    as (r & Hr & Hps & Hs & Hh & Hcqa & Hst' & Hph' & Hcur & _).
  rewrite Hr in Hbody. injection Hbody as -> _.
  destruct (ensurePlayer_Sound now playerName room Hroom)
    as [Hreg Hknown [Hnames Hkeys] Hnonneg Hphase Hrec Hcov].
  destruct (ensurePlayer_frame now playerName room) as (_ & _ & _ & Ecur1 & _ & _ & Ecqa1).
  destruct (ensurePlayer_scoreOf now playerName room) as [Escore _].
  set (r1 := ensurePlayer now playerName room) in *.
  assert (Hlisted : hasPlayer playerName (players r1) = true)
    by (apply ensurePlayer_hasPlayer; by right).
  assert (Hscores : ∀ k, k ≠ playerName →
            JsObject.get k (scores room') = JsObject.get k (scores r1)).
  { intros k Hne. rewrite Hs. destruct (answerIndex =? q_correct question); [|done].
    by apply JsObjectFacts.get_set_ne. }
  constructor.
  - apply (submit_answer_body_keepsRegistry now playerName answerIndex
             (Some room) room' (Submitted answerIndex (scores room'))); [|exact Hr].
    intros r0 Hr0. apply sound_registered. by apply Hsound.
  - intros k Hk. rewrite Hps.
    destruct (decide (k = playerName)) as [->|Hne]; [done|].
    apply Hknown. rewrite Hscores, Hh, Hcqa in Hk by done. simpl in Hk.
    rewrite !(JsObjectFacts.get_set_ne playerName k) in Hk by done.
    by rewrite Ecqa1.
  - split; [by rewrite Hps|]. rewrite Hcqa. simpl. by apply keys_set_NoDup.
  - intros k v. destruct (decide (k = playerName)) as [->|Hne].
    + rewrite Hs. destruct (answerIndex =? q_correct question); [|apply Hnonneg].
      rewrite JsObjectFacts.get_set_eq. intros [= <-].
      pose proof (scoreOf_nonneg playerName room Hnonneg0). lia.
    + rewrite Hscores by done. apply Hnonneg.
  - unfold PhaseCoherent. rewrite Hst', Hph', Hcqa. split; [done|eauto].
  - intros k h a. rewrite Hh, Hcur.
    destruct (decide (k = playerName)) as [->|Hne].
    + rewrite JsObjectFacts.get_set_eq. intros [= <-] Ha.
      apply in_app_or in Ha as [Ha|[<-|[]]].
      * rewrite <- Ecur1. apply (Hrec playerName (historyOf playerName room)); [|done].
        apply ensurePlayer_historyOf.
      * simpl. split; [done|lia].
    + rewrite JsObjectFacts.get_set_ne by done. rewrite <- Ecur1. apply Hrec.
  - intros k h. rewrite Hh.
    destruct (decide (k = playerName)) as [->|Hne].
    + rewrite JsObjectFacts.get_set_eq. intros [= <-].
      rewrite filter_correct_snoc. simpl.
      pose proof (Hcov playerName (historyOf playerName room)
                    (ensurePlayer_historyOf now playerName room)) as Hold.
      rewrite Escore in Hold.
      unfold scoreOf at 1. rewrite Hs.
      destruct (answerIndex =? q_correct question).
      * rewrite JsObjectFacts.get_set_eq. simpl. lia.
      * fold (scoreOf playerName r1). rewrite Escore. lia.
    + rewrite JsObjectFacts.get_set_ne by done. intros Hk.
      unfold scoreOf. rewrite Hscores by done. by apply Hcov.
Qed.

Lemma results_body_keeps (P : Room → Prop) (playerName : string) :
  keeps P (results_body playerName).
Proof. intros [room|] room' resp _; simpl; done. Qed.

Lemma handle_StoreAll_Sound (request : Request) (st : Store) :
  StoreAll Sound st → StoreAll Sound (handle request st).
Proof.
  intros Hst. destruct request; simpl.
  - apply setRoom_StoreAll; [apply newRoom_Sound|done].
  - by apply serve_StoreAll; [apply join_room_body_keeps_Sound|].
  - unfold upload_content.
    destruct (getRoom roomCode st) as [room|] eqn:Hroom; [|done]. cbv zeta.
    match goal with
    | |- context [match ?a with Some _ => _ | None => (st, GenerationFailed) end] =>
        destruct a; [|done]
    end.
    simpl. intros code r. unfold getRoom, saveQuiz. simpl.
    apply (setRoom_StoreAll Sound roomCode _ st); [|done].
    apply (Sound_ext room); try done. by apply (Hst roomCode).
  - unfold load_quiz.
    destruct (getRoom roomCode st) as [room|] eqn:Hroom; [|done].
    destruct (getSavedQuiz quizId st); [|done]. simpl.
    apply setRoom_StoreAll; [|done].
    apply (Sound_ext room); try done. by apply (Hst roomCode).
  - by apply serve_StoreAll; [apply start_game_body_keeps_Sound|].
  - by apply serve_StoreAll; [apply get_question_body_keeps_Sound|].
  - by apply serve_StoreAll; [apply submit_answer_body_keeps_Sound|].
  - by apply serve_StoreAll; [apply results_body_keeps|].
Qed.

Lemma storeFrom_StoreAll_Sound (requests : list Request) (st : Store) :
  StoreAll Sound st → StoreAll Sound (storeFrom st requests).
Proof.
  revert st. induction requests as [|request requests IH]; intros st Hst; simpl; [done|].
  apply IH. by apply handle_StoreAll_Sound.
Qed.

Lemma storeAfter_Sound (requests : list Request) : StoreAll Sound (storeAfter requests).
Proof.
  apply (storeFrom_StoreAll_Sound requests (mkStore ∅ ∅)).
  intros code room. unfold getRoom. simpl. by rewrite lookup_empty.
Qed.

(** X11.  In every store reached by serving requests, every name that has a
    score, an answer history or an answer recorded for the current question is
    the name of a listed player of that room. *)
Theorem storeAfter_known_names (requests : list Request) (roomCode : string)
    (room : Room) (k : string) :
  getRoom roomCode (storeAfter requests) = Some room →
  is_Some (JsObject.get k (scores room))
  ∨ is_Some (JsObject.get k (playerAnswers room))
  ∨ is_Some (JsObject.get k (default JsObject.empty (currentQuestionAnswers room))) →
  hasPlayer k (players room) = true.
Proof.
  intros Hroom. by apply (sound_known room (storeAfter_Sound requests roomCode room Hroom)).
Qed.

Lemma storeAfter_known_names_witness :
  ∃ room,
    getRoom "9V9ROS" (storeAfter Walkthrough.requests) = Some room
    ∧ hasPlayer "ben" (players room) = true.
Proof.
  eexists. split; [vm_compute; reflexivity|].
  apply (storeAfter_known_names Walkthrough.requests "9V9ROS").
  - vm_compute. reflexivity.
  - left. vm_compute. eauto.
Defined.

(** X12.  In every store reached by serving requests, no two listed players of
    a room share a name, and the answers recorded for the current question are
    at most as many as the listed players. *)
Theorem storeAfter_unique_players (requests : list Request) (roomCode : string)
    (room : Room) :
  getRoom roomCode (storeAfter requests) = Some room →
  NoDup (map p_name (players room))
  ∧ (List.length (default JsObject.empty (currentQuestionAnswers room))
     <= List.length (players room))%nat.
Proof.
  intros Hroom.
  destruct (storeAfter_Sound requests roomCode room Hroom)
    as [_ Hknown [Hnames Hkeys] _ _ _ _].
  split; [done|].
  rewrite <- (length_map fst), <- (length_map p_name (players room)).
  apply submseteq_length, NoDup_submseteq; [exact Hkeys|].
  intros k Hk. apply list_elem_of_In. apply list_elem_of_In in Hk.
  apply hasPlayer_names. apply Hknown.
  right. right. by apply keys_is_Some.
Qed.

Lemma storeAfter_unique_players_witness :
  ∃ room,
    getRoom "9V9ROS" (storeAfter Walkthrough.requests) = Some room
    ∧ NoDup (map p_name (players room)).
Proof.
  eexists. split; [vm_compute; reflexivity|].
  apply (storeAfter_unique_players Walkthrough.requests "9V9ROS").
  vm_compute. reflexivity.
Defined.

(** X13.  In every store reached by serving requests, status and phase agree:
    a waiting room is in phase waiting, a playing room is answering or
    revealing and carries its currentQuestionAnswers, and a finished room
    stopped in phase revealing. *)
Theorem storeAfter_phase_coherent (requests : list Request) (roomCode : string)
    (room : Room) :
  getRoom roomCode (storeAfter requests) = Some room →
  (status room = StWaiting → phase room = PhWaiting)
  ∧ (status room = StPlaying →
     (phase room = PhAnswering ∨ phase room = PhRevealing)
     ∧ is_Some (currentQuestionAnswers room))
  ∧ (status room = StFinished → phase room = PhRevealing).
Proof.
  intros Hroom.
  pose proof (sound_phase room (storeAfter_Sound requests roomCode room Hroom)) as H.
  unfold PhaseCoherent in H.
  destruct (status room); (split; [|split]); intros Hst; try discriminate Hst; try done.
  destruct H as [Hph Hcqa]. split; [|done].
  destruct (phase room); [done|by left|by right].
Qed.

Lemma storeAfter_phase_coherent_witness :
  ∃ room,
    getRoom "9V9ROS" (storeAfter Walkthrough.requests) = Some room
    ∧ (phase room = PhAnswering ∨ phase room = PhRevealing).
Proof.
  eexists. split; [vm_compute; reflexivity|].
  edestruct (storeAfter_phase_coherent Walkthrough.requests "9V9ROS") as (_ & H & _).
  { vm_compute. reflexivity. }
  apply H. vm_compute. reflexivity.
Defined.

(** X14.  In every store reached by serving requests, no score is negative,
    and a player's score is at least 100 points for each correct record of the
    player's history. *)
Theorem storeAfter_scores_cover_correct (requests : list Request) (roomCode : string)
    (room : Room) (k : string) :
  getRoom roomCode (storeAfter requests) = Some room →
  0 <= scoreOf k room
  ∧ 100 * Z.of_nat (List.length (List.filter a_isCorrect (historyOf k room)))
    <= scoreOf k room.
Proof.
  intros Hroom.
  destruct (storeAfter_Sound requests roomCode room Hroom)
    as [_ _ _ Hnonneg _ _ Hcov].
  pose proof (scoreOf_nonneg k room Hnonneg) as H0. split; [done|].
  unfold historyOf.
  destruct (JsObject.get k (playerAnswers room)) as [h|] eqn:E; simpl; [|lia].
  by apply Hcov.
Qed.

Lemma storeAfter_scores_cover_correct_witness :
  getRoom "9V9ROS" (storeAfter Walkthrough.requests) = Some Walkthrough.finalRoom
  ∧ 100 * 1 <= scoreOf "ana" Walkthrough.finalRoom.
Proof.
  split; [vm_compute; reflexivity|].
  destruct (storeAfter_scores_cover_correct Walkthrough.requests "9V9ROS"
              Walkthrough.finalRoom "ana") as [_ H].
  { vm_compute. reflexivity. }
  exact H.
Defined.

(** X15.  In every store reached by serving requests, each answer record
    states correctness as the equality of the chosen and the correct index it
    holds, and belongs to a question that is not after the room's current
    one. *)
Theorem storeAfter_records_coherent (requests : list Request) (roomCode : string)
    (room : Room) (k : string) (a : AnswerRecord) :
  getRoom roomCode (storeAfter requests) = Some room →
  In a (historyOf k room) →
  a_isCorrect a = (a_playerAnswer a =? a_correctAnswer a)
  ∧ (a_questionIndex a <= currentQuestion room)%nat.
Proof.
  intros Hroom Ha.
  pose proof (sound_records room (storeAfter_Sound requests roomCode room Hroom)) as H.
  unfold historyOf in Ha.
  destruct (JsObject.get k (playerAnswers room)) as [h|] eqn:E; simpl in Ha; [|done].
  by apply (H k h).
Qed.

Lemma storeAfter_records_coherent_witness :
  getRoom "9V9ROS" (storeAfter Walkthrough.requests) = Some Walkthrough.finalRoom
  ∧ ∀ a, In a (historyOf "ana" Walkthrough.finalRoom) → (a_questionIndex a <= 0)%nat.
Proof.
  split; [vm_compute; reflexivity|].
  intros a Ha.
  destruct (storeAfter_records_coherent Walkthrough.requests "9V9ROS"
              Walkthrough.finalRoom "ana" a) as [_ H].
  { vm_compute. reflexivity. }
  { exact Ha. }
  replace 0%nat with (currentQuestion Walkthrough.finalRoom)
    by (vm_compute; reflexivity).
  exact H.
Defined.


(** ** One record per question, when nobody picks option 0 *)

Lemma Tidy_ext (room room' : Room) :
  players room' = players room →
  scores room' = scores room →
  playerAnswers room' = playerAnswers room →
  currentQuestionAnswers room' = currentQuestionAnswers room →
  status room' = status room →
  phase room' = phase room →
  currentQuestion room' = currentQuestion room →
  Tidy room → Tidy room'.
Proof.
  intros Hps Hs Hh Hcqa Hst Hph Hcur [Hsound Hone Hflag].
  constructor.
  - by apply (Sound_ext room).
  - unfold OneRecordPerQuestion. by rewrite Hh.
  - unfold AnsweredIsFlagged, flaggedAsAnswered. by rewrite Hh, Hcqa, Hcur.
Qed.

Lemma ensurePlayer_Tidy (now : Z) (playerName : string) (room : Room) :
  Tidy room → Tidy (ensurePlayer now playerName room).
Proof.
  intros [Hsound Hone Hflag].
  destruct (ensurePlayer_frame now playerName room) as (_ & _ & _ & Ecur & _ & _ & Ecqa).
  constructor.
  - by apply ensurePlayer_Sound.
  - intros k h. rewrite ensurePlayer_playerAnswers.
    destruct (JsObject.get playerName (playerAnswers room)) eqn:E; [apply Hone|].
    destruct (decide (k = playerName)) as [->|Hne].
    + rewrite JsObjectFacts.get_set_eq. intros [= <-]. constructor.
    + rewrite JsObjectFacts.get_set_ne by done. apply Hone.
  - intros k h a. unfold flaggedAsAnswered. rewrite ensurePlayer_playerAnswers, Ecur, Ecqa.
    destruct (JsObject.get playerName (playerAnswers room)) eqn:E; [apply Hflag|].
    destruct (decide (k = playerName)) as [->|Hne].
    + rewrite JsObjectFacts.get_set_eq. by intros [= <-] [].
    + rewrite JsObjectFacts.get_set_ne by done. apply Hflag.
Qed.

Lemma join_room_body_keeps_Tidy (now : Z) (playerName : string) :
  keeps Tidy (join_room_body now playerName).
Proof.
  intros [room|] room' resp Htidy; simpl; [|done].
  intros [= <- _].
  apply (Tidy_ext (ensurePlayer now playerName room)); try done.
  apply ensurePlayer_Tidy. by apply Htidy.
Qed.

Lemma start_game_body_keeps_Tidy (now : Z) : keeps Tidy (start_game_body now).
Proof.
  intros [room|] room' resp Htidy Hbody; [|done].
  destruct (Htidy room eq_refl) as [Hsound _ _].
  pose proof (sound_known room Hsound) as Hknown.
  assert (Hsound' : Sound room').
  { apply (start_game_body_keeps_Sound now (Some room) room' resp); [|done].
    intros r [= <-]. done. }
  destruct (questions room) as [|q qs] eqn:Eq.
  { unfold start_game_body in Hbody. rewrite Eq in Hbody. discriminate Hbody. }
  destruct (start_game_body_started now room) as
    (r & Hr & _ & _ & _ & _ & _ & _ & _ & Hin & Hout).
  { by rewrite Eq. }
  rewrite Hr in Hbody. injection Hbody as -> _.
  assert (Hempty : ∀ k h, JsObject.get k (playerAnswers room') = Some h → h = []).
  { intros k h Hh. destruct (hasPlayer k (players room)) eqn:E.
    - destruct (Hin k E) as [_ He]. congruence.
    - destruct (Hout k E) as [_ Eh]. rewrite Eh in Hh.
      rewrite Hknown in E; [done|]. right. left. eauto. }
  constructor; [done| |].
  - intros k h Hh. rewrite (Hempty k h Hh). constructor.
  - intros k h a Hh Ha. rewrite (Hempty k h Hh) in Ha. destruct Ha.
Qed.

Lemma get_question_body_keeps_Tidy (now : Z) : keeps Tidy (get_question_body now).
Proof.
  intros [room|] room' resp Htidy Hbody; [|done].
  destruct (Htidy room eq_refl) as [Hsound Hone Hflag].
  pose proof (sound_records room Hsound) as Hrec.
  assert (Hsound' : Sound room').
  { apply (get_question_body_keeps_Sound now (Some room) room' resp); [|done].
    intros r [= <-]. done. }
  assert (Hnext : AnsweredIsFlagged (toNextIndex room)).
  { intros k h a Hh Ha Hidx. simpl in *. destruct (Hrec k h a Hh Ha). lia. }
  destruct (status room) eqn:Hst.
  - unfold get_question_body in Hbody. by rewrite Hst in Hbody.
  - rewrite (get_question_body_playing now room Hst) in Hbody.
    destruct (phase room) eqn:Ephase; [done| |].
    + destruct (QUESTION_TIME <=? _); [|done].
      injection Hbody as <- _. by constructor.
    + destruct (REVEAL_TIME <=? _); [|done].
      destruct (List.length (questions room) <=? S (currentQuestion room))%nat;
        injection Hbody as <- _; by constructor.
  - unfold get_question_body in Hbody. by rewrite Hst in Hbody.
Qed.

Lemma submit_answer_body_keeps_Tidy (now : Z) (playerName : string) (answerIndex : Z) :
  answerIndex ≠ 0 →
  keeps Tidy (submit_answer_body now playerName answerIndex).
Proof.
  intros Hnonzero [room|] room' resp Htidy Hbody; [|done].
  pose proof (Htidy room eq_refl) as Hroom.
  assert (Hsound' : Sound room').
  { apply (submit_answer_body_keeps_Sound now playerName answerIndex
             (Some room) room' resp); [|done].
    intros r [= <-]. by destruct Hroom. }
  destruct (submit_answer_body_written _ _ _ _ _ _ Hbody)
    as (Hst & Hph & Hflagged & question & Hq).
  destruct (submit_answer_body_fields now playerName answerIndex room question
              Hst Hph Hflagged Hq)
    as (r & Hr & Hps & Hs & Hh & Hcqa & Hst' & Hph' & Hcur & _).
  rewrite Hr in Hbody. injection Hbody as -> _.
  destruct (ensurePlayer_Tidy now playerName room Hroom) as [_ Hone Hflag].
  destruct (ensurePlayer_frame now playerName room) as (_ & _ & _ & Ecur1 & _ & _ & Ecqa1).
  pose proof (ensurePlayer_historyOf now playerName room) as Ehist.
  set (r1 := ensurePlayer now playerName room) in *.
  assert (Hflag1 : flaggedAsAnswered playerName r1 = false).
  { unfold flaggedAsAnswered in *. by rewrite Ecqa1. }
  constructor; [done| |].
  - intros k h. rewrite Hh.
    destruct (decide (k = playerName)) as [->|Hne].
    + rewrite JsObjectFacts.get_set_eq. intros [= <-].
      rewrite map_app. simpl. apply NoDup_snoc; [|by apply (Hone playerName)].
      intros Hin. apply in_map_iff in Hin as (a & Hidx & Ha).
      rewrite (Hflag playerName _ a Ehist Ha) in Hflag1; [done|].
      by rewrite Hidx, Ecur1.
    + rewrite JsObjectFacts.get_set_ne by done. apply Hone.
  - intros k h a. unfold flaggedAsAnswered. rewrite Hh, Hcqa, Hcur. simpl.
    destruct (decide (k = playerName)) as [->|Hne].
    + rewrite !JsObjectFacts.get_set_eq. intros _ _ _. simpl.
      apply negb_true_iff. by apply Z.eqb_neq.
    + rewrite !(JsObjectFacts.get_set_ne playerName k) by done.
      intros Hk Ha Hidx.
      pose proof (Hflag k h a Hk Ha) as H. unfold flaggedAsAnswered in H.
      rewrite Ecqa1 in H. apply H. by rewrite Ecur1.
Qed.

Lemma newRoom_Tidy (roomName : option string) (isPublicArg : option bool) (now : Z) :
  Tidy (newRoom roomName isPublicArg now).
Proof.
  constructor; [apply newRoom_Sound| |].
  - intros k h H. discriminate H.
  - intros k h a H. discriminate H.
Qed.

Lemma handle_StoreAll_Tidy (request : Request) (st : Store) :
  nonzeroChoice request = true →
  StoreAll Tidy st → StoreAll Tidy (handle request st).
Proof.
  intros Hchoice Hst. destruct request; simpl.
  - apply setRoom_StoreAll; [apply newRoom_Tidy|done].
  - by apply serve_StoreAll; [apply join_room_body_keeps_Tidy|].
  - unfold upload_content.
    destruct (getRoom roomCode st) as [room|] eqn:Hroom; [|done]. cbv zeta.
    match goal with
    | |- context [match ?a with Some _ => _ | None => (st, GenerationFailed) end] =>
        destruct a; [|done]
    end.
    simpl. intros code r. unfold getRoom, saveQuiz. simpl.
    apply (setRoom_StoreAll Tidy roomCode _ st); [|done].
    apply (Tidy_ext room); try done. by apply (Hst roomCode).
  - unfold load_quiz.
    destruct (getRoom roomCode st) as [room|] eqn:Hroom; [|done].
    destruct (getSavedQuiz quizId st); [|done]. simpl.
    apply setRoom_StoreAll; [|done].
    apply (Tidy_ext room); try done. by apply (Hst roomCode).
  - by apply serve_StoreAll; [apply start_game_body_keeps_Tidy|].
  - by apply serve_StoreAll; [apply get_question_body_keeps_Tidy|].
  - apply serve_StoreAll; [|done]. apply submit_answer_body_keeps_Tidy.
    simpl in Hchoice. apply negb_true_iff in Hchoice. by apply Z.eqb_neq.
  - by apply serve_StoreAll; [apply results_body_keeps|].
Qed.

Lemma storeAfter_Tidy (requests : list Request) :
  forallb nonzeroChoice requests = true → StoreAll Tidy (storeAfter requests).
Proof.
  unfold storeAfter.
  induction requests as [|request requests IH] using rev_ind; intros Hall.
  - intros code room. unfold getRoom. simpl. by rewrite lookup_empty.
  - rewrite forallb_app in Hall. apply andb_true_iff in Hall as [Hall Hlast].
    simpl in Hlast. rewrite andb_true_r in Hlast.
    rewrite fold_left_app. simpl. apply handle_StoreAll_Tidy; [done|]. by apply IH.
Qed.

Lemma recordsFor_absent (questionIndex : nat) (h : list AnswerRecord) :
  questionIndex ∉ map a_questionIndex h → recordsFor questionIndex h = [].
Proof.
  unfold recordsFor. induction h as [|a h IH]; simpl; [done|].
  intros Hnotin. apply not_elem_of_cons in Hnotin as [Hne Hrest].
  rewrite filter_cons. destruct (decide (a_questionIndex a = questionIndex)); [done|].
  by apply IH.
Qed.

Lemma recordsFor_at_most_one (questionIndex : nat) (h : list AnswerRecord) :
  NoDup (map a_questionIndex h) → (List.length (recordsFor questionIndex h) <= 1)%nat.
Proof.
  induction h as [|a h IH]; simpl; [unfold recordsFor; simpl; lia|].
  intros Hnd. apply NoDup_cons in Hnd as [Hnotin Hnd].
  unfold recordsFor. rewrite filter_cons.
  destruct (decide (a_questionIndex a = questionIndex)) as [Heq|Hne].
  - fold (recordsFor questionIndex h).
    rewrite recordsFor_absent by (by rewrite <- Heq). simpl. lia.
  - by apply IH.
Qed.

(** X16.  If no request submits option 0, every history in every store reached
    by serving the requests holds at most one record per question: the
    duplicate guard then catches every resubmission. *)
Theorem storeAfter_one_record_per_question (requests : list Request)
    (roomCode : string) (room : Room) (k : string) (questionIndex : nat) :
  forallb nonzeroChoice requests = true →
  getRoom roomCode (storeAfter requests) = Some room →
  (List.length (recordsFor questionIndex (historyOf k room)) <= 1)%nat.
Proof.
  intros Hall Hroom.
  pose proof (tidy_one room (storeAfter_Tidy requests Hall roomCode room Hroom)) as Hone.
  unfold historyOf.
  destruct (JsObject.get k (playerAnswers room)) as [h|] eqn:E; simpl.
  - apply recordsFor_at_most_one. by apply (Hone k).
  - unfold recordsFor. simpl. lia.
Qed.

Lemma storeAfter_one_record_per_question_witness :
  let requests :=
    [CreateRoom 1234567890123456%N None None 1000;
     UploadContent Scenario.keepOrder Scenario.keepOrder
       (GenParsed [Scenario.q1; Scenario.q2]) "k3x9qz1a" 3000 "9V9ROS" Scenario.request;
     StartGame 10000 "9V9ROS";
     SubmitAnswer 15000 "9V9ROS" "ana" 2;
     SubmitAnswer 16000 "9V9ROS" "ana" 3;
     SubmitAnswer 17000 "9V9ROS" "ana" 1] in
  ∃ room,
    getRoom "9V9ROS" (storeAfter requests) = Some room
    ∧ (List.length (recordsFor 0 (historyOf "ana" room)) <= 1)%nat.
Proof.
  intros requests. eexists. split; [vm_compute; reflexivity|].
  apply (storeAfter_one_record_per_question requests "9V9ROS").
  - vm_compute. reflexivity.
  - vm_compute. reflexivity.
Defined.

(** ** The shape of room codes *)









(** ** Uploading and loading quizzes *)

(** A successful upload, spelled out. *)
Lemma upload_content_success
    (shuffleArchive shuffle : list Question → list Question)
    (gen : GenOutput) (newQuizId : string) (now : Z) (roomCode : string)
    (req : UploadRequest) (st : Store) (n : nat) (quizId quizName : string) :
  snd (upload_content shuffleArchive shuffle gen newQuizId now roomCode req st)
  = QuizGenerated n quizId quizName →
  ∃ room qs,
    getRoom roomCode st = Some room
    ∧ n = List.length qs ∧ quizId = newQuizId
    ∧ fst (upload_content shuffleArchive shuffle gen newQuizId now roomCode req st)
      = saveQuiz newQuizId
          (mkQuiz quizName qs (up_fileNames req) now)
          (setRoom roomCode (uploadedRoom now req qs room) st).
Proof.
  unfold upload_content.
  destruct (getRoom roomCode st) as [room|] eqn:Hroom; [|discriminate]. cbv zeta.
  match goal with
  | |- context [match ?a with Some _ => _ | None => (st, GenerationFailed) end] =>
      destruct a as [qs|]; [|discriminate]
  end.
  simpl. intros [= <- <- <-]. exists room. eexists. repeat split.
Qed.

(** X18.  What a successful upload writes: the room receives the assembled
    question list, and the same list is archived under the new quiz id with
    the quiz name, the file names and the time of the call; an entry already
    archived under that id is replaced; every other room and every other
    archived quiz is untouched, and the room's game state (players, scores,
    histories, status, phase, question index) is not reset. *)
Theorem upload_content_archives_questions
    (shuffleArchive shuffle : list Question → list Question)
    (gen : GenOutput) (newQuizId : string) (now : Z) (roomCode : string)
    (req : UploadRequest) (st : Store) (n : nat) (quizId quizName : string) :
  let result := upload_content shuffleArchive shuffle gen newQuizId now roomCode req st in
  snd result = QuizGenerated n quizId quizName →
  ∃ room room' quiz,
    getRoom roomCode st = Some room
    ∧ getRoom roomCode (fst result) = Some room'
    ∧ getSavedQuiz newQuizId (fst result) = Some quiz
    ∧ quizId = newQuizId
    ∧ quiz_questions quiz = questions room' ∧ n = List.length (questions room')
    ∧ quiz_name quiz = quizName ∧ quiz_createdAt quiz = now
    ∧ quiz_fileNames quiz = up_fileNames req
    ∧ courseContent room' = up_allContent req
    ∧ players room' = players room ∧ scores room' = scores room
    ∧ playerAnswers room' = playerAnswers room
    ∧ status room' = status room ∧ phase room' = phase room
    ∧ currentQuestion room' = currentQuestion room
    ∧ (∀ other, other ≠ roomCode → getRoom other (fst result) = getRoom other st)
    ∧ (∀ other, other ≠ newQuizId →
         getSavedQuiz other (fst result) = getSavedQuiz other st).
Proof.
  intros result Hok. subst result.
  destruct (upload_content_success _ _ _ _ _ _ _ _ _ _ _ Hok)
    as (room & qs & Hroom & -> & -> & ->).
  exists room, (uploadedRoom now req qs room), (mkQuiz quizName qs (up_fileNames req) now).
  split; [done|].
  split; [unfold getRoom, saveQuiz, setRoom; simpl; apply lookup_insert_eq|].
  split; [unfold getSavedQuiz, saveQuiz; simpl; apply lookup_insert_eq|].
  do 13 (split; [done|]).
  split; intros other Hne.
  - unfold getRoom, saveQuiz, setRoom. simpl. by rewrite lookup_insert_ne.
  - unfold getSavedQuiz, saveQuiz, setRoom. simpl. by rewrite lookup_insert_ne.
Qed.

Lemma upload_content_archives_questions_witness :
  ∃ quiz,
    getSavedQuiz "k3x9qz1a" Scenario.loaded = Some quiz
    ∧ quiz_questions quiz = [Scenario.q1; Scenario.q2].
Proof.
  edestruct (upload_content_archives_questions Scenario.keepOrder Scenario.keepOrder
               (GenParsed [Scenario.q1; Scenario.q2]) "k3x9qz1a" 3000 Scenario.code
               Scenario.request Scenario.joined)
    as (room & room' & quiz & _ & Hroom' & Hquiz & _ & Hqs & _).
  { vm_compute. reflexivity. }
  exists quiz. split; [exact Hquiz|].
  rewrite Hqs.
  assert (Some (questions room') = Some [Scenario.q1; Scenario.q2]) as [= ->]; [|done].
  change (Some (questions room')) with (questions <$> Some room').
  rewrite <- Hroom'. vm_compute. reflexivity.
Defined.

(** X19.  Loading an archived quiz into a room: an unknown quiz id is answered
    404 and nothing changes; otherwise the room's question list becomes the
    shuffled archived list (the same questions, each as often, when the
    shuffle permutes) and the reported count is the archived count, while the
    game state of the room (status, phase, question index, players, scores,
    histories, recorded answers) stays as it is, also during a game. *)
Theorem load_quiz_outcome (shuffle : list Question → list Question) (now : Z)
    (roomCode quizId : string) (st : Store) (room : Room) :
  getRoom roomCode st = Some room →
  (∀ l, shuffle l ≡ₚ l) →
  (getSavedQuiz quizId st = None →
   load_quiz shuffle now roomCode quizId st = (st, NotFound))
  ∧ (∀ quiz,
       getSavedQuiz quizId st = Some quiz →
       ∃ room',
         load_quiz shuffle now roomCode quizId st
         = (setRoom roomCode room' st,
            QuizLoaded (List.length (quiz_questions quiz)) (quiz_name quiz))
         ∧ questions room' ≡ₚ quiz_questions quiz
         ∧ status room' = status room ∧ phase room' = phase room
         ∧ currentQuestion room' = currentQuestion room
         ∧ players room' = players room ∧ scores room' = scores room
         ∧ playerAnswers room' = playerAnswers room
         ∧ currentQuestionAnswers room' = currentQuestionAnswers room).
Proof.
  intros Hroom Hperm. unfold load_quiz. rewrite Hroom. split.
  - by intros ->.
  - intros quiz ->. eexists. split.
    + simpl. by rewrite (Permutation_length (Hperm (quiz_questions quiz))).
    + simpl. split; [apply Hperm|]. repeat split.
Qed.

Lemma load_quiz_outcome_witness :
  ∃ room',
    getRoom Scenario.code
      (fst (load_quiz Scenario.keepOrder 50000 Scenario.code "k3x9qz1a"
              Walkthrough.secondQuestion)) = Some room'
    ∧ currentQuestion room' = 1%nat
    ∧ status room' = StPlaying.
Proof.
  edestruct (load_quiz_outcome Scenario.keepOrder 50000 Scenario.code "k3x9qz1a"
               Walkthrough.secondQuestion) as [_ Hload].
  { vm_compute. reflexivity. }
  { intros l. reflexivity. }
  edestruct Hload as (room' & Hrun & _ & Hst & _ & Hcur & _).
  { vm_compute. reflexivity. }
  exists room'. rewrite Hrun. simpl fst. split; [apply getRoom_setRoom|].
  rewrite Hcur, Hst. split; vm_compute; reflexivity.
Defined.

(** X20.  Round trip through the archive: the question set stored by a
    successful upload can be loaded back, under the quiz id the upload
    returned, into any room of the resulting store, and that room then holds
    the same questions (in the order of the second shuffle), reported with the
    same count and the quiz name of the upload. *)
Theorem archived_quiz_round_trip
    (shuffleArchive shuffle shuffle' : list Question → list Question)
    (gen : GenOutput) (newQuizId : string) (now later : Z)
    (roomCode otherCode : string) (req : UploadRequest) (st : Store)
    (n : nat) (quizId quizName : string) (other : Room) :
  let uploaded := upload_content shuffleArchive shuffle gen newQuizId now roomCode req st in
  snd uploaded = QuizGenerated n quizId quizName →
  getRoom otherCode (fst uploaded) = Some other →
  (∀ l, shuffle' l ≡ₚ l) →
  ∃ source target,
    getRoom roomCode (fst uploaded) = Some source
    ∧ load_quiz shuffle' later otherCode quizId (fst uploaded)
      = (setRoom otherCode target (fst uploaded), QuizLoaded n quizName)
    ∧ questions target ≡ₚ questions source.
Proof.
  intros uploaded Hok Hother Hperm. subst uploaded.
  destruct (upload_content_success _ _ _ _ _ _ _ _ _ _ _ Hok)
    as (room & qs & Hroom & -> & -> & Hst).
  rewrite Hst in *.
  exists (uploadedRoom now req qs room).
  unfold load_quiz. rewrite Hother.
  unfold getSavedQuiz, saveQuiz at 1. simpl. rewrite lookup_insert_eq. simpl.
  eexists. split.
  { unfold getRoom, saveQuiz, setRoom. simpl. apply lookup_insert_eq. }
  split.
  - by rewrite (Permutation_length (Hperm qs)).
  - simpl. apply Hperm.
Qed.

Lemma archived_quiz_round_trip_witness :
  ∃ target,
    getRoom Scenario.code
      (fst (load_quiz Scenario.keepOrder 5000 Scenario.code "k3x9qz1a" Scenario.loaded))
    = Some target
    ∧ List.length (questions target) = 2%nat.
Proof.
  edestruct (archived_quiz_round_trip Scenario.keepOrder Scenario.keepOrder
               Scenario.keepOrder (GenParsed [Scenario.q1; Scenario.q2]) "k3x9qz1a"
               3000 5000 Scenario.code Scenario.code Scenario.request Scenario.joined)
    as (source & target & Hsource & Hload & Hperm).
  { vm_compute. reflexivity. }
  { vm_compute. reflexivity. }
  { intros l. reflexivity. }
  exists target. split.
  - change Scenario.loaded
      with (fst (upload_content Scenario.keepOrder Scenario.keepOrder
                   (GenParsed [Scenario.q1; Scenario.q2]) "k3x9qz1a" 3000
                   Scenario.code Scenario.request Scenario.joined)).
    rewrite Hload. simpl fst. apply getRoom_setRoom.
  - rewrite (Permutation_length Hperm).
    assert (Some (List.length (questions source)) = Some 2%nat) as [= ->]; [|done].
    change (Some (List.length (questions source)))
      with ((λ r, List.length (questions r)) <$> Some source).
    rewrite <- Hsource. vm_compute. reflexivity.
Defined.

(** X21.  Reusing an archived quiz without mix mode never runs the generation
    step: the outcome does not depend on what the step would return, and it is
    never a generation failure.  The room receives the shuffled archived
    questions; if the given archive id does not exist this is not an error,
    the room receives the shuffle of the empty list. *)
Theorem upload_existing_quiz_verbatim
    (shuffleArchive shuffle : list Question → list Question)
    (gen gen' : GenOutput) (newQuizId : string) (now : Z) (roomCode quizId : string)
    (req : UploadRequest) (st : Store) (room : Room) :
  getRoom roomCode st = Some room →
  nonEmpty (up_useExisting req) = Some quizId →
  up_mixMode req = false →
  upload_content shuffleArchive shuffle gen newQuizId now roomCode req st
  = upload_content shuffleArchive shuffle gen' newQuizId now roomCode req st
  ∧ ∃ room' quizName,
      upload_content shuffleArchive shuffle gen newQuizId now roomCode req st
      = (saveQuiz newQuizId
           (mkQuiz quizName (questions room') (up_fileNames req) now)
           (setRoom roomCode room' st),
         QuizGenerated (List.length (questions room')) newQuizId quizName)
      ∧ questions room'
        = shuffle (match getSavedQuiz quizId st with
                   | Some quiz => quiz_questions quiz
                   | None => []
                   end).
Proof.
  intros Hroom Hexisting Hmix.
  unfold upload_content. rewrite Hroom, Hexisting, Hmix. cbv zeta. simpl.
  split; [done|].
  exists (uploadedRoom now req
            (shuffle (match getSavedQuiz quizId st with
                      | Some quiz => quiz_questions quiz
                      | None => []
                      end)) room).
  eexists. split; [|done]. simpl.
  by destruct (getSavedQuiz quizId st).
Qed.

Lemma upload_existing_quiz_verbatim_witness :
  let req := mkUploadRequest "notes" [] None None (Some "k3x9qz1a"%string) false None in
  questions <$> getRoom Scenario.code
                  (fst (upload_content Scenario.keepOrder Scenario.keepOrder GenNotJson
                          "q8r2t5vv" 6000 Scenario.code req Scenario.loaded))
  = Some [Scenario.q1; Scenario.q2].
Proof.
  intros req.
  edestruct (upload_existing_quiz_verbatim Scenario.keepOrder Scenario.keepOrder
               GenNotJson GenRejected "q8r2t5vv" 6000 Scenario.code "k3x9qz1a" req
               Scenario.loaded) as [_ (room' & quizName & Hrun & Hqs)].
  { vm_compute. reflexivity. }
  { vm_compute. reflexivity. }
  { reflexivity. }
  rewrite Hrun. simpl fst.
  unfold getRoom, saveQuiz, setRoom. simpl. rewrite lookup_insert_eq. simpl.
  rewrite Hqs. vm_compute. reflexivity.
Defined.

(** X22.  An upload without archive id and without any text (nothing but white
    space) does not call the generation step and is not refused: it succeeds
    with zero questions, empties the room's question list and archives an
    empty quiz.  A start-game that follows is refused and changes nothing. *)
Theorem upload_blank_content_then_start
    (shuffleArchive shuffle : list Question → list Question)
    (gen : GenOutput) (newQuizId : string) (now later : Z) (roomCode : string)
    (req : UploadRequest) (st : Store) (room : Room) :
  getRoom roomCode st = Some room →
  nonEmpty (up_useExisting req) = None →
  isBlank (up_allContent req) = true →
  shuffle [] = [] →
  let result := upload_content shuffleArchive shuffle gen newQuizId now roomCode req st in
  (∃ quizName, snd result = QuizGenerated 0 newQuizId quizName)
  ∧ (questions <$> getRoom roomCode (fst result)) = Some []
  ∧ (quiz_questions <$> getSavedQuiz newQuizId (fst result)) = Some []
  ∧ start_game later roomCode (fst result) = (fst result, BadRequest).
Proof.
  intros Hroom Hexisting Hblank Hshuffle result. subst result.
  unfold upload_content. rewrite Hroom, Hexisting, Hblank. cbv zeta. simpl.
  rewrite Hshuffle. simpl.
  split; [eauto|].
  split; [unfold getRoom; simpl; by rewrite lookup_insert_eq|].
  split; [unfold getSavedQuiz; simpl; by rewrite lookup_insert_eq|].
  unfold start_game, serve, getRoom. simpl. by rewrite lookup_insert_eq.
Qed.

Lemma upload_blank_content_then_start_witness :
  let req := mkUploadRequest "  " [] None None None false None in
  let result := upload_content Scenario.keepOrder Scenario.keepOrder GenRejected
                  "q8r2t5vv" 6000 Scenario.code req Scenario.loaded in
  start_game 7000 Scenario.code (fst result) = (fst result, BadRequest).
Proof.
  intros req result.
  edestruct (upload_blank_content_then_start Scenario.keepOrder Scenario.keepOrder
               GenRejected "q8r2t5vv" 6000 7000 Scenario.code req Scenario.loaded)
    as (_ & _ & _ & Hstart).
  { vm_compute. reflexivity. }
  { reflexivity. }
  { reflexivity. }
  { reflexivity. }
  exact Hstart.
Defined.

Lemma slice0_length {A} (l : list A) (e : Z) :
  List.length (slice0 l e)
  = if e <? 0 then (List.length l - Z.to_nat (- e))%nat
    else Nat.min (Z.to_nat e) (List.length l).
Proof.
  unfold slice0. destruct (e <? 0) eqn:E; rewrite length_take.
  - apply Z.ltb_lt in E. lia.
  - done.
Qed.

(** X23.  Mix mode.  With an archived quiz, text to generate from and a parsed
    generation result, the room receives the generated questions plus a part
    of the archive: [numQuestions - mixCount] archived questions (all of them
    if there are fewer) when that difference is not negative; but when more
    new questions are asked for than questions in total, the negative bound
    counts from the end, and all archived questions except the last [mixCount
    - numQuestions] of the shuffled archive are kept. *)
Theorem upload_mix_mode_count
    (shuffleArchive shuffle : list Question → list Question)
    (generated : list Question) (newQuizId : string) (now : Z)
    (roomCode quizId : string) (req : UploadRequest) (st : Store)
    (room : Room) (quiz : Quiz) :
  getRoom roomCode st = Some room →
  nonEmpty (up_useExisting req) = Some quizId →
  getSavedQuiz quizId st = Some quiz →
  up_mixMode req = true →
  isBlank (up_allContent req) = false →
  (∀ l, List.length (shuffleArchive l) = List.length l) →
  (∀ l, List.length (shuffle l) = List.length l) →
  ∃ quizName,
    snd (upload_content shuffleArchive shuffle (GenParsed generated) newQuizId now
           roomCode req st)
    = QuizGenerated
        (keptFromArchive (orElse (up_numQuestions req) 10) (orElse (up_mixCount req) 5)
           (List.length (quiz_questions quiz))
         + List.length generated)
        newQuizId quizName.
Proof.
  intros Hroom Hexisting Hquiz Hmix Hcontent HlenA Hlen.
  unfold upload_content. rewrite Hroom, Hexisting, Hquiz, Hmix, Hcontent.
  cbv zeta. simpl. eexists. f_equal.
  rewrite Hlen, length_app, slice0_length, HlenA. f_equal.
  unfold keptFromArchive.
  set (n := orElse (up_numQuestions req) 10). set (m := orElse (up_mixCount req) 5).
  destruct (n - m <? 0) eqn:E1; destruct (n <? m) eqn:E2;
    try apply Z.ltb_lt in E1; try apply Z.ltb_ge in E1;
    try apply Z.ltb_lt in E2; try apply Z.ltb_ge in E2; lia.
Qed.

Lemma upload_mix_mode_count_witness :
  let req := mkUploadRequest "notes" [] None (Some 1) (Some "k3x9qz1a"%string) true
               (Some 2) in
  ∃ quizName,
    snd (upload_content Scenario.keepOrder Scenario.keepOrder
           (GenParsed [Scenario.malformed]) "q8r2t5vv" 6000 Scenario.code req
           Scenario.loaded)
    = QuizGenerated 2 "q8r2t5vv" quizName.
Proof.
  intros req.
  edestruct (upload_mix_mode_count Scenario.keepOrder Scenario.keepOrder
               [Scenario.malformed] "q8r2t5vv" 6000 Scenario.code "k3x9qz1a" req
               Scenario.loaded) as [quizName Hrun].
  { vm_compute. reflexivity. }
  { vm_compute. reflexivity. }
  { vm_compute. reflexivity. }
  { reflexivity. }
  { reflexivity. }
  { reflexivity. }
  { reflexivity. }
  exists quizName. exact Hrun.
Defined.

(** ** Deleting and listing *)

(** X24.  Deleting an archived quiz removes that entry only: the other
    archived quizzes and all rooms, including rooms that already loaded the
    quiz, stay as they are; loading the deleted quiz afterwards is answered
    404 and changes nothing. *)
Theorem delete_quiz_then_load (shuffle : list Question → list Question) (now : Z)
    (roomCode quizId : string) (st : Store) :
  getSavedQuiz quizId (delete_quiz quizId st) = None
  ∧ (∀ other, other ≠ quizId →
       getSavedQuiz other (delete_quiz quizId st) = getSavedQuiz other st)
  ∧ (∀ code, getRoom code (delete_quiz quizId st) = getRoom code st)
  ∧ load_quiz shuffle now roomCode quizId (delete_quiz quizId st)
    = (delete_quiz quizId st, NotFound).
Proof.
  split; [unfold getSavedQuiz, delete_quiz; simpl; apply lookup_delete_eq|].
  split; [intros other Hne; unfold getSavedQuiz, delete_quiz; simpl;
          by rewrite lookup_delete_ne|].
  split; [done|].
  unfold load_quiz.
  change (getRoom roomCode (delete_quiz quizId st)) with (getRoom roomCode st).
  destruct (getRoom roomCode st); [|done].
  unfold getSavedQuiz, delete_quiz. simpl. by rewrite lookup_delete_eq.
Qed.

Lemma insertNewestFirst_perm {A} (createdAt : A → Z) (e : A) (l : list A) :
  insertNewestFirst createdAt e l ≡ₚ e :: l.
Proof.
  induction l as [|e' l IH]; simpl; [done|].
  destruct (createdAt e' <=? createdAt e); [done|].
  rewrite IH. apply Permutation_swap.
Qed.

Lemma sortNewestFirst_perm {A} (createdAt : A → Z) (l : list A) :
  sortNewestFirst createdAt l ≡ₚ l.
Proof.
  induction l as [|e l IH]; simpl; [done|].
  rewrite insertNewestFirst_perm. by rewrite IH.
Qed.

Lemma insertNewestFirst_sorted {A} (createdAt : A → Z) (e : A) (l : list A) :
  newestFirst createdAt l → newestFirst createdAt (insertNewestFirst createdAt e l).
Proof.
  unfold newestFirst. induction 1 as [|e' l Hl IH Hall]; simpl.
  - constructor; constructor.
  - destruct (createdAt e' <=? createdAt e) eqn:E.
    + apply Z.leb_le in E. constructor; [by constructor|].
      constructor; [done|].
      eapply List.Forall_impl; [|exact Hall]. simpl. intros; lia.
    + apply Z.leb_gt in E. constructor; [done|].
      rewrite insertNewestFirst_perm. constructor; [lia|done].
Qed.

Lemma sortNewestFirst_sorted {A} (createdAt : A → Z) (l : list A) :
  newestFirst createdAt (sortNewestFirst createdAt l).
Proof.
  induction l as [|e l IH]; simpl; [constructor|].
  by apply insertNewestFirst_sorted.
Qed.

Lemma In_sortNewestFirst_omap {A B} (createdAt : B → Z) (f : A → option B)
    (keys : list A) (entry : B) :
  In entry (sortNewestFirst createdAt (omap f keys))
  ↔ ∃ key, In key keys ∧ f key = Some entry.
Proof.
  rewrite <- list_elem_of_In, sortNewestFirst_perm, list_elem_of_omap.
  split; intros (key & Hkey & Hf); exists key; split; try done;
    by apply list_elem_of_In.
Qed.

(** X25.  The list of public rooms is ordered newest first and holds exactly
    the rooms that are among the enumerated keys, still stored, public and
    waiting for their game to start, each with its name, its number of players
    and whether it has questions; private rooms and rooms whose game started
    or finished are never listed. *)
Theorem getPublicRooms_lists_waiting_public_rooms (keys : list string) (st : Store) :
  newestFirst pr_createdAt (getPublicRooms keys st)
  ∧ ∀ entry,
      In entry (getPublicRooms keys st)
      ↔ In (pr_code entry) keys
        ∧ ∃ room,
            getRoom (pr_code entry) st = Some room
            ∧ isPublic room = true
            ∧ status room = StWaiting
            ∧ pr_name entry = name room
            ∧ pr_playerCount entry = List.length (players room)
            ∧ pr_hasQuiz entry = negb (List.length (questions room) =? 0)%nat
            ∧ pr_createdAt entry = createdAt room.
Proof.
  split; [apply sortNewestFirst_sorted|].
  intros entry. unfold getPublicRooms. rewrite In_sortNewestFirst_omap.
  unfold publicRoomEntry. split.
  - intros (key & Hkey & Hentry).
    destruct (getRoom key st) as [room|] eqn:Hroom; [|done].
    destruct (isPublic room) eqn:Hpub; [|done].
    destruct (bool_decide (status room = StWaiting)) eqn:Hst; [|done].
    apply bool_decide_eq_true_1 in Hst.
    simpl in Hentry. injection Hentry as <-. simpl.
    split; [done|]. exists room. by rewrite Hroom.
  - intros (Hkey & room & Hroom & Hpub & Hst & Hname & Hcount & Hquiz & Hcreated).
    exists (pr_code entry). split; [done|].
    rewrite Hroom, Hpub, (bool_decide_eq_true_2 _ Hst). simpl.
    destruct entry. simpl in *. by subst.
Qed.

(** X26.  The list of saved quizzes is ordered newest first and holds exactly
    the enumerated keys that are still archived, each with its name, its
    number of questions and its creation time. *)
Theorem listSavedQuizzes_lists_archive (keys : list string) (st : Store) :
  newestFirst sq_createdAt (listSavedQuizzes keys st)
  ∧ ∀ entry,
      In entry (listSavedQuizzes keys st)
      ↔ In (sq_id entry) keys
        ∧ ∃ quiz,
            getSavedQuiz (sq_id entry) st = Some quiz
            ∧ sq_name entry = quiz_name quiz
            ∧ sq_questionCount entry = List.length (quiz_questions quiz)
            ∧ sq_createdAt entry = quiz_createdAt quiz.
Proof.
  split; [apply sortNewestFirst_sorted|].
  intros entry. unfold listSavedQuizzes. rewrite In_sortNewestFirst_omap.
  unfold savedQuizEntry. split.
  - intros (key & Hkey & Hentry).
    destruct (getSavedQuiz key st) as [quiz|] eqn:Hquiz; [|done].
    injection Hentry as <-. simpl. split; [done|]. exists quiz. by rewrite Hquiz.
  - intros (Hkey & quiz & Hquiz & Hname & Hcount & Hcreated).
    exists (sq_id entry). split; [done|]. rewrite Hquiz.
    destruct entry. simpl in *. by subst.
Qed.

(** A room disappears from the public list as soon as its game starts. *)
Example started_room_is_not_listed :
  pr_code <$> getPublicRooms ["9V9ROS"%string] Scenario.loaded = ["9V9ROS"%string]
  ∧ getPublicRooms ["9V9ROS"%string] Scenario.started = [].
Proof. vm_compute. split; reflexivity. Qed.

(** * Properties of the in-memory server *)

Lemma InMemory_fold_resetPlayer_history (ps : list Player)
    (sc : JsObject.t Z) (pa : JsObject.t (list AnswerRecord)) (k : string)
    (h : list AnswerRecord) :
  JsObject.get k (snd (fold_left InMemory.resetPlayer ps (sc, pa))) = Some h →
  h = [] ∨ JsObject.get k pa = Some h.
Proof.
  revert sc pa. induction ps as [|p ps IH]; intros sc pa; simpl; [by right|].
  intros Hh. destruct (IH _ _ Hh) as [->|Hk]; [by left|].
  destruct (decide (k = p_name p)) as [->|Hne].
  - rewrite JsObjectFacts.get_set_eq in Hk. left. congruence.
  - rewrite JsObjectFacts.get_set_ne in Hk by done. by right.
Qed.

Lemma InMemory_alreadyAnswered_false (room : InMemory.Room) (h : list AnswerRecord) :
  InMemory.alreadyAnswered room h = false →
  ¬ In (InMemory.currentQuestion room) (map a_questionIndex h).
Proof.
  unfold InMemory.alreadyAnswered. intros Hfalse Hin.
  apply in_map_iff in Hin as (a & Hidx & Ha).
  assert (existsb (λ a, (a_questionIndex a =? InMemory.currentQuestion room)%nat) h = true).
  { apply existsb_exists. exists a. split; [done|]. by apply Nat.eqb_eq. }
  congruence.
Qed.

Lemma InMemory_handle_keeps_one_record (request : InMemory.Request) (st : InMemory.Rooms) :
  InMemory.AllOneRecord st → InMemory.AllOneRecord (InMemory.handle request st).
Proof.
  intros Hst.
  assert (Hput : ∀ code room, InMemory.OneRecord room →
            InMemory.AllOneRecord (<[code := room]> st)).
  { intros code room Hroom code' r.
    destruct (decide (code = code')) as [->|Hne].
    - rewrite lookup_insert_eq. by intros [= <-].
    - rewrite lookup_insert_ne by done. apply Hst. }
  destruct request as [random now|now code p|now code|now code p idx|now code]; simpl.
  - apply Hput. intros k h H. discriminate H.
  - unfold InMemory.join_room.
    destruct (st !! code) as [room|] eqn:Hroom; [|done].
    pose proof (Hst code room Hroom) as Hone.
    destruct (hasPlayer p (InMemory.players room)); simpl; apply Hput; [done|].
    intros k h. simpl. destruct (decide (k = p)) as [->|Hne].
    + rewrite JsObjectFacts.get_set_eq. intros [= <-]. constructor.
    + rewrite JsObjectFacts.get_set_ne by done. apply Hone.
  - unfold InMemory.start_game.
    destruct (st !! code) as [room|] eqn:Hroom; [|done].
    pose proof (Hst code room Hroom) as Hone.
    destruct (List.length (InMemory.questions room) =? 0)%nat; [done|].
    destruct (fold_left InMemory.resetPlayer (InMemory.players room)
                (InMemory.scores room, InMemory.playerAnswers room)) as [sc pa] eqn:E.
    simpl. apply Hput. intros k h. simpl. intros Hh.
    assert (Hpa : pa = snd (fold_left InMemory.resetPlayer (InMemory.players room)
                              (InMemory.scores room, InMemory.playerAnswers room)))
      by (by rewrite E).
    rewrite Hpa in Hh.
    destruct (InMemory_fold_resetPlayer_history _ _ _ _ _ Hh) as [->|Hk];
      [constructor|by apply (Hone k)].
  - unfold InMemory.submit_answer.
    destruct (st !! code) as [room|] eqn:Hroom; [|done].
    pose proof (Hst code room Hroom) as Hone.
    destruct (negb _); [done|].
    destruct (InMemory.questions room !! InMemory.currentQuestion room); [|done].
    destruct (JsObject.get p (InMemory.playerAnswers room)) as [h|] eqn:Hh;
      [|simpl; by apply Hput].
    destruct (InMemory.alreadyAnswered room h) eqn:Hdup; simpl; apply Hput; [done|].
    intros k h'. simpl. destruct (decide (k = p)) as [->|Hne].
    + rewrite JsObjectFacts.get_set_eq. intros [= <-].
      rewrite map_app. simpl. apply NoDup_snoc; [|by apply (Hone p)].
      by apply InMemory_alreadyAnswered_false.
    + rewrite JsObjectFacts.get_set_ne by done. apply Hone.
  - unfold InMemory.next_question.
    destruct (st !! code) as [room|] eqn:Hroom; [|done].
    simpl. apply Hput. exact (Hst code room Hroom).
Qed.

(** X27.  On the in-memory server the duplicate check looks for a record of
    the current question in the player's history.  Starting from rooms whose
    histories hold at most one record per question, every sequence of create,
    join, start, submit and next-question requests, with any option indices
    including 0, leaves at most one record for every player and question. *)
Theorem InMemory_one_record_per_question (requests : list InMemory.Request)
    (st : InMemory.Rooms) (roomCode : string) (room : InMemory.Room)
    (k : string) (questionIndex : nat) :
  InMemory.AllOneRecord st →
  InMemory.roomsFrom st requests !! roomCode = Some room →
  (List.length (recordsFor questionIndex (InMemory.historyOf k room)) <= 1)%nat.
Proof.
  intros Hst Hroom.
  assert (Hall : InMemory.AllOneRecord (InMemory.roomsFrom st requests)).
  { clear Hroom. revert st Hst. unfold InMemory.roomsFrom.
    induction requests as [|request requests IH]; intros st Hst; simpl; [done|].
    apply IH. by apply InMemory_handle_keeps_one_record. }
  unfold InMemory.historyOf.
  destruct (JsObject.get k (InMemory.playerAnswers room)) as [h|] eqn:E; simpl.
  - apply recordsFor_at_most_one. by apply (Hall roomCode room Hroom k).
  - unfold recordsFor. simpl. lia.
Qed.

Lemma InMemory_one_record_per_question_witness :
  ∃ room,
    InMemory.roomsFrom InMemory.playing
      [InMemory.SubmitAnswer 15000 "ROOM42" "ana" 0;
       InMemory.SubmitAnswer 16000 "ROOM42" "ana" 0] !! "ROOM42"%string = Some room
    ∧ (List.length (recordsFor 0 (InMemory.historyOf "ana" room)) <= 1)%nat
    ∧ InMemory.scoreOf "ana" room = 1500.
Proof.
  eexists. split; [vm_compute; reflexivity|]. split.
  - apply (InMemory_one_record_per_question
             [InMemory.SubmitAnswer 15000 "ROOM42" "ana" 0;
              InMemory.SubmitAnswer 16000 "ROOM42" "ana" 0]
             InMemory.playing "ROOM42").
    + intros code room. unfold InMemory.playing.
      destruct (decide (code = "ROOM42"%string)) as [->|Hne].
      * rewrite lookup_singleton_eq. intros [= <-] k h. simpl.
        destruct (String.eqb k "ana"); intros [= <-]. constructor.
      * rewrite lookup_singleton_ne by done. discriminate.
    + vm_compute. reflexivity.
  - vm_compute. reflexivity.
Defined.



Lemma InMemory_next_question_step (now : Z) (roomCode : string)
    (st : InMemory.Rooms) (room : InMemory.Room) :
  st !! roomCode = Some room →
  ∃ room',
    InMemory.next_question now roomCode st
    = (<[roomCode := room']> st, InMemory.Advanced (InMemory.status room'))
    ∧ InMemory.currentQuestion room' = S (InMemory.currentQuestion room)
    ∧ InMemory.questions room' = InMemory.questions room
    ∧ InMemory.scores room' = InMemory.scores room
    ∧ InMemory.playerAnswers room' = InMemory.playerAnswers room
    ∧ InMemory.status room'
      = if (List.length (InMemory.questions room) <=? S (InMemory.currentQuestion room))%nat
        then StFinished else InMemory.status room.
Proof.
  intros Hroom. unfold InMemory.next_question. rewrite Hroom.
  eexists. split; [reflexivity|]. repeat split.
Qed.

(** X29.  On the in-memory server next-question does not look at the status of
    the room or at who asks.  After any number [n >= 1] of calls the question
    index has grown by [n] (it is not capped at the number of questions), the
    scores and histories are untouched, and the room is finished if and only
    if it was finished before or the index has reached the number of
    questions: so a waiting room is advanced, and finished, without ever
    having been started. *)
Theorem InMemory_next_question_repeated (nows : list Z) (roomCode : string)
    (st : InMemory.Rooms) (room : InMemory.Room) :
  st !! roomCode = Some room →
  nows ≠ [] →
  ∃ room',
    InMemory.roomsFrom st (map (λ now, InMemory.NextQuestion now roomCode) nows)
      !! roomCode = Some room'
    ∧ InMemory.currentQuestion room'
      = (InMemory.currentQuestion room + List.length nows)%nat
    ∧ InMemory.scores room' = InMemory.scores room
    ∧ InMemory.playerAnswers room' = InMemory.playerAnswers room
    ∧ (InMemory.status room' = StFinished
       ↔ InMemory.status room = StFinished
         ∨ (List.length (InMemory.questions room)
            <= InMemory.currentQuestion room + List.length nows)%nat)
    ∧ (InMemory.status room' ≠ StFinished → InMemory.status room' = InMemory.status room).
Proof.
  intros Hroom Hne. revert st room Hroom.
  induction nows as [|now nows IH]; [done|]. intros st room Hroom. clear Hne.
  destruct (InMemory_next_question_step now roomCode st room Hroom)
    as (room1 & Hrun & Hcur & Hqs & Hs & Hh & Hst).
  simpl. unfold InMemory.roomsFrom in *. simpl. rewrite Hrun. simpl fst.
  destruct nows as [|now' nows].
  - simpl. exists room1. rewrite lookup_insert_eq. split; [done|].
    split; [lia|]. split; [done|]. split; [done|].
    rewrite Hst.
    destruct (List.length (InMemory.questions room) <=? S (InMemory.currentQuestion room))%nat
      eqn:E.
    + apply Nat.leb_le in E. split; [|done]. split; [|done]. intros _. right. lia.
    + apply Nat.leb_gt in E. split; [|done]. split; [tauto|]. intros [H|H]; [done|lia].
  - destruct (IH ltac:(done) (<[roomCode := room1]> st) room1) as
      (room' & Hget & Hcur' & Hs' & Hh' & Hfin & Hkeep).
    { apply lookup_insert_eq. }
    exists room'. split; [exact Hget|].
    split; [rewrite Hcur', Hcur; simpl; lia|].
    split; [congruence|]. split; [congruence|].
    rewrite Hqs, Hcur in Hfin.
    destruct (List.length (InMemory.questions room) <=? S (InMemory.currentQuestion room))%nat
      eqn:E.
    + apply Nat.leb_le in E. split.
      * rewrite Hfin. split; [|intros _; by left]. intros _. right. simpl. lia.
      * intros Hnot. exfalso. apply Hnot. apply Hfin. by left.
    + apply Nat.leb_gt in E. rewrite Hst in *. split.
      * rewrite Hfin. simpl. split; (intros [H|H]; [by left|right; lia]).
      * intros Hnot. rewrite (Hkeep Hnot). done.
Qed.

Lemma InMemory_next_question_repeated_witness :
  ∃ room',
    InMemory.roomsFrom InMemory.playing
      (map (λ now, InMemory.NextQuestion now "ROOM42") [20000; 30000; 40000])
      !! "ROOM42"%string = Some room'
    ∧ InMemory.currentQuestion room' = 3%nat
    ∧ InMemory.status room' = StFinished.
Proof.
  edestruct (InMemory_next_question_repeated [20000; 30000; 40000] "ROOM42"
               InMemory.playing) as (room' & Hget & Hcur & _ & _ & Hfin & _).
  { vm_compute. reflexivity. }
  { intros H. discriminate H. }
  exists room'. split; [exact Hget|]. split.
  - rewrite Hcur. vm_compute. reflexivity.
  - apply Hfin. right. vm_compute. lia.
Defined.

(** * Creating a room and reading its summary *)

(** create-room stores a fresh room under the code it returns, without
    checking whether the code is in use: whatever was stored under that code
    is replaced, and every other room and the archive are untouched.  The
    first join with the returned code finds a waiting room and leaves it
    with exactly that one player, with score 0; a start-game is refused
    because the room has no questions. *)
Theorem create_room_then_join (random : N) (roomName : option string)
    (isPublicArg : option bool) (now later : Z) (playerName : string) (st : Store) :
  let created := create_room random roomName isPublicArg now st in
  let roomCode := snd created in
  getRoom roomCode (fst created) = Some (newRoom roomName isPublicArg now)
  ∧ (∀ other, other ≠ roomCode → getRoom other (fst created) = getRoom other st)
  ∧ quizzes (fst created) = quizzes st
  ∧ snd (join_room later roomCode playerName (fst created))
    = Joined [mkPlayer playerName later] [(playerName, 0)] StWaiting
  ∧ start_game later roomCode (fst created) = (fst created, BadRequest).
Proof.
  intros created roomCode. subst created roomCode. unfold create_room. simpl fst. simpl snd.
  split; [apply getRoom_setRoom|].
  split; [intros other Hne; by apply getRoom_setRoom_ne|].
  split; [done|].
  unfold join_room, start_game, serve. rewrite getRoom_setRoom. by simpl.
Qed.

(** The room summary and start-game agree: the summary reports that the
    room has a quiz exactly when a start-game on the same store is accepted,
    its two question counts are the length of the question list, and it
    reads the store without changing it (a missing room is the 404
    answer). *)
Theorem room_state_agrees_with_start_game (now : Z) (roomCode : string) (st : Store) :
  (get_room_state roomCode st = None ↔ getRoom roomCode st = None)
  ∧ ∀ summary,
      get_room_state roomCode st = Some summary →
      (rs_hasQuiz summary = true ↔ snd (start_game now roomCode st) = Started)
      ∧ (rs_hasQuiz summary = false ↔ start_game now roomCode st = (st, BadRequest))
      ∧ rs_questionCount summary = rs_totalQuestions summary
      ∧ (rs_hasQuiz summary = true ↔ (0 < rs_totalQuestions summary)%nat).
Proof.
  unfold get_room_state, start_game, serve, start_game_body.
  destruct (getRoom roomCode st) as [room|] eqn:Hroom.
  - split; [split; discriminate|].
    intros summary [= <-]. simpl.
    destruct (questions room) as [|q qs]; simpl.
    + repeat split; try done; try discriminate; lia.
    + repeat split; try done; try discriminate; try lia.
  - split; [done|]. intros summary H. discriminate H.
Qed.

Lemma room_state_agrees_with_start_game_witness :
  ∃ summary,
    get_room_state Scenario.code Scenario.loaded = Some summary
    ∧ snd (start_game 10000 Scenario.code Scenario.loaded) = Started.
Proof.
  eexists. split; [vm_compute; reflexivity|].
  edestruct (room_state_agrees_with_start_game 10000 Scenario.code Scenario.loaded)
    as [_ Hsummary].
  edestruct Hsummary as [Hstart _].
  { vm_compute. reflexivity. }
  apply Hstart. vm_compute. reflexivity.
Defined.

(** * Leaving and rejoining on the socket server *)

(** X30.  On the socket server a disconnect removes the players registered
    with that connection from the player list but keeps the scores and the
    histories.  If the player then joins again under the same name (on a new
    connection) the name is no longer found in the list, so the player is
    registered anew: the score is set back to 0 and the history is emptied,
    whatever they were. *)
Theorem SocketServer_rejoin_resets_score (old new : SocketServer.Socket)
    (code who : string) (st : SocketServer.Rooms) (room : SocketServer.Room) :
  st !! code = Some room →
  nonEmpty (SocketServer.roomCode old) = Some code →
  SocketServer.hasName who
    (List.filter (λ p, negb (String.eqb (SocketServer.id p) (SocketServer.socketId old)))
       (SocketServer.players room)) = false →
  ∃ left rejoined,
    fst (SocketServer.disconnect old st) !! code = Some left
    ∧ SocketServer.scores left = SocketServer.scores room
    ∧ SocketServer.playerAnswers left = SocketServer.playerAnswers room
    ∧ SocketServer.hasName who (SocketServer.players left) = false
    ∧ fst (fst (SocketServer.join_room new code who (fst (SocketServer.disconnect old st))))
        !! code = Some rejoined
    ∧ JsObject.get who (SocketServer.scores rejoined) = Some 0
    ∧ JsObject.get who (SocketServer.playerAnswers rejoined) = Some []
    ∧ SocketServer.players rejoined
      = SocketServer.players left
        ++ [SocketServer.mkPlayer (SocketServer.socketId new) who]
    ∧ (∀ other, other ≠ who →
         JsObject.get other (SocketServer.scores rejoined)
         = JsObject.get other (SocketServer.scores room)).
Proof.
  intros Hroom Hcode Hgone.
  unfold SocketServer.disconnect. rewrite Hcode, Hroom. simpl fst.
  eexists. eexists. split; [apply lookup_insert_eq|]. simpl.
  split; [done|]. split; [done|]. split; [exact Hgone|].
  unfold SocketServer.join_room. rewrite lookup_insert_eq. simpl.
  rewrite Hgone. simpl. split; [apply lookup_insert_eq|]. simpl.
  split; [apply JsObjectFacts.get_set_eq|].
  split; [apply JsObjectFacts.get_set_eq|].
  split; [done|].
  intros other Hne. by apply JsObjectFacts.get_set_ne.
Qed.

Lemma SocketServer_rejoin_resets_score_witness :
  let old := SocketServer.mkSocket "s1" (Some "ROOM42"%string) (Some "ana"%string) in
  let new := SocketServer.mkSocket "s9" None None in
  ∃ rejoined,
    fst (fst (SocketServer.join_room new "ROOM42" "ana"
                (fst (SocketServer.disconnect old SocketServer.inGame))))
      !! "ROOM42"%string = Some rejoined
    ∧ JsObject.get "ana" (SocketServer.scores rejoined) = Some 0.
Proof.
  intros old new.
  edestruct (SocketServer_rejoin_resets_score old new "ROOM42" "ana" SocketServer.inGame)
    as (left & rejoined & _ & _ & _ & _ & Hget & Hscore & _).
  { vm_compute. reflexivity. }
  { reflexivity. }
  { vm_compute. reflexivity. }
  exists rejoined. split; [exact Hget|exact Hscore].
Defined.
